(** * notify.py: a shallow embedding and its verified properties

    The script reads a JSON payload describing a finished assistant
    session, extracts the conversation, renders a plain-text and an HTML
    summary, and mails them.  Python values are embedded as an inductive
    type of JSON data, [str] as a list of Unicode code points, raised
    exceptions as the [Raise] branch of a result type, and the process
    environment (variables, arguments, standard input, clock, SMTP peer)
    as an explicit [world] threaded through the effectful functions. *)

From Stdlib Require Import Ascii String DecimalString SpecFloat.
From Stdlib Require Import List ZArith NArith Bool Lia.
Import ListNotations.

Set Implicit Arguments.
Set Warnings "-register-all".

(* ================================================================= *)
(** ** Python [str]: sequences of code points *)

Definition char := N.
Definition str := list char.

(** Literals are written as UTF-8 Rocq strings and decoded once. *)
Fixpoint utf8_decode (bs : list N) : str :=
  match bs with
  | [] => []
  | b0 :: r0 =>
    if (b0 <? 128)%N then b0 :: utf8_decode r0
    else match r0 with
    | [] => []
    | b1 :: r1 =>
      if (b0 <? 224)%N then
        ((b0 - 192) * 64 + (b1 - 128))%N :: utf8_decode r1
      else match r1 with
      | [] => []
      | b2 :: r2 =>
        if (b0 <? 240)%N then
          ((b0 - 224) * 4096 + (b1 - 128) * 64 + (b2 - 128))%N
            :: utf8_decode r2
        else match r2 with
        | [] => []
        | b3 :: r3 =>
          ((b0 - 240) * 262144 + (b1 - 128) * 4096
             + (b2 - 128) * 64 + (b3 - 128))%N :: utf8_decode r3
        end
      end
    end
  end.

Definition u (s : string) : str :=
  utf8_decode (map N_of_ascii (list_ascii_of_string s)).

Arguments u s : simpl never.

Fixpoint str_eqb (a b : str) : bool :=
  match a, b with
  | [], [] => true
  | x :: a', y :: b' => (x =? y)%N && str_eqb a' b'
  | _, _ => false
  end.

(** [bool(s)] for a string: true when non-empty. *)
Definition nonempty (A : Type) (l : list A) : bool :=
  match l with [] => false | _ => true end.

Definition newline : char := 10%N.

(** The separator of two line feeds. *)
Definition blank_line : str := [newline; newline].

(** [str.join] *)
Fixpoint join (sep : str) (l : list str) : str :=
  match l with
  | [] => []
  | [x] => x
  | x :: r => x ++ sep ++ join sep r
  end.

(** [str.isspace] on one code point (the set CPython's [strip] uses). *)
Definition is_space (c : char) : bool :=
  ((9 <=? c) && (c <=? 13) || (28 <=? c) && (c <=? 32)
   || (c =? 133) || (c =? 160) || (c =? 5760)
   || (8192 <=? c) && (c <=? 8202)
   || (c =? 8232) || (c =? 8233) || (c =? 8239) || (c =? 8287)
   || (c =? 12288))%N.

Fixpoint lstrip (s : str) : str :=
  match s with
  | c :: r => if is_space c then lstrip r else s
  | [] => []
  end.

Definition rstrip (s : str) : str := rev (lstrip (rev s)).

(** [str.strip()] *)
Definition strip (s : str) : str := rstrip (lstrip s).

(** [str.lower()], with the case tables of Unicode 14.0 (those of
    CPython 3.11).  A run [(first, last, step, target)] lowers the code
    points [first], [first + step], ..., [last] to [target],
    [target + step], ... *)
Definition lower_runs : list (N * N * N * N) :=
  [(65, 90, 1, 97); (192, 214, 1, 224); (216, 222, 1, 248); (256, 302, 2,
   257); (306, 310, 2, 307); (313, 327, 2, 314); (330, 374, 2, 331); (376,
   376, 1, 255); (377, 381, 2, 378); (385, 385, 1, 595); (386, 388, 2, 387);
   (390, 390, 1, 596); (391, 391, 1, 392); (393, 394, 1, 598); (395, 395, 1,
   396); (398, 398, 1, 477); (399, 399, 1, 601); (400, 400, 1, 603); (401,
   401, 1, 402); (403, 403, 1, 608); (404, 404, 1, 611); (406, 406, 1, 617);
   (407, 407, 1, 616); (408, 408, 1, 409); (412, 412, 1, 623); (413, 413, 1,
   626); (415, 415, 1, 629); (416, 420, 2, 417); (422, 422, 1, 640); (423,
   423, 1, 424); (425, 425, 1, 643); (428, 428, 1, 429); (430, 430, 1, 648);
   (431, 431, 1, 432); (433, 434, 1, 650); (435, 437, 2, 436); (439, 439, 1,
   658); (440, 440, 1, 441); (444, 444, 1, 445); (452, 452, 1, 454); (453,
   453, 1, 454); (455, 455, 1, 457); (456, 456, 1, 457); (458, 458, 1, 460);
   (459, 475, 2, 460); (478, 494, 2, 479); (497, 497, 1, 499); (498, 500, 2,
   499); (502, 502, 1, 405); (503, 503, 1, 447); (504, 542, 2, 505); (544,
   544, 1, 414); (546, 562, 2, 547); (570, 570, 1, 11365); (571, 571, 1,
   572); (573, 573, 1, 410); (574, 574, 1, 11366); (577, 577, 1, 578); (579,
   579, 1, 384); (580, 580, 1, 649); (581, 581, 1, 652); (582, 590, 2, 583);
   (880, 882, 2, 881); (886, 886, 1, 887); (895, 895, 1, 1011); (902, 902, 1,
   940); (904, 906, 1, 941); (908, 908, 1, 972); (910, 911, 1, 973); (913,
   929, 1, 945); (932, 939, 1, 964); (975, 975, 1, 983); (984, 1006, 2, 985);
   (1012, 1012, 1, 952); (1015, 1015, 1, 1016); (1017, 1017, 1, 1010); (1018,
   1018, 1, 1019); (1021, 1023, 1, 891); (1024, 1039, 1, 1104); (1040, 1071,
   1, 1072); (1120, 1152, 2, 1121); (1162, 1214, 2, 1163); (1216, 1216, 1,
   1231); (1217, 1229, 2, 1218); (1232, 1326, 2, 1233); (1329, 1366, 1,
   1377); (4256, 4293, 1, 11520); (4295, 4295, 1, 11559); (4301, 4301, 1,
   11565); (5024, 5103, 1, 43888); (5104, 5109, 1, 5112); (7312, 7354, 1,
   4304); (7357, 7359, 1, 4349); (7680, 7828, 2, 7681); (7838, 7838, 1, 223);
   (7840, 7934, 2, 7841); (7944, 7951, 1, 7936); (7960, 7965, 1, 7952);
   (7976, 7983, 1, 7968); (7992, 7999, 1, 7984); (8008, 8013, 1, 8000);
   (8025, 8031, 2, 8017); (8040, 8047, 1, 8032); (8072, 8079, 1, 8064);
   (8088, 8095, 1, 8080); (8104, 8111, 1, 8096); (8120, 8121, 1, 8112);
   (8122, 8123, 1, 8048); (8124, 8124, 1, 8115); (8136, 8139, 1, 8050);
   (8140, 8140, 1, 8131); (8152, 8153, 1, 8144); (8154, 8155, 1, 8054);
   (8168, 8169, 1, 8160); (8170, 8171, 1, 8058); (8172, 8172, 1, 8165);
   (8184, 8185, 1, 8056); (8186, 8187, 1, 8060); (8188, 8188, 1, 8179);
   (8486, 8486, 1, 969); (8490, 8490, 1, 107); (8491, 8491, 1, 229); (8498,
   8498, 1, 8526); (8544, 8559, 1, 8560); (8579, 8579, 1, 8580); (9398, 9423,
   1, 9424); (11264, 11311, 1, 11312); (11360, 11360, 1, 11361); (11362,
   11362, 1, 619); (11363, 11363, 1, 7549); (11364, 11364, 1, 637); (11367,
   11371, 2, 11368); (11373, 11373, 1, 593); (11374, 11374, 1, 625); (11375,
   11375, 1, 592); (11376, 11376, 1, 594); (11378, 11378, 1, 11379); (11381,
   11381, 1, 11382); (11390, 11391, 1, 575); (11392, 11490, 2, 11393);
   (11499, 11501, 2, 11500); (11506, 11506, 1, 11507); (42560, 42604, 2,
   42561); (42624, 42650, 2, 42625); (42786, 42798, 2, 42787); (42802, 42862,
   2, 42803); (42873, 42875, 2, 42874); (42877, 42877, 1, 7545); (42878,
   42886, 2, 42879); (42891, 42891, 1, 42892); (42893, 42893, 1, 613);
   (42896, 42898, 2, 42897); (42902, 42920, 2, 42903); (42922, 42922, 1,
   614); (42923, 42923, 1, 604); (42924, 42924, 1, 609); (42925, 42925, 1,
   620); (42926, 42926, 1, 618); (42928, 42928, 1, 670); (42929, 42929, 1,
   647); (42930, 42930, 1, 669); (42931, 42931, 1, 43859); (42932, 42946, 2,
   42933); (42948, 42948, 1, 42900); (42949, 42949, 1, 642); (42950, 42950,
   1, 7566); (42951, 42953, 2, 42952); (42960, 42960, 1, 42961); (42966,
   42968, 2, 42967); (42997, 42997, 1, 42998); (65313, 65338, 1, 65345);
   (66560, 66599, 1, 66600); (66736, 66771, 1, 66776); (66928, 66964, 2,
   66967); (66929, 66937, 2, 66968); (66941, 66953, 2, 66980); (66957, 66961,
   2, 66996); (66965, 66965, 1, 67004); (68736, 68786, 1, 68800); (71840,
   71871, 1, 71872); (93760, 93791, 1, 93792); (125184, 125217, 1, 125218)]%N.

(** The ranges of the case-ignorable code points. *)
Definition case_ignorable_ranges : list (N * N) :=
  [(39, 39); (46, 46); (58, 58); (94, 94); (96, 96); (168, 168); (173, 173);
   (175, 175); (180, 180); (183, 184); (688, 879); (884, 885); (890, 890);
   (900, 901); (903, 903); (1155, 1161); (1369, 1369); (1375, 1375); (1425,
   1469); (1471, 1471); (1473, 1474); (1476, 1477); (1479, 1479); (1524,
   1524); (1536, 1541); (1552, 1562); (1564, 1564); (1600, 1600); (1611,
   1631); (1648, 1648); (1750, 1757); (1759, 1768); (1770, 1773); (1807,
   1807); (1809, 1809); (1840, 1866); (1958, 1968); (2027, 2037); (2042,
   2042); (2045, 2045); (2070, 2093); (2137, 2139); (2184, 2184); (2192,
   2193); (2200, 2207); (2249, 2306); (2362, 2362); (2364, 2364); (2369,
   2376); (2381, 2381); (2385, 2391); (2402, 2403); (2417, 2417); (2433,
   2433); (2492, 2492); (2497, 2500); (2509, 2509); (2530, 2531); (2558,
   2558); (2561, 2562); (2620, 2620); (2625, 2626); (2631, 2632); (2635,
   2637); (2641, 2641); (2672, 2673); (2677, 2677); (2689, 2690); (2748,
   2748); (2753, 2757); (2759, 2760); (2765, 2765); (2786, 2787); (2810,
   2815); (2817, 2817); (2876, 2876); (2879, 2879); (2881, 2884); (2893,
   2893); (2901, 2902); (2914, 2915); (2946, 2946); (3008, 3008); (3021,
   3021); (3072, 3072); (3076, 3076); (3132, 3132); (3134, 3136); (3142,
   3144); (3146, 3149); (3157, 3158); (3170, 3171); (3201, 3201); (3260,
   3260); (3263, 3263); (3270, 3270); (3276, 3277); (3298, 3299); (3328,
   3329); (3387, 3388); (3393, 3396); (3405, 3405); (3426, 3427); (3457,
   3457); (3530, 3530); (3538, 3540); (3542, 3542); (3633, 3633); (3636,
   3642); (3654, 3662); (3761, 3761); (3764, 3772); (3782, 3782); (3784,
   3789); (3864, 3865); (3893, 3893); (3895, 3895); (3897, 3897); (3953,
   3966); (3968, 3972); (3974, 3975); (3981, 3991); (3993, 4028); (4038,
   4038); (4141, 4144); (4146, 4151); (4153, 4154); (4157, 4158); (4184,
   4185); (4190, 4192); (4209, 4212); (4226, 4226); (4229, 4230); (4237,
   4237); (4253, 4253); (4348, 4348); (4957, 4959); (5906, 5908); (5938,
   5939); (5970, 5971); (6002, 6003); (6068, 6069); (6071, 6077); (6086,
   6086); (6089, 6099); (6103, 6103); (6109, 6109); (6155, 6159); (6211,
   6211); (6277, 6278); (6313, 6313); (6432, 6434); (6439, 6440); (6450,
   6450); (6457, 6459); (6679, 6680); (6683, 6683); (6742, 6742); (6744,
   6750); (6752, 6752); (6754, 6754); (6757, 6764); (6771, 6780); (6783,
   6783); (6823, 6823); (6832, 6862); (6912, 6915); (6964, 6964); (6966,
   6970); (6972, 6972); (6978, 6978); (7019, 7027); (7040, 7041); (7074,
   7077); (7080, 7081); (7083, 7085); (7142, 7142); (7144, 7145); (7149,
   7149); (7151, 7153); (7212, 7219); (7222, 7223); (7288, 7293); (7376,
   7378); (7380, 7392); (7394, 7400); (7405, 7405); (7412, 7412); (7416,
   7417); (7468, 7530); (7544, 7544); (7579, 7679); (8125, 8125); (8127,
   8129); (8141, 8143); (8157, 8159); (8173, 8175); (8189, 8190); (8203,
   8207); (8216, 8217); (8228, 8228); (8231, 8231); (8234, 8238); (8288,
   8292); (8294, 8303); (8305, 8305); (8319, 8319); (8336, 8348); (8400,
   8432); (11388, 11389); (11503, 11505); (11631, 11631); (11647, 11647);
   (11744, 11775); (11823, 11823); (12293, 12293); (12330, 12333); (12337,
   12341); (12347, 12347); (12441, 12446); (12540, 12542); (40981, 40981);
   (42232, 42237); (42508, 42508); (42607, 42610); (42612, 42621); (42623,
   42623); (42652, 42655); (42736, 42737); (42752, 42785); (42864, 42864);
   (42888, 42890); (42994, 42996); (43000, 43001); (43010, 43010); (43014,
   43014); (43019, 43019); (43045, 43046); (43052, 43052); (43204, 43205);
   (43232, 43249); (43263, 43263); (43302, 43309); (43335, 43345); (43392,
   43394); (43443, 43443); (43446, 43449); (43452, 43453); (43471, 43471);
   (43493, 43494); (43561, 43566); (43569, 43570); (43573, 43574); (43587,
   43587); (43596, 43596); (43632, 43632); (43644, 43644); (43696, 43696);
   (43698, 43700); (43703, 43704); (43710, 43711); (43713, 43713); (43741,
   43741); (43756, 43757); (43763, 43764); (43766, 43766); (43867, 43871);
   (43881, 43883); (44005, 44005); (44008, 44008); (44013, 44013); (64286,
   64286); (64434, 64450); (65024, 65039); (65043, 65043); (65056, 65071);
   (65106, 65106); (65109, 65109); (65279, 65279); (65287, 65287); (65294,
   65294); (65306, 65306); (65342, 65342); (65344, 65344); (65392, 65392);
   (65438, 65439); (65507, 65507); (65529, 65531); (66045, 66045); (66272,
   66272); (66422, 66426); (67456, 67461); (67463, 67504); (67506, 67514);
   (68097, 68099); (68101, 68102); (68108, 68111); (68152, 68154); (68159,
   68159); (68325, 68326); (68900, 68903); (69291, 69292); (69446, 69456);
   (69506, 69509); (69633, 69633); (69688, 69702); (69744, 69744); (69747,
   69748); (69759, 69761); (69811, 69814); (69817, 69818); (69821, 69821);
   (69826, 69826); (69837, 69837); (69888, 69890); (69927, 69931); (69933,
   69940); (70003, 70003); (70016, 70017); (70070, 70078); (70089, 70092);
   (70095, 70095); (70191, 70193); (70196, 70196); (70198, 70199); (70206,
   70206); (70367, 70367); (70371, 70378); (70400, 70401); (70459, 70460);
   (70464, 70464); (70502, 70508); (70512, 70516); (70712, 70719); (70722,
   70724); (70726, 70726); (70750, 70750); (70835, 70840); (70842, 70842);
   (70847, 70848); (70850, 70851); (71090, 71093); (71100, 71101); (71103,
   71104); (71132, 71133); (71219, 71226); (71229, 71229); (71231, 71232);
   (71339, 71339); (71341, 71341); (71344, 71349); (71351, 71351); (71453,
   71455); (71458, 71461); (71463, 71467); (71727, 71735); (71737, 71738);
   (71995, 71996); (71998, 71998); (72003, 72003); (72148, 72151); (72154,
   72155); (72160, 72160); (72193, 72202); (72243, 72248); (72251, 72254);
   (72263, 72263); (72273, 72278); (72281, 72283); (72330, 72342); (72344,
   72345); (72752, 72758); (72760, 72765); (72767, 72767); (72850, 72871);
   (72874, 72880); (72882, 72883); (72885, 72886); (73009, 73014); (73018,
   73018); (73020, 73021); (73023, 73029); (73031, 73031); (73104, 73105);
   (73109, 73109); (73111, 73111); (73459, 73460); (78896, 78904); (92912,
   92916); (92976, 92982); (92992, 92995); (94031, 94031); (94095, 94111);
   (94176, 94177); (94179, 94180); (110576, 110579); (110581, 110587);
   (110589, 110590); (113821, 113822); (113824, 113827); (118528, 118573);
   (118576, 118598); (119143, 119145); (119155, 119170); (119173, 119179);
   (119210, 119213); (119362, 119364); (121344, 121398); (121403, 121452);
   (121461, 121461); (121476, 121476); (121499, 121503); (121505, 121519);
   (122880, 122886); (122888, 122904); (122907, 122913); (122915, 122916);
   (122918, 122922); (123184, 123197); (123566, 123566); (123628, 123631);
   (125136, 125142); (125252, 125259); (127995, 127999); (917505, 917505);
   (917536, 917631); (917760, 917999)]%N.

(** The ranges of the cased code points that are not case-ignorable. *)
Definition cased_ranges : list (N * N) :=
  [(65, 90); (97, 122); (170, 170); (181, 181); (186, 186); (192, 214); (216,
   246); (248, 442); (444, 447); (452, 659); (661, 687); (880, 883); (886,
   887); (891, 893); (895, 895); (902, 902); (904, 906); (908, 908); (910,
   929); (931, 1013); (1015, 1153); (1162, 1327); (1329, 1366); (1376, 1416);
   (4256, 4293); (4295, 4295); (4301, 4301); (4304, 4346); (4349, 4351);
   (5024, 5109); (5112, 5117); (7296, 7304); (7312, 7354); (7357, 7359);
   (7424, 7467); (7531, 7543); (7545, 7578); (7680, 7957); (7960, 7965);
   (7968, 8005); (8008, 8013); (8016, 8023); (8025, 8025); (8027, 8027);
   (8029, 8029); (8031, 8061); (8064, 8116); (8118, 8124); (8126, 8126);
   (8130, 8132); (8134, 8140); (8144, 8147); (8150, 8155); (8160, 8172);
   (8178, 8180); (8182, 8188); (8450, 8450); (8455, 8455); (8458, 8467);
   (8469, 8469); (8473, 8477); (8484, 8484); (8486, 8486); (8488, 8488);
   (8490, 8493); (8495, 8500); (8505, 8505); (8508, 8511); (8517, 8521);
   (8526, 8526); (8544, 8575); (8579, 8580); (9398, 9449); (11264, 11387);
   (11390, 11492); (11499, 11502); (11506, 11507); (11520, 11557); (11559,
   11559); (11565, 11565); (42560, 42605); (42624, 42651); (42786, 42863);
   (42865, 42887); (42891, 42894); (42896, 42954); (42960, 42961); (42963,
   42963); (42965, 42969); (42997, 42998); (43002, 43002); (43824, 43866);
   (43872, 43880); (43888, 43967); (64256, 64262); (64275, 64279); (65313,
   65338); (65345, 65370); (66560, 66639); (66736, 66771); (66776, 66811);
   (66928, 66938); (66940, 66954); (66956, 66962); (66964, 66965); (66967,
   66977); (66979, 66993); (66995, 67001); (67003, 67004); (68736, 68786);
   (68800, 68850); (71840, 71903); (93760, 93823); (119808, 119892); (119894,
   119964); (119966, 119967); (119970, 119970); (119973, 119974); (119977,
   119980); (119982, 119993); (119995, 119995); (119997, 120003); (120005,
   120069); (120071, 120074); (120077, 120084); (120086, 120092); (120094,
   120121); (120123, 120126); (120128, 120132); (120134, 120134); (120138,
   120144); (120146, 120485); (120488, 120512); (120514, 120538); (120540,
   120570); (120572, 120596); (120598, 120628); (120630, 120654); (120656,
   120686); (120688, 120712); (120714, 120744); (120746, 120770); (120772,
   120779); (122624, 122633); (122635, 122654); (125184, 125251); (127280,
   127305); (127312, 127337); (127344, 127369)]%N.

Definition in_run (c : char) (run : N * N * N * N) : bool :=
  let '(first, last, step, _) := run in
  ((first <=? c) && (c <=? last) && ((c - first) mod step =? 0))%N.

(** The lower case of a code point that has a single one. *)
Definition lower_char (c : char) : char :=
  match find (in_run c) lower_runs with
  | Some (first, _, _, target) => (target + (c - first))%N
  | None => c
  end.

Definition in_ranges (c : char) (ranges : list (N * N)) : bool :=
  existsb (fun r => (fst r <=? c) && (c <=? snd r))%N ranges.

Definition case_ignorable (c : char) : bool :=
  in_ranges c case_ignorable_ranges.

Definition cased (c : char) : bool := in_ranges c cased_ranges.

Fixpoint skip_ignorable (s : str) : str :=
  match s with
  | c :: r => if case_ignorable c then skip_ignorable r else s
  | [] => []
  end.

(** Whether a capital sigma ends a word: a cased letter before it and
    none after it, case-ignorable characters skipped on both sides.
    [before] is the text before the sigma, nearest character first. *)
Definition final_sigma (before after : str) : bool :=
  match skip_ignorable before with
  | c :: _ => cased c
  | [] => false
  end
  && match skip_ignorable after with
     | c :: _ => negb (cased c)
     | [] => true
     end.

(** The lower case of [c] between [before] and [after]: the capital
    sigma has two, and the capital I with a dot lowers to two code
    points. *)
Definition lower_at (before : str) (c : char) (after : str) : str :=
  if (c =? 931)%N then [if final_sigma before after then 962 else 963]%N
  else if (c =? 304)%N then [105; 775]%N
  else [lower_char c].

Fixpoint lower_from (before s : str) : str :=
  match s with
  | [] => []
  | c :: r => lower_at before c r ++ lower_from (c :: before) r
  end.

Definition lower (s : str) : str := lower_from [] s.

Arguments lower_char c : simpl never.
Arguments case_ignorable c : simpl never.
Arguments cased c : simpl never.

(** [str.startswith] *)
Fixpoint startswith (s p : str) : bool :=
  match p, s with
  | [], _ => true
  | x :: p', y :: s' => (x =? y)%N && startswith s' p'
  | _ :: _, [] => false
  end.

(** [p in s] for strings. *)
Fixpoint contains (s p : str) : bool :=
  startswith s p || match s with [] => false | _ :: r => contains r p end.

(** [str.split(sep)] for a one-character separator. *)
Fixpoint split_on (sep : char) (s : str) : list str :=
  match s with
  | [] => [[]]
  | c :: r =>
    if (c =? sep)%N then [] :: split_on sep r
    else match split_on sep r with
         | [] => [[c]]
         | w :: ws => (c :: w) :: ws
         end
  end.

(** [str.partition(sep)] for a one-character separator: the text before
    the first separator and the text after it; [None] when absent. *)
Fixpoint partition_on (sep : char) (s : str) : option (str * str) :=
  match s with
  | [] => None
  | c :: r =>
    if (c =? sep)%N then Some ([], r)
    else match partition_on sep r with
         | Some (a, b) => Some (c :: a, b)
         | None => None
         end
  end.

(** [str.replace(old, new)] for a one-character [old]. *)
Definition replace_char (old : char) (new : str) (s : str) : str :=
  flat_map (fun c => if (c =? old)%N then new else [c]) s.

(** [s[:n]] *)
Definition slice_to (A : Type) (n : nat) (l : list A) : list A := firstn n l.

(** Decimal text of an integer ([int.__repr__]). *)
Definition str_of_Z (z : Z) : str :=
  u (NilZero.string_of_int (Z.to_int z)).

(* ================================================================= *)
(** ** Python values reachable from [json.loads] *)

Inductive value : Type :=
| VNone
| VBool (b : bool)
| VInt (z : Z)
| VFloat (f : spec_float)
| VStr (s : str)
| VList (l : list value)
| VDict (d : list (str * value)).

(** A [dict] is kept as its items in insertion order; keys are unique in
    every dict the interpreter builds, and lookup takes the first. *)
Fixpoint dict_get (V : Type) (d : list (str * V)) (k : str) : option V :=
  match d with
  | [] => None
  | (k', v) :: r => if str_eqb k' k then Some v else dict_get r k
  end.

(** [d[k] = v]: overwrite in place, or append a new item. *)
Fixpoint dict_set (V : Type) (d : list (str * V)) (k : str) (v : V)
  : list (str * V) :=
  match d with
  | [] => [(k, v)]
  | (k', v') :: r =>
    if str_eqb k' k then (k', v) :: r else (k', v') :: dict_set r k v
  end.

(** Exception classes the program can meet. *)
Inductive exn : Type :=
| TypeError
| AttributeError
| ValueError
| UnicodeEncodeError
| JSONDecodeError
| OSError
| SMTPException.

Inductive result (A : Type) : Type :=
| Ok (a : A)
| Raise (e : exn).
Arguments Raise {A} e.

Definition rbind (A B : Type) (r : result A) (k : A -> result B) : result B :=
  match r with Ok a => k a | Raise e => Raise e end.

Notation "'let*' x ':=' r 'in' k" := (rbind r (fun x => k))
  (at level 10, x pattern, r at level 100, k at level 200).

(** [for x in xs: s = body(x, s)] with exceptions leaving the loop. *)
Fixpoint for_each (A S : Type) (xs : list A) (body : A -> S -> result S)
    (s : S) : result S :=
  match xs with
  | [] => Ok s
  | x :: r => let* s' := body x s in for_each r body s'
  end.

(** [bool(v)] *)
Definition truthy (v : value) : bool :=
  match v with
  | VNone => false
  | VBool b => b
  | VInt z => negb (z =? 0)%Z
  | VFloat f => match f with S754_zero _ => false | _ => true end
  | VStr s => nonempty s
  | VList l => nonempty l
  | VDict d => nonempty d
  end.

(** [v is None] *)
Definition is_none (v : value) : bool :=
  match v with VNone => true | _ => false end.

Definition is_str (v : value) : bool :=
  match v with VStr _ => true | _ => false end.
Definition is_dict (v : value) : bool :=
  match v with VDict _ => true | _ => false end.

(** [v == s] for a string literal [s]. *)
Definition eq_str (v : value) (s : str) : bool :=
  match v with VStr s' => str_eqb s' s | _ => false end.

(** [v.get(k, default)]: only a dict has the method. *)
Definition py_get (v : value) (k : str) (default : value) : result value :=
  match v with
  | VDict d => Ok (match dict_get d k with Some x => x | None => default end)
  | _ => Raise AttributeError
  end.

(** [v.strip()]: only a str has the method. *)
Definition py_strip (v : value) : result str :=
  match v with
  | VStr s => Ok (strip s)
  | _ => Raise AttributeError
  end.

(** [iter(v)]: list items, dict keys, the characters of a str. *)
Definition py_iter (v : value) : result (list value) :=
  match v with
  | VList l => Ok l
  | VDict d => Ok (map (fun kv => VStr (fst kv)) d)
  | VStr s => Ok (map (fun c => VStr [c]) s)
  | _ => Raise TypeError
  end.

(** The value of a dict under a key, [default] when the key is absent. *)
Definition field (d : list (str * value)) (k : str) (default : value) : value :=
  match dict_get d k with Some x => x | None => default end.

Definition option_list (A : Type) (o : option A) : list A :=
  match o with Some a => [a] | None => [] end.

(** The elements a partial function keeps, in order. *)
Definition filter_map (A B : Type) (f : A -> option B) (l : list A) : list B :=
  flat_map (fun x => option_list (f x)) l.

(** A string trimmed, when something is left. *)
Definition trimmed (s : str) : option str :=
  if nonempty (strip s) then Some (strip s) else None.

(* ================================================================= *)
(** ** Interpreter services taken as given

    [float_repr] is [float.__repr__] on finite floats, [str_repr] is
    [repr] on a str (quoting and escaping by the Unicode database),
    [json_loads] is [json.loads], with [None] for [json.JSONDecodeError]. *)

Class Runtime : Type := {
  float_repr : spec_float -> str;
  str_repr : str -> str;
  json_loads : str -> option value
}.

Section Rendering.
Context {RT : Runtime}.

(** [str(f)] and [json.dumps(f)] for a float. *)
Definition float_str (f : spec_float) : str :=
  match f with
  | S754_nan => u "nan"
  | S754_infinity false => u "inf"
  | S754_infinity true => u "-inf"
  | _ => float_repr f
  end.

Definition float_json (f : spec_float) : str :=
  match f with
  | S754_nan => u "NaN"
  | S754_infinity false => u "Infinity"
  | S754_infinity true => u "-Infinity"
  | _ => float_repr f
  end.

(** [repr(v)] *)
Fixpoint py_repr (v : value) : str :=
  match v with
  | VNone => u "None"
  | VBool true => u "True"
  | VBool false => u "False"
  | VInt z => str_of_Z z
  | VFloat f => float_str f
  | VStr s => str_repr s
  | VList l => u "[" ++ join (u ", ") (map py_repr l) ++ u "]"
  | VDict d =>
    u "{"
    ++ join (u ", ")
         (map (fun '(k, x) => str_repr k ++ u ": " ++ py_repr x) d)
    ++ u "}"
  end.

(** [str(v)], also what an f-string field prints. *)
Definition py_str (v : value) : str :=
  match v with
  | VStr s => s
  | _ => py_repr v
  end.

(** The JSON string escapes of [json.dumps(..., ensure_ascii=False)]. *)
Definition hex_digit (n : N) : char :=
  if (n <? 10)%N then (48 + n)%N else (87 + n)%N.

Definition json_escape_char (c : char) : str :=
  if (c =? 34)%N then u "\" ++ [34%N]
  else if (c =? 92)%N then u "\\"
  else if (c =? 10)%N then u "\n"
  else if (c =? 13)%N then u "\r"
  else if (c =? 9)%N then u "\t"
  else if (c =? 8)%N then u "\b"
  else if (c =? 12)%N then u "\f"
  else if (c <? 32)%N then
    u "\u00" ++ [hex_digit (c / 16); hex_digit (c mod 16)]
  else [c].

Definition json_string (s : str) : str :=
  [34%N] ++ flat_map json_escape_char s ++ [34%N].

Definition newline_indent (lvl : nat) : str :=
  10%N :: concat (repeat (u "  ") lvl).

(** [json.dumps(v, ensure_ascii=False, indent=2)] at nesting depth [lvl]. *)
Fixpoint json_dumps_at (lvl : nat) (v : value) : str :=
  match v with
  | VNone => u "null"
  | VBool true => u "true"
  | VBool false => u "false"
  | VInt z => str_of_Z z
  | VFloat f => float_json f
  | VStr s => json_string s
  | VList [] => u "[]"
  | VList l =>
    u "[" ++ newline_indent (S lvl)
    ++ join (u "," ++ newline_indent (S lvl)) (map (json_dumps_at (S lvl)) l)
    ++ newline_indent lvl ++ u "]"
  | VDict [] => u "{}"
  | VDict d =>
    u "{" ++ newline_indent (S lvl)
    ++ join (u "," ++ newline_indent (S lvl))
         (map (fun '(k, x) =>
                 json_string k ++ u ": " ++ json_dumps_at (S lvl) x) d)
    ++ newline_indent lvl ++ u "}"
  end.

Definition json_dumps (v : value) : str := json_dumps_at 0 v.

End Rendering.

(* ================================================================= *)
(** ** Conversation extraction *)

Inductive role : Type := user | assistant.

(** A conversation message, the dict [{"role": ..., "text": ...}]. *)
Record message : Type := Message { msg_role : role; msg_text : str }.

Definition role_eqb (a b : role) : bool :=
  match a, b with
  | user, user | assistant, assistant => true
  | _, _ => false
  end.

Section Extraction.
Context {RT : Runtime}.

(** One round of [for c in msg.get("content", [])] as written for a
    transcript message: only dict fragments of type [text] count. *)
Definition text_fragment (c : value) (texts : list str) : result (list str) :=
  if is_dict c then
    let* ty := py_get c (u "type") VNone in
    if eq_str ty (u "text") then
      let* raw := py_get c (u "text") (VStr []) in
      let* t := py_strip raw in
      Ok (if nonempty t then texts ++ [t] else texts)
    else Ok texts
  else Ok texts.

(** The [texts] list built from a transcript item's [message]. *)
Definition message_texts (msg : value) : result (list str) :=
  match msg with
  | VDict _ =>
    let* content := py_get msg (u "content") (VList []) in
    let* cs := py_iter content in
    for_each cs text_fragment []
  | VStr s => Ok (if nonempty (strip s) then [strip s] else [])
  | _ => Ok []
  end.

(** One round of [for item in data.get("transcript", [])]. *)
Definition transcript_item (item : value) (messages : list message)
  : result (list message) :=
  let* msg_type := py_get item (u "type") (VStr []) in
  if negb (eq_str msg_type (u "human") || eq_str msg_type (u "assistant"))
  then Ok messages
  else
    let r := if eq_str msg_type (u "human") then user else assistant in
    let* msg := py_get item (u "message") (VDict []) in
    let* texts := message_texts msg in
    Ok (if nonempty texts
        then messages ++ [Message r (join blank_line texts)]
        else messages).

Definition extract_claude (data : value) : result (list message) :=
  let* transcript := py_get data (u "transcript") (VList []) in
  let* items := py_iter transcript in
  for_each items transcript_item [].

(** One round of [for c in content] as written for a codex message:
    dict fragments of type [text], and bare strings. *)
Definition codex_fragment (c : value) (texts : list str) : result (list str) :=
  if is_dict c then
    let* ty := py_get c (u "type") VNone in
    if eq_str ty (u "text") then
      let* raw := py_get c (u "text") (VStr []) in
      let* t := py_strip raw in
      Ok (if nonempty t then texts ++ [t] else texts)
    else Ok texts
  else match c with
       | VStr s => Ok (if nonempty (strip s) then texts ++ [strip s] else texts)
       | _ => Ok texts
       end.

(** The [if isinstance(x, str) ... elif isinstance(x, dict) ...] block,
    written once for an input message (role user) and once for the last
    assistant message. *)
Definition append_message (r : role) (x : value) (messages : list message)
  : result (list message) :=
  match x with
  | VStr s =>
    Ok (if nonempty (strip s) then messages ++ [Message r (strip s)]
        else messages)
  | VDict _ =>
    let* content := py_get x (u "content") (VStr []) in
    match content with
    | VStr s =>
      Ok (if nonempty (strip s) then messages ++ [Message r (strip s)]
          else messages)
    | VList cs =>
      let* texts := for_each cs codex_fragment [] in
      Ok (if nonempty texts
          then messages ++ [Message r (join blank_line texts)]
          else messages)
    | _ => Ok messages
    end
  | _ => Ok messages
  end.

Definition extract_codex (data : value) : result (list message) :=
  let* input_msgs := py_get data (u "input-messages") (VList []) in
  let* items := py_iter input_msgs in
  let* messages := for_each items (append_message user) [] in
  let* last_msg := py_get data (u "last-assistant-message") (VStr []) in
  let* messages := append_message assistant last_msg messages in
  if nonempty messages then Ok messages
  else Ok (messages ++ [Message assistant (json_dumps data)]).

Definition extract_raw (data : value) : result (list message) :=
  Ok [Message assistant (json_dumps data)].

Definition extract_conversation (data : value) (source : str)
  : result (list message) :=
  if str_eqb source (u "claude-code") then extract_claude data
  else if str_eqb source (u "codex") then extract_codex data
  else extract_raw data.

End Extraction.

(* ================================================================= *)
(** ** HTML rendering *)

(** HTML literals are written with a backquote where the markup has a
    double quote. *)
Definition html (s : string) : str :=
  map (fun c => if (c =? 96)%N then 34%N else c) (u s).

Definition _escape_html (text : str) : str :=
  replace_char 34%N (u "&quot;")
    (replace_char 62%N (u "&gt;")
       (replace_char 60%N (u "&lt;")
          (replace_char 38%N (u "&amp;") text))).

(** The lazy group [(.+?)] after its first character: the text up to the
    nearest closing pair of stars, and what follows the pair. *)
Fixpoint find_close (s : str) : option (str * str) :=
  match s with
  | [] => None
  | a :: t =>
    match t with
    | [] => None
    | b :: r =>
      if ((a =? 42) && (b =? 42))%N then Some ([], r)
      else if (a =? newline)%N then None
      else match find_close t with
           | Some (c, r') => Some (a :: c, r')
           | None => None
           end
    end
  end.

(** [re.sub(r"\*\*(.+?)\*\*", r"<strong>\1</strong>", s)], scanning left
    to right; [fuel] bounds the number of scan steps. *)
Fixpoint bold_scan (fuel : nat) (s : str) : str :=
  match fuel with
  | O => s
  | S n =>
    match s with
    | [] => []
    | a :: t =>
      match t with
      | b :: c0 :: r =>
        if ((a =? 42) && (b =? 42) && negb (c0 =? newline))%N then
          match find_close r with
          | Some (c, rest) =>
            u "<strong>" ++ (c0 :: c) ++ u "</strong>" ++ bold_scan n rest
          | None => a :: bold_scan n t
          end
        else a :: bold_scan n t
      | _ => a :: bold_scan n t
      end
    end
  end.

Definition bold_sub (s : str) : str := bold_scan (length s) s.

Definition fence : str := u "```".

Definition pre_open : str :=
  html "<pre style=`margin:8px 0;padding:12px 16px;background:#1F2937;"
  ++ u "color:#E5E7EB;font-size:12px;line-height:1.6;"
  ++ u "font-family:'SF Mono','Fira Code',Consolas,monospace;"
  ++ u "border-radius:6px;white-space:pre-wrap;word-break:break-all;"
  ++ html "overflow:hidden;`>".

Definition pre_close : str := u "</pre>".

Definition pre_block (code_lines : list str) : str :=
  pre_open ++ _escape_html (join [newline] code_lines) ++ pre_close.

(** The loop variables of [_text_to_html]. *)
Record html_state : Type := HtmlState {
  html_parts : list str;
  in_code : bool;
  code_lines : list str
}.

Definition is_fence_line (line : str) : bool := startswith (strip line) fence.

(** A line outside a code block. *)
Definition plain_line (line : str) : str :=
  let escaped := bold_sub (_escape_html line) in
  if nonempty (strip escaped) then escaped ++ u "<br>" else u "<br>".

(** One round of [for line in lines]. *)
Definition html_line (st : html_state) (line : str) : html_state :=
  if is_fence_line line then
    if in_code st then
      HtmlState (html_parts st ++ [pre_block (code_lines st)]) false []
    else HtmlState (html_parts st) true (code_lines st)
  else if in_code st then
    HtmlState (html_parts st) true (code_lines st ++ [line])
  else HtmlState (html_parts st ++ [plain_line line]) false (code_lines st).

(** The parts list when the loop is over and an open block is closed. *)
Definition final_parts (st : html_state) : list str :=
  if in_code st && nonempty (code_lines st)
  then html_parts st ++ [pre_block (code_lines st)]
  else html_parts st.

(** The state after [for line in lines]. *)
Definition scan_lines (lines : list str) : html_state :=
  fold_left html_line lines (HtmlState [] false []).

(** Outside a code block no code line is pending. *)
Definition idle_ok (st : html_state) : Prop :=
  in_code st = false -> code_lines st = [].

Definition text_parts (text : str) : list str :=
  final_parts (scan_lines (split_on newline text)).

Definition _text_to_html (text : str) : str :=
  join [newline] (text_parts text).

(** [s[:n] + "..." if len(s) > n else s] *)
Definition truncated (n : nat) (s : str) : str :=
  if (n <? length s)%nat then slice_to n s ++ u "..." else s.

Record palette : Type := Palette {
  accent : str; accent_light : str; accent_dark : str
}.

Definition choose_palette (title source : str) : palette :=
  if contains title (u "Claude") || str_eqb source (u "claude-code")
  then Palette (u "#D97706") (u "#FEF3C7") (u "#92400E")
  else if contains title (u "Codex") || str_eqb source (u "codex")
  then Palette (u "#059669") (u "#D1FAE5") (u "#065F46")
  else Palette (u "#2563EB") (u "#DBEAFE") (u "#1E40AF").

Definition meta_row (kv : str * str) : str :=
  u "<tr>"
  ++ html "<td style=`padding:8px 14px;color:#6B7280;font-size:13px;"
  ++ u "white-space:nowrap;vertical-align:top;"
  ++ html "border-bottom:1px solid #F3F4F6;`>" ++ _escape_html (fst kv)
  ++ u "</td>"
  ++ html "<td style=`padding:8px 14px;color:#111827;font-size:13px;"
  ++ u "word-break:break-all;"
  ++ html "border-bottom:1px solid #F3F4F6;`>" ++ _escape_html (snd kv)
  ++ u "</td>"
  ++ u "</tr>".

(** The card of one conversation message. *)
Definition message_card (msg : message) : str :=
  let '(role_label, role_color, bg_color, border_color) :=
    match msg_role msg with
    | user => (u "USER", u "#4F46E5", u "#EEF2FF", u "#6366F1")
    | assistant => (u "AI ASSISTANT", u "#047857", u "#F0FDF4", u "#10B981")
    end in
  let content_html := _text_to_html (msg_text msg) in
  html "<tr><td style=`padding:0 24px 12px;`>"
  ++ html "<table width=`100%` cellpadding=`0` cellspacing=`0`"
  ++ html " style=`border-collapse:collapse;`>"
  ++ html "<tr><td style=`padding:14px 16px;background:" ++ bg_color ++ u ";"
  ++ u "border-left:3px solid " ++ border_color ++ u ";border-radius:4px;"
  ++ html "`>"
  ++ html "<div style=`font-size:11px;font-weight:700;color:" ++ role_color
  ++ u ";"
  ++ u "text-transform:uppercase;letter-spacing:0.5px;"
  ++ html "margin-bottom:8px;`>" ++ role_label ++ u "</div>"
  ++ html "<div style=`font-size:14px;color:#1F2937;line-height:1.7;`>"
  ++ content_html
  ++ u "</div>"
  ++ u "</td></tr></table>"
  ++ u "</td></tr>".

Definition raw_block (raw_text : str) : str :=
  html "<tr><td style=`padding:0 24px 16px;`>"
  ++ html "<pre style=`margin:0;padding:16px;background:#1F2937;color:#E5E7EB;"
  ++ u "font-size:12px;line-height:1.6;"
  ++ u "font-family:'SF Mono','Fira Code',Consolas,monospace;"
  ++ html "border-radius:8px;white-space:pre-wrap;word-break:break-all;`>"
  ++ raw_text ++ u "</pre></td></tr>".

Definition page (pal : palette) (title meta_html conversation_html now : str)
  : str :=
  let accent := accent pal in
  let accent_light := accent_light pal in
  let accent_dark := accent_dark pal in
  html "<!DOCTYPE html>
<html lang=`zh-CN`>
<head><meta charset=`utf-8`><meta name=`viewport` content=`width=device-width,initial-scale=1.0`></head>
<body style=`margin:0;padding:0;background-color:#F3F4F6;
             font-family:-apple-system,BlinkMacSystemFont,'Segoe UI',Roboto,
             'Helvetica Neue',Arial,sans-serif;`>
  <table width=`100%` cellpadding=`0` cellspacing=`0`
         style=`border-collapse:collapse;background:#F3F4F6;`>
    <tr><td align=`center` style=`padding:32px 16px;`>

      <!-- 主卡片 -->
      <table width=`640` cellpadding=`0` cellspacing=`0`
             style=`border-collapse:collapse;background:#FFFFFF;
                    border-radius:12px;overflow:hidden;
                    box-shadow:0 4px 24px rgba(0,0,0,0.08);`>

        <!-- 顶部色条 -->
        <tr><td style=`height:4px;background:"
  ++ accent
  ++ html ";
                       font-size:0;line-height:0;`>&nbsp;</td></tr>

        <!-- 标题区 -->
        <tr><td style=`padding:24px 24px 16px;`>
          <table width=`100%` cellpadding=`0` cellspacing=`0`
                 style=`border-collapse:collapse;`>
            <tr>
              <td style=`vertical-align:middle;`>
                <span style=`font-size:20px;font-weight:700;color:#111827;`>
                  "
  ++ (_escape_html title)
  ++ html "</span>
              </td>
              <td align=`right` style=`vertical-align:middle;`>
                <span style=`display:inline-block;padding:4px 12px;
                             background:"
  ++ accent_light
  ++ html ";color:"
  ++ accent_dark
  ++ html ";
                             font-size:11px;font-weight:600;border-radius:20px;
                             letter-spacing:0.3px;`>COMPLETED</span>
              </td>
            </tr>
          </table>
        </td></tr>

        <!-- 分割线 -->
        <tr><td style=`padding:0 24px;`>
          <hr style=`border:none;border-top:1px solid #E5E7EB;margin:0;`>
        </td></tr>

        <!-- 元数据 -->
        <tr><td style=`padding:16px 24px;`>
          <table width=`100%` cellpadding=`0` cellspacing=`0`
                 style=`border-collapse:collapse;background:#F9FAFB;
                        border-radius:8px;border:1px solid #E5E7EB;`>
            "
  ++ meta_html
  ++ html "
          </table>
        </td></tr>

        <!-- 对话区域标题 -->
        <tr><td style=`padding:8px 24px 12px;`>
          <span style=`font-size:12px;font-weight:600;color:#6B7280;
                       text-transform:uppercase;letter-spacing:0.5px;`>
            Conversation</span>
        </td></tr>

        <!-- 对话内容 -->
        "
  ++ conversation_html
  ++ html "

        <!-- 底部 -->
        <tr><td style=`padding:16px 24px;background:#F9FAFB;
                       border-top:1px solid #E5E7EB;`>
          <table width=`100%` cellpadding=`0` cellspacing=`0`
                 style=`border-collapse:collapse;`>
            <tr>
              <td style=`font-size:11px;color:#9CA3AF;`>
                AI Task Notify
              </td>
              <td align=`right` style=`font-size:11px;color:#9CA3AF;`>
                "
  ++ now
  ++ html "
              </td>
            </tr>
          </table>
        </td></tr>

      </table>

      <!-- 页脚 -->
      <table width=`640` cellpadding=`0` cellspacing=`0`
             style=`border-collapse:collapse;`>
        <tr><td align=`center`
                style=`padding:16px 0;font-size:11px;color:#9CA3AF;`>
          此邮件由系统自动生成，请勿直接回复
        </td></tr>
      </table>

    </td></tr>
  </table>
</body>
</html>".

Section Html.
Context {RT : Runtime}.

(** [data.get(k, "") if isinstance(data, dict) else ""] *)
Definition field_or_empty (data : value) (k : str) : value :=
  match data with
  | VDict d => match dict_get d k with Some x => x | None => VStr [] end
  | _ => VStr []
  end.

Definition meta_rows (now : str) (data : value) : list (str * str) :=
  let cwd := field_or_empty data (u "cwd") in
  let session_id := field_or_empty data (u "session_id") in
  let thread_id := field_or_empty data (u "thread-id") in
  let turn_id := field_or_empty data (u "turn-id") in
  let event_type := field_or_empty data (u "type") in
  [(u "完成时间", now)]
  ++ (if truthy cwd then [(u "工作目录", py_str cwd)] else [])
  ++ (if truthy session_id
      then [(u "会话ID", truncated 12 (py_str session_id))] else [])
  ++ (if truthy event_type then [(u "事件类型", py_str event_type)] else [])
  ++ (if truthy thread_id
      then [(u "线程ID", truncated 16 (py_str thread_id))] else [])
  ++ (if truthy turn_id
      then [(u "轮次ID", truncated 16 (py_str turn_id))] else []).

(** The messages the page shows. *)
Definition page_conversation (source : str) (data : value)
  : result (list message) :=
  if is_dict data then extract_conversation data source else Ok [].

(** [build_email_html]; [now] is the clock reading it starts with. *)
Definition build_email_html (now title source : str) (data : value)
  : result str :=
  let pal := choose_palette title source in
  let meta_html := concat (map meta_row (meta_rows now data)) in
  let* conversation := page_conversation source data in
  let conversation_html := concat (map message_card conversation) in
  let conversation_html :=
    if nonempty conversation_html then conversation_html
    else raw_block
           (_escape_html
              (if is_dict data then json_dumps data else py_str data)) in
  Ok (page pal title meta_html conversation_html now).

End Html.

(* ================================================================= *)
(** ** Configuration *)

(** A [dict[str, str]]. *)
Definition config := list (str * str).

(** One round of [for line in f] in [load_env]. *)
Definition load_env_line (env : config) (line : str) : config :=
  let line := strip line in
  if negb (nonempty line) || startswith line (u "#") then env
  else match partition_on 61%N line with
       | Some (key, value) => dict_set env (strip key) (strip value)
       | None => env
       end.

(** [load_env] over the lines of the [.env] file, [None] when the file
    does not exist. *)
Definition load_env (env_file : option (list str)) : config :=
  match env_file with
  | None => []
  | Some lines => fold_left load_env_line lines []
  end.

(** [get_config]; [os_environ] is [os.environ]. *)
Definition get_config (os_environ env : config) (key default : str) : str :=
  match dict_get os_environ key with
  | Some value => value
  | None => match dict_get env key with Some v => v | None => default end
  end.

(** [[f(x.strip()) for x in s.split(",") if x.strip()]] *)
Definition comma_list (f : str -> str) (s : str) : list str :=
  map (fun c => f (strip c))
      (filter (fun c => nonempty (strip c)) (split_on 44%N s)).

Definition get_enabled_channels (os_environ env : config) : list str :=
  let channels_str := get_config os_environ env (u "NOTIFY_CHANNELS") [] in
  if negb (nonempty channels_str) then []
  else comma_list lower channels_str.

(** The code points of the digit zero in each script (Unicode 14): the
    nine digits after each are its digits one to nine. *)
Definition decimal_zeros : list N :=
  [48; 1632; 1776; 1984; 2406; 2534; 2662; 2790; 2918; 3046; 3174; 3302;
   3430; 3558; 3664; 3792; 3872; 4160; 4240; 6112; 6160; 6470; 6608; 6784;
   6800; 6992; 7088; 7232; 7248; 42528; 43216; 43264; 43472; 43504; 43600;
   44016; 65296; 66720; 68912; 69734; 69872; 69942; 70096; 70384; 70736;
   70864; 71248; 71360; 71472; 71904; 72016; 72784; 73040; 73120; 92768;
   92864; 93008; 120782; 120792; 120802; 120812; 120822; 123200; 123632;
   125264; 130032]%N.

(** The value of a decimal digit of any script. *)
Definition digit_val (c : char) : option Z :=
  match find (fun z => (z <=? c) && (c <=? z + 9))%N decimal_zeros with
  | Some z => Some (Z.of_N (c - z))
  | None => None
  end.

(** The value of one of the digits 0-9. *)
Definition ascii_digit_val (c : char) : option Z :=
  if ((48 <=? c) && (c <=? 57))%N then Some (Z.of_N c - 48)%Z else None.

(** [int(s)] for a str: white space around, an optional sign, decimal
    digits, single underscores between digits, at most 4300 digits. *)

Fixpoint digits_val (acc : Z) (count : nat) (after_digit : bool) (s : str)
  : option Z :=
  match s with
  | [] => if after_digit && (count <=? 4300)%nat then Some acc else None
  | c :: r =>
    if (c =? 95)%N then
      if after_digit then digits_val acc count false r else None
    else match digit_val c with
         | Some d => digits_val (acc * 10 + d)%Z (S count) true r
         | None => None
         end
  end.

(** The white space [int] skips around the digits: that of [str.strip]
    but for the separators U+001C to U+001F. *)
Definition is_int_space (c : char) : bool :=
  (is_space c && negb ((28 <=? c) && (c <=? 31)))%N.

Fixpoint skip_int_space (s : str) : str :=
  match s with
  | c :: r => if is_int_space c then skip_int_space r else s
  | [] => []
  end.

Definition int_strip (s : str) : str :=
  rev (skip_int_space (rev (skip_int_space s))).

Definition py_int (s : str) : result Z :=
  let t := int_strip s in
  let '(negative, body) :=
    match t with
    | c :: r => if (c =? 45)%N then (true, r)
                else if (c =? 43)%N then (false, r) else (false, t)
    | [] => (false, t)
    end in
  match digits_val 0 0 false body with
  | Some z => Ok (if negative then (- z)%Z else z)
  | None => Raise ValueError
  end.

(* ================================================================= *)
(** ** The process environment and effects *)

(** Operations on the SMTP connection, in the order they are tried. *)
Inductive net_event : Type :=
| Connect (ssl : bool) (host : str) (port : Z)
| StartTLS
| Login (username password : str)
| Serialize
| SendMail (sender : str) (recipients : list str)
| Quit.

(** Lines printed to standard error and standard output. *)
Inductive console_event : Type :=
| ErrNoChannels
| ErrNoInput
| ErrEmail (e : exn)
| ErrChannel (channel : str) (e : exn)
| OutSummary (succeeded total : nat)
| OutChannel (success : bool) (channel : str).

(** What the process can observe, and what it has done so far.  The
    [n]-th reading of the clock is [clock n]; the [n]-th SMTP operation
    fails with [e] when [smtp_reply n = Some e]. *)
Record world : Type := World {
  environ : config;
  env_file : option (list str);
  argv : list str;
  stdin_isatty : bool;
  stdin_text : str;
  clock : nat -> str;
  smtp_reply : nat -> option exn;
  clock_reads : nat;
  net_log : list net_event;
  console : list console_event
}.

Definition M (A : Type) : Type := world -> result A * world.

Definition ret (A : Type) (a : A) : M A := fun w => (Ok a, w).

Definition bind (A B : Type) (m : M A) (k : A -> M B) : M B :=
  fun w => match m w with
           | (Ok a, w') => k a w'
           | (Raise e, w') => (Raise e, w')
           end.

Notation "x <- m ;; k" := (bind m (fun x => k))
  (at level 61, m at next level, right associativity).
Notation "m ;;; k" := (bind m (fun _ => k))
  (at level 61, right associativity).

(** A pure computation that may raise. *)
Definition lift (A : Type) (r : result A) : M A := fun w => (r, w).

(** [try: body except Exception as e: handler(e)] *)
Definition try_except (A : Type) (body : M A) (handler : exn -> M A) : M A :=
  fun w => match body w with
           | (Ok a, w') => (Ok a, w')
           | (Raise e, w') => handler e w'
           end.

Definition print (ev : console_event) : M unit :=
  fun w => (Ok tt,
            World (environ w) (env_file w) (argv w) (stdin_isatty w)
                  (stdin_text w) (clock w) (smtp_reply w) (clock_reads w)
                  (net_log w) (console w ++ [ev])).

(** [datetime.now().strftime("%Y-%m-%d %H:%M:%S")] *)
Definition read_clock : M str :=
  fun w => (Ok (clock w (clock_reads w)),
            World (environ w) (env_file w) (argv w) (stdin_isatty w)
                  (stdin_text w) (clock w) (smtp_reply w)
                  (S (clock_reads w)) (net_log w) (console w)).

(** An operation of [smtplib]: logged, then failed or not by the peer. *)
Definition smtp (ev : net_event) : M unit :=
  fun w =>
    let w' := World (environ w) (env_file w) (argv w) (stdin_isatty w)
                    (stdin_text w) (clock w) (smtp_reply w) (clock_reads w)
                    (net_log w ++ [ev]) (console w) in
    match smtp_reply w (length (net_log w)) with
    | Some e => (Raise e, w')
    | None => (Ok tt, w')
    end.

(* ================================================================= *)
(** ** Sending mail *)

(** [MIMEText(text, subtype, "utf-8")] encodes the text, which fails on
    a surrogate code point. *)
Definition is_surrogate (c : char) : bool :=
  ((55296 <=? c) && (c <=? 57343))%N.

Definition mime_text (text : str) : result unit :=
  if existsb is_surrogate text then Raise UnicodeEncodeError else Ok tt.

(** The five settings [send_email] cannot do without. *)
Definition required_settings : list str :=
  [u "SMTP_HOST"; u "SMTP_USER"; u "SMTP_PASSWORD"; u "EMAIL_FROM";
   u "EMAIL_TO"].

Section Sending.
Context {RT : Runtime}.

(** The statements of [send_email] inside [try]. *)
Definition smtp_session (use_ssl : bool) (smtp_host : str) (smtp_port : Z)
    (smtp_user smtp_password email_from : str) (recipients : list str)
  : M bool :=
  (if use_ssl then smtp (Connect true smtp_host smtp_port)
   else smtp (Connect false smtp_host smtp_port) ;;; smtp StartTLS) ;;;
  smtp (Login smtp_user smtp_password) ;;;
  smtp Serialize ;;;
  smtp (SendMail email_from recipients) ;;;
  smtp Quit ;;;
  ret true.

Definition send_email (env : config) (title content source : str)
    (data : value) : M bool :=
  fun w =>
  let smtp_host := get_config (environ w) env (u "SMTP_HOST") [] in
  let smtp_user := get_config (environ w) env (u "SMTP_USER") [] in
  let smtp_password := get_config (environ w) env (u "SMTP_PASSWORD") [] in
  let email_from := get_config (environ w) env (u "EMAIL_FROM") [] in
  let email_to := get_config (environ w) env (u "EMAIL_TO") [] in
  if negb (forallb (@nonempty char)
             [smtp_host; smtp_user; smtp_password; email_from; email_to])
  then ret false w
  else
    (smtp_port <- lift (py_int (get_config (environ w) env
                                  (u "SMTP_PORT") (u "465"))) ;;
     let use_ssl :=
       str_eqb (lower (get_config (environ w) env
                         (u "SMTP_USE_SSL") (u "true"))) (u "true") in
     let recipients := comma_list (fun e => e) email_to in
     lift (mime_text content) ;;;
     now <- read_clock ;;
     html_content <- lift (build_email_html now title source
                             (if truthy data then data else VDict [])) ;;
     lift (mime_text html_content) ;;;
     try_except
       (smtp_session use_ssl smtp_host smtp_port smtp_user smtp_password
          email_from recipients)
       (fun e => print (ErrEmail e) ;;; ret false)) w.

(* ================================================================= *)
(** ** Dispatch *)

Definition handler : Type := config -> str -> str -> str -> value -> M bool.

Definition CHANNEL_HANDLERS : list (str * handler) :=
  [(u "email", send_email)].

(** A channel name with an entry in the handler table. *)
Definition registered (handlers : list (str * handler)) (channel : str)
  : bool :=
  match dict_get handlers channel with Some _ => true | None => false end.

(** One round of [for channel in channels]. *)
Definition notify_channel (handlers : list (str * handler)) (env : config)
    (title content source : str) (data : value)
    (results : list (str * bool)) (channel : str) : M (list (str * bool)) :=
  match dict_get handlers channel with
  | Some h =>
    try_except
      (ok <- h env title content source data ;;
       ret (dict_set results channel ok))
      (fun e => print (ErrChannel channel e) ;;;
                ret (dict_set results channel false))
  | None => ret results
  end.

Fixpoint notify_channels (handlers : list (str * handler)) (env : config)
    (title content source : str) (data : value)
    (channels : list str) (results : list (str * bool))
  : M (list (str * bool)) :=
  match channels with
  | [] => ret results
  | channel :: rest =>
    results' <- notify_channel handlers env title content source data
                  results channel ;;
    notify_channels handlers env title content source data rest results'
  end.

(** [send_notification] over a handler table. *)
Definition send_notification_with (handlers : list (str * handler))
    (env : config) (title content source : str) (data : value)
  : M (list (str * bool)) :=
  fun w =>
    notify_channels handlers env title content source data
      (get_enabled_channels (environ w) env) [] w.

Definition send_notification : config -> str -> str -> str -> value
                               -> M (list (str * bool)) :=
  send_notification_with CHANNEL_HANDLERS.

End Sending.

(* ================================================================= *)
(** ** The plain-text summary *)

Definition NO_CONTENT : str := u "(无内容)".
Definition NOT_AVAILABLE : value := VStr (u "N/A").

(** [x or "(无内容)"] *)
Definition or_no_content (x : str) : str :=
  if nonempty x then x else NO_CONTENT.

(** [v[:n]]: a str or a list can be sliced.  (A dict raises [KeyError]
    instead from Python 3.12 on.) *)
Definition py_slice_to (n : nat) (v : value) : result value :=
  match v with
  | VStr s => Ok (VStr (slice_to n s))
  | VList l => Ok (VList (slice_to n l))
  | _ => Raise TypeError
  end.

Definition claude_content (now cwd sid last_user_msg last_ai_msg : str)
  : str :=
  u "**时间**: " ++ now ++ u "
**工作目录**: " ++ cwd ++ u "
**会话ID**: " ++ sid ++ u "...

**用户指令**:
" ++ last_user_msg ++ u "

**AI 回复**:
" ++ last_ai_msg.

Definition codex_content (now cwd event_type user_msg ai_msg : str) : str :=
  u "**时间**: " ++ now ++ u "
**工作目录**: " ++ cwd ++ u "
**事件类型**: " ++ event_type ++ u "

**用户指令**:
" ++ user_msg ++ u "

**AI 回复**:
" ++ ai_msg.

Definition other_content (now source dumped : str) : str :=
  u "**时间**: " ++ now ++ u "
**来源**: " ++ source ++ u "

**数据**:
```json
" ++ dumped ++ u "
```".

Section Formatting.
Context {RT : Runtime}.

(** One round of [for item in transcript] in [format_message]; the state
    is [(last_user_msg, last_ai_msg)]. *)
Definition last_turn_item (item : value) (st : str * str)
  : result (str * str) :=
  let* msg_type := py_get item (u "type") (VStr []) in
  let* msg := py_get item (u "message") (VDict []) in
  let* texts := message_texts msg in
  let full_text := join blank_line texts in
  if nonempty full_text then
    if eq_str msg_type (u "human") then Ok (full_text, snd st)
    else if eq_str msg_type (u "assistant") then Ok (fst st, full_text)
    else Ok st
  else Ok st.

Definition format_claude (now : str) (data : value) : result (str * str) :=
  let* transcript := py_get data (u "transcript") (VList []) in
  let* items := py_iter transcript in
  let* (last_user_msg, last_ai_msg) :=
    for_each items last_turn_item ([], []) in
  let title := u "Claude Code 任务完成" in
  let* cwd := py_get data (u "cwd") NOT_AVAILABLE in
  let* session_id := py_get data (u "session_id") NOT_AVAILABLE in
  let* sid := py_slice_to 8 session_id in
  Ok (title,
      claude_content now (py_str cwd) (py_str sid)
        (or_no_content last_user_msg) (or_no_content last_ai_msg)).

(** One round of [for item in input_msgs] in [format_message]. *)
Definition user_text_item (item : value) (user_texts : list str)
  : result (list str) :=
  match item with
  | VStr s =>
    Ok (if nonempty (strip s) then user_texts ++ [strip s] else user_texts)
  | VDict _ =>
    let* content := py_get item (u "content") (VStr []) in
    match content with
    | VStr s =>
      Ok (if nonempty (strip s) then user_texts ++ [strip s]
          else user_texts)
    | _ => Ok user_texts
    end
  | _ => Ok user_texts
  end.

Definition codex_ai_msg (last_msg : value) : result str :=
  match last_msg with
  | VStr s => Ok (or_no_content (strip s))
  | VDict _ =>
    let* content := py_get last_msg (u "content") (VStr []) in
    Ok (or_no_content (strip (py_str content)))
  | _ => Ok NO_CONTENT
  end.

Definition format_codex (now : str) (event_type data : value)
  : result (str * str) :=
  let title := u "Codex 任务完成" in
  let* input_msgs := py_get data (u "input-messages") (VList []) in
  let* items := py_iter input_msgs in
  let* user_texts := for_each items user_text_item [] in
  let user_msg :=
    if nonempty user_texts then join [newline] user_texts else NO_CONTENT in
  let* last_msg := py_get data (u "last-assistant-message") (VStr []) in
  let* ai_msg := codex_ai_msg last_msg in
  let* cwd := py_get data (u "cwd") NOT_AVAILABLE in
  Ok (title,
      codex_content now (py_str cwd) (py_str event_type) user_msg ai_msg).

Definition format_other (now source : str) (data : value)
  : result (str * str) :=
  Ok (u "AI 任务完成", other_content now source (json_dumps data)).

(** [format_message]; [now] is the clock reading it starts with. *)
Definition format_message (now source : str) (event_type data : value)
  : result (str * str) :=
  if str_eqb source (u "claude-code") then format_claude now data
  else if str_eqb source (u "codex") then format_codex now event_type data
  else format_other now source data.

(* ================================================================= *)
(** ** Input and the main program *)

Definition read_argv : M (list str) := fun w => (Ok (argv w), w).
Definition read_stdin : M (bool * str) :=
  fun w => (Ok (stdin_isatty w, stdin_text w), w).
Definition read_environ : M config := fun w => (Ok (environ w), w).
Definition read_env_file : M (option (list str)) :=
  fun w => (Ok (env_file w), w).

(** [json.loads] inside [try ... except json.JSONDecodeError: pass]:
    [None] when the error was swallowed. *)
Definition loads_or_pass (text : str) : option value := json_loads text.

(** The [stdin] half of [parse_input], entered with the variables
    [(source, event_type, data)] as the first half left them. *)
Definition parse_stdin (st : str * value * value) : M (str * value * value) :=
  let '(source, event_type, data) := st in
  tty_text <- read_stdin ;;
  let '(isatty, stdin_data) := tty_text in
  if negb (truthy data) && negb isatty then
    if nonempty (strip stdin_data) then
      match loads_or_pass stdin_data with
      | Some data' => ret (u "claude-code", VStr (u "stop"), data')
      | None => ret (source, event_type, data)
      end
    else ret (source, event_type, data)
  else ret (source, event_type, data).

(** [parse_input]: the triple [(source, event_type, data)]. *)
Definition parse_input : M (str * value * value) :=
  args <- read_argv ;;
  let start := (u "unknown", VStr [], VDict []) in
  match args with
  | _ :: arg1 :: _ =>
    match loads_or_pass arg1 with
    | Some data =>
      event_type <- lift (py_get data (u "type") (VStr [])) ;;
      if negb (eq_str event_type (u "agent-turn-complete"))
      then ret (u "codex", event_type, VNone)
      else parse_stdin (u "codex", event_type, data)
    | None => parse_stdin start
    end
  | _ => parse_stdin start
  end.

Definition success_count (results : list (str * bool)) : nat :=
  length (filter (fun kv => snd kv) results).

Fixpoint print_results (results : list (str * bool)) : M unit :=
  match results with
  | [] => ret tt
  | (channel, success) :: rest =>
    print (OutChannel success channel) ;;; print_results rest
  end.

(** [main]: the exit status. *)
Definition main : M Z :=
  file <- read_env_file ;;
  let env := load_env file in
  os_environ <- read_environ ;;
  let channels := get_enabled_channels os_environ env in
  if negb (nonempty channels) then
    print ErrNoChannels ;;; ret 0%Z
  else
    parsed <- parse_input ;;
    let '(source, event_type, data) := parsed in
    if is_none data then ret 0%Z
    else if negb (truthy data) then print ErrNoInput ;;; ret 1%Z
    else
      now <- read_clock ;;
      tc <- lift (format_message now source event_type data) ;;
      let '(title, content) := tc in
      results <- send_notification env title content source data ;;
      print (OutSummary (success_count results) (length results)) ;;;
      print_results results ;;;
      ret (if (0 <? success_count results)%nat then 0%Z else 1%Z).

(** The reply the codex summary shows. *)
Definition reply_text (last_msg : value) : str :=
  match last_msg with
  | VStr s => or_no_content (strip s)
  | VDict d => or_no_content (strip (py_str (field d (u "content") (VStr []))))
  | _ => NO_CONTENT
  end.

(** The channels [main] finds enabled. *)
Definition enabled_channels (w : world) : list str :=
  get_enabled_channels (environ w) (load_env (env_file w)).

(** The parser returned the sentinel: the event is filtered out. *)
Definition filtered (w : world) : Prop :=
  exists source event_type w1,
    parse_input w = (Ok (source, event_type, VNone), w1).

(** The parser returned an empty payload: no usable input. *)
Definition no_input (w : world) : Prop :=
  exists source event_type data w1,
    parse_input w = (Ok (source, event_type, data), w1)
    /\ data <> VNone /\ truthy data = false.

(** The payload was formatted and the dispatcher returned [results]. *)
Definition dispatched (w : world) (results : list (str * bool)) : Prop :=
  exists source event_type data w1 title content w3,
    parse_input w = (Ok (source, event_type, data), w1)
    /\ truthy data = true
    /\ format_message (clock w1 (clock_reads w1)) source event_type data
       = Ok (title, content)
    /\ send_notification (load_env (env_file w)) title content source data
         (snd (read_clock w1)) = (Ok results, w3).

End Formatting.

(* ================================================================= *)
(** ** What the specification says a payload yields

    These definitions follow the words of the specification, not the
    code: they are what the code is compared with below. *)

Module Spec.

(** A fragment of type [text] yields its trimmed text when non-empty. *)
Definition fragment_text (c : value) : option str :=
  match c with
  | VDict d =>
    if eq_str (field d (u "type") VNone) (u "text") then
      match field d (u "text") (VStr []) with
      | VStr t => trimmed t
      | _ => None
      end
    else None
  | _ => None
  end.

(** The text fragments of a transcript message: the [text] fragments of
    a structured message, or the trimmed plain string. *)
Definition message_fragments (msg : value) : list str :=
  match msg with
  | VDict d =>
    match field d (u "content") (VList []) with
    | VList cs => filter_map fragment_text cs
    | _ => []
    end
  | VStr s => option_list (trimmed s)
  | _ => []
  end.

Definition derived_text (msg : value) : str :=
  join blank_line (message_fragments msg).

(** [human] maps to [user], [assistant] to [assistant]. *)
Definition entry_role (item : value) : option role :=
  match item with
  | VDict d =>
    let ty := field d (u "type") (VStr []) in
    if eq_str ty (u "human") then Some user
    else if eq_str ty (u "assistant") then Some assistant
    else None
  | _ => None
  end.

Definition entry_message_field (item : value) : value :=
  match item with
  | VDict d => field d (u "message") (VDict [])
  | _ => VDict []
  end.

(** The message a transcript entry contributes, if any. *)
Definition entry_message (item : value) : option message :=
  match entry_role item with
  | Some r =>
    let t := derived_text (entry_message_field item) in
    if nonempty t then Some (Message r t) else None
  | None => None
  end.

(** Well-formed transcript data: a [text] fragment has a string text,
    a structured message has a list of fragments, an entry is an object
    (and its message matters only when its type is kept). *)
Definition wf_fragment (c : value) : bool :=
  match c with
  | VDict d =>
    if eq_str (field d (u "type") VNone) (u "text")
    then is_str (field d (u "text") (VStr []))
    else true
  | _ => true
  end.

Definition wf_message (msg : value) : bool :=
  match msg with
  | VDict d =>
    match field d (u "content") (VList []) with
    | VList cs => forallb wf_fragment cs
    | _ => false
    end
  | _ => true
  end.

Definition wf_entry (item : value) : bool :=
  match entry_role item with
  | Some _ => wf_message (entry_message_field item)
  | None => is_dict item
  end.

(** A fragment of a codex message: a [text] fragment or a bare string. *)
Definition codex_fragment_text (c : value) : option str :=
  match c with
  | VStr s => trimmed s
  | _ => fragment_text c
  end.

(** The non-empty trimmed text a codex entry yields, if any: a bare
    string, or an object whose content is a string or a list of text
    fragments. *)
Definition codex_text (x : value) : option str :=
  match x with
  | VStr s => trimmed s
  | VDict d =>
    match field d (u "content") (VStr []) with
    | VStr s => trimmed s
    | VList cs =>
      match filter_map codex_fragment_text cs with
      | [] => None
      | ts => Some (join blank_line ts)
      end
    | _ => None
    end
  | _ => None
  end.

Definition wf_codex_entry (x : value) : bool :=
  match x with
  | VDict d =>
    match field d (u "content") (VStr []) with
    | VList cs => forallb wf_fragment cs
    | _ => true
    end
  | _ => true
  end.

(** The messages a codex payload yields before the fallback: the user
    messages of the entries, then the assistant message if there is one. *)
Definition codex_messages (items : list value) (last_msg : value)
  : list message :=
  map (Message user) (filter_map codex_text items)
  ++ map (Message assistant) (option_list (codex_text last_msg)).

(** The text of the last message of a role, [default] when there is
    none. *)
Definition last_text_from (default : str) (r : role) (msgs : list message)
  : str :=
  last (map msg_text (filter (fun m => role_eqb (msg_role m) r) msgs))
       default.

Definition last_text (r : role) (msgs : list message) : str :=
  last_text_from [] r msgs.

(** An entry the plain-text summary can read: an object whose message
    is well-formed, whatever its type. *)
Definition wf_summary_entry (item : value) : bool :=
  is_dict item && wf_message (entry_message_field item).

(** The text the summary takes from a codex entry: a bare string, or an
    object whose content is a string. *)
Definition plain_text (x : value) : option str :=
  match x with
  | VStr s => trimmed s
  | VDict d =>
    match field d (u "content") (VStr []) with
    | VStr s => trimmed s
    | _ => None
    end
  | _ => None
  end.

End Spec.

(* ================================================================= *)
(** ** A runtime to run the program on concrete inputs

    [sample_loads] reads JSON texts whose numbers are integers (a
    fraction or an exponent is outside its domain), [sample_str_repr] is
    [repr] on printable ASCII text, [sample_float_repr] is right on
    zeros. *)

Definition is_json_space (c : char) : bool :=
  ((c =? 32) || (c =? 9) || (c =? 10) || (c =? 13))%N.

Fixpoint skip_space (s : str) : str :=
  match s with
  | c :: r => if is_json_space c then skip_space r else s
  | [] => []
  end.

Definition hex_val (c : char) : option N :=
  if ((48 <=? c) && (c <=? 57))%N then Some (c - 48)%N
  else if ((97 <=? c) && (c <=? 102))%N then Some (c - 87)%N
  else if ((65 <=? c) && (c <=? 70))%N then Some (c - 55)%N
  else None.

Definition hex4 (a b c d : char) : option N :=
  match hex_val a, hex_val b, hex_val c, hex_val d with
  | Some x, Some y, Some z, Some t => Some (((x * 16 + y) * 16 + z) * 16 + t)%N
  | _, _, _, _ => None
  end.

Definition simple_escape (e : char) : option char :=
  if (e =? 34)%N then Some 34%N
  else if (e =? 92)%N then Some 92%N
  else if (e =? 47)%N then Some 47%N
  else if (e =? 98)%N then Some 8%N
  else if (e =? 102)%N then Some 12%N
  else if (e =? 110)%N then Some 10%N
  else if (e =? 114)%N then Some 13%N
  else if (e =? 116)%N then Some 9%N
  else None.

(** The characters of a JSON string after its opening quote, and the
    text after its closing quote. *)
Fixpoint read_string (s : str) : option (str * str) :=
  let cons_to (c : char) (r : option (str * str)) :=
    match r with Some (t, rest) => Some (c :: t, rest) | None => None end in
  match s with
  | [] => None
  | c :: r =>
    if (c =? 34)%N then Some ([], r)
    else if (c <? 32)%N then None
    else if (c =? 92)%N then
      match r with
      | [] => None
      | e :: r1 =>
        if (e =? 117)%N then
          match r1 with
          | h1 :: h2 :: h3 :: h4 :: r2 =>
            match hex4 h1 h2 h3 h4 with
            | None => None
            | Some hi =>
              let single := cons_to hi (read_string r2) in
              if ((55296 <=? hi) && (hi <=? 56319))%N then
                match r2 with
                | b :: v :: g1 :: g2 :: g3 :: g4 :: r3 =>
                  if ((b =? 92) && (v =? 117))%N then
                    match hex4 g1 g2 g3 g4 with
                    | Some lo =>
                      if ((56320 <=? lo) && (lo <=? 57343))%N then
                        cons_to (65536 + (hi - 55296) * 1024 + (lo - 56320))%N
                                (read_string r3)
                      else single
                    | None => single
                    end
                  else single
                | _ => single
                end
              else single
            end
          | _ => None
          end
        else match simple_escape e with
             | Some x => cons_to x (read_string r1)
             | None => None
             end
      end
    else cons_to c (read_string r)
  end.

Fixpoint read_digits (acc : Z) (s : str) : Z * str :=
  match s with
  | c :: r =>
    match ascii_digit_val c with
    | Some d => read_digits (acc * 10 + d)%Z r
    | None => (acc, s)
    end
  | [] => (acc, s)
  end.

(** An integer literal: no leading zero, no fraction, no exponent. *)
Definition read_integer (s : str) : option (Z * str) :=
  match s with
  | c :: r =>
    match ascii_digit_val c with
    | None => None
    | Some d =>
      let '(z, rest) :=
        if (c =? 48)%N then (0%Z, r) else read_digits d r in
      match rest with
      | x :: _ =>
        if ((x =? 46) || (x =? 101) || (x =? 69))%N then None
        else Some (z, rest)
      | [] => Some (z, rest)
      end
    end
  | [] => None
  end.

Definition after_prefix (p s : str) : option str :=
  if startswith s p then Some (skipn (length p) s) else None.

Fixpoint read_value (fuel : nat) (s : str) : option (value * str) :=
  match fuel with
  | O => None
  | S n =>
    match s with
    | [] => None
    | c :: r =>
      if (c =? 34)%N then
        match read_string r with
        | Some (t, rest) => Some (VStr t, rest)
        | None => None
        end
      else if (c =? 91)%N then
        match skip_space r with
        | x :: r1 =>
          if (x =? 93)%N then Some (VList [], r1)
          else match read_elements n (x :: r1) with
               | Some (l, rest) => Some (VList l, rest)
               | None => None
               end
        | [] => None
        end
      else if (c =? 123)%N then
        match skip_space r with
        | x :: r1 =>
          if (x =? 125)%N then Some (VDict [], r1)
          else match read_members n (x :: r1) [] with
               | Some (d, rest) => Some (VDict d, rest)
               | None => None
               end
        | [] => None
        end
      else if (c =? 45)%N then
        match after_prefix (u "Infinity") r with
        | Some rest => Some (VFloat (S754_infinity true), rest)
        | None =>
          match read_integer r with
          | Some (z, rest) => Some (VInt (- z), rest)
          | None => None
          end
        end
      else
        match after_prefix (u "null") s, after_prefix (u "true") s,
              after_prefix (u "false") s, after_prefix (u "NaN") s,
              after_prefix (u "Infinity") s with
        | Some rest, _, _, _, _ => Some (VNone, rest)
        | _, Some rest, _, _, _ => Some (VBool true, rest)
        | _, _, Some rest, _, _ => Some (VBool false, rest)
        | _, _, _, Some rest, _ => Some (VFloat S754_nan, rest)
        | _, _, _, _, Some rest => Some (VFloat (S754_infinity false), rest)
        | _, _, _, _, _ =>
          match read_integer s with
          | Some (z, rest) => Some (VInt z, rest)
          | None => None
          end
        end
    end
  end

with read_elements (fuel : nat) (s : str) : option (list value * str) :=
  match fuel with
  | O => None
  | S n =>
    match read_value n s with
    | None => None
    | Some (v, rest) =>
      match skip_space rest with
      | x :: r1 =>
        if (x =? 93)%N then Some ([v], r1)
        else if (x =? 44)%N then
          match read_elements n (skip_space r1) with
          | Some (l, rest') => Some (v :: l, rest')
          | None => None
          end
        else None
      | [] => None
      end
    end
  end

with read_members (fuel : nat) (s : str) (d : list (str * value))
  : option (list (str * value) * str) :=
  match fuel with
  | O => None
  | S n =>
    match s with
    | q :: r =>
      if (q =? 34)%N then
        match read_string r with
        | None => None
        | Some (key, rest) =>
          match skip_space rest with
          | colon :: r1 =>
            if (colon =? 58)%N then
              match read_value n (skip_space r1) with
              | None => None
              | Some (v, rest1) =>
                let d' := dict_set d key v in
                match skip_space rest1 with
                | x :: r2 =>
                  if (x =? 125)%N then Some (d', r2)
                  else if (x =? 44)%N then read_members n (skip_space r2) d'
                  else None
                | [] => None
                end
              end
            else None
          | [] => None
          end
        end
      else None
    | [] => None
    end
  end.

Definition sample_loads (s : str) : option value :=
  match read_value (2 * length s + 2) (skip_space s) with
  | Some (v, rest) =>
    match skip_space rest with
    | [] => Some v
    | _ :: _ => None
    end
  | None => None
  end.

Definition sample_str_repr (s : str) : str :=
  let quote : char :=
    if existsb (N.eqb 39) s && negb (existsb (N.eqb 34) s) then 34%N
    else 39%N in
  [quote]
  ++ flat_map (fun c => if ((c =? quote) || (c =? 92))%N then [92%N; c]
                        else if (c =? 10)%N then u "\n"
                        else if (c =? 13)%N then u "\r"
                        else if (c =? 9)%N then u "\t"
                        else if ((c <? 32) || (c =? 127))%N then
                          u "\x" ++ [hex_digit (c / 16); hex_digit (c mod 16)]
                        else [c]) s
  ++ [quote].

Definition sample_float_repr (f : spec_float) : str :=
  match f with
  | S754_zero true => u "-0.0"
  | _ => u "0.0"
  end.

Definition sample_runtime : Runtime :=
  {| float_repr := sample_float_repr;
     str_repr := sample_str_repr;
     json_loads := sample_loads |}.

(** JSON texts are written with a backquote for each double quote. *)
Definition json_text (s : string) : str := html s.

(* ================================================================= *)
(** ** Sample payloads and worlds *)

(** [{"type": "agent-turn-complete", "input-messages": ["fix bug"],
      "last-assistant-message": "done"}] *)
Definition codex_turn : list (str * value) :=
  [(u "type", VStr (u "agent-turn-complete"));
   (u "input-messages", VList [VStr (u "fix bug")]);
   (u "last-assistant-message", VStr (u "done"))].

(** A codex payload without a reply. *)
Definition codex_no_reply : list (str * value) :=
  [(u "input-messages", VList [VStr (u "hi")])].

(** A codex payload with two instructions. *)
Definition codex_two_inputs : list (str * value) :=
  [(u "type", VStr (u "agent-turn-complete"));
   (u "input-messages", VList [VStr (u "first"); VStr (u "second")]);
   (u "last-assistant-message", VStr (u "done"))].

(** [{"transcript": [{"type": "human", "message": "hi"},
                     {"type": "system", "message": 7},
                     {"type": "assistant",
                      "message": {"content": [{"type": "text",
                                               "text": " hello "},
                                              {"type": "tool_use"}]}},
                     {"type": "human", "message": "  "}],
      "cwd": "/tmp"}] *)
Definition claude_session : list (str * value) :=
  [(u "transcript",
    VList [VDict [(u "type", VStr (u "human")); (u "message", VStr (u "hi"))];
           VDict [(u "type", VStr (u "system")); (u "message", VInt 7)];
           VDict [(u "type", VStr (u "assistant"));
                  (u "message",
                   VDict [(u "content",
                           VList [VDict [(u "type", VStr (u "text"));
                                         (u "text", VStr (u " hello "))];
                                  VDict [(u "type", VStr (u "tool_use"))]])])];
           VDict [(u "type", VStr (u "human"));
                  (u "message", VStr (u "  "))]]);
   (u "cwd", VStr (u "/tmp"))].

Definition sample_clock (n : nat) : str := u "2025-01-01 12:00:00".

(** A process with the given environment, arguments and piped input,
    whose SMTP peer answers as [replies] says. *)
Definition sample_world (vars : config) (args : list str) (piped : str)
    (replies : nat -> option exn) : world :=
  World vars None args false piped sample_clock replies 0 [] [].

Definition mail_settings : config :=
  [(u "NOTIFY_CHANNELS", u "Email, slack");
   (u "SMTP_HOST", u "smtp.example.org");
   (u "SMTP_USER", u "bot");
   (u "SMTP_PASSWORD", u "secret");
   (u "EMAIL_FROM", u "bot@example.org");
   (u "EMAIL_TO", u "dev@example.org, ops@example.org")].

Definition all_fine (n : nat) : option exn := None.
Definition unreachable (n : nat) : option exn := Some OSError.

(* ================================================================= *)
(** ** Notions used to state further properties *)

(** The entity one character is escaped to. *)
Definition escape_char (c : char) : str :=
  if (c =? 38)%N then u "&amp;"
  else if (c =? 60)%N then u "&lt;"
  else if (c =? 62)%N then u "&gt;"
  else if (c =? 34)%N then u "&quot;"
  else [c].

(** What a line of the [.env] file assigns, if anything: blank lines,
    lines that start with [#] and lines without [=] assign nothing. *)
Definition assignment (line : str) : option (str * str) :=
  let line := strip line in
  if negb (nonempty line) || startswith line (u "#") then None
  else match partition_on 61%N line with
       | Some (key, value) => Some (strip key, strip value)
       | None => None
       end.

(** The last assignment to [key] among the lines of a file. *)
Definition last_assignment (lines : list str) (key : str) : option str :=
  match find (fun kv => str_eqb (fst kv) key)
             (rev (filter_map assignment lines)) with
  | Some kv => Some (snd kv)
  | None => None
  end.

(** Texts of ASCII characters without capital letters: [str.lower]
    leaves them as they are. *)
Definition ascii_lower_case (s : str) : bool :=
  forallb (fun c => (c <? 128)%N && negb ((65 <=? c) && (c <=? 90))%N) s.

(** A text that does not start with white space. *)
Definition head_ok (s : str) : Prop :=
  match s with [] => True | c :: _ => is_space c = false end.

(** A code point that is no white space, no comma and no letter A-Z. *)
Definition clean_char (c : char) : Prop :=
  is_space c = false /\ c <> 44%N /\ ~ (65 <= c <= 90)%N.

(** Intervals of clean code points. *)
Definition clean_zones : list (N * N) :=
  [(97, 132); (134, 159); (161, 5759); (5761, 8191); (8203, 8231);
   (8234, 8238); (8240, 8286); (8288, 12287); (12289, 1114111)]%N.

(** A run of [lower_runs] that lowers into one of these intervals. *)
Definition run_clean (run : N * N * N * N) : bool :=
  let '(first, last, _, target) := run in
  ((first <=? last)
   && existsb (fun z => (fst z <=? target)
                        && (target + (last - first) <=? snd z))
        clean_zones)%N.

(** A run that starts beyond ASCII, or the run of the letters A-Z. *)
Definition run_above_ascii (run : N * N * N * N) : bool :=
  let '(first, last, _, _) := run in
  ((128 <=? first) || ((first =? 65) && (last =? 90)))%N.

Definition not_fence (line : str) : bool := negb (is_fence_line line).

Definition TURN_COMPLETE : str := u "agent-turn-complete".

(** What [parse_input] returns when neither path yields data. *)
Definition no_data : str * value * value := (u "unknown", VStr [], VDict []).

Section ArgumentJson.
Context {RT : Runtime}.

(** The first command-line argument read as JSON, when there is one and
    it is JSON. *)
Definition argv_json (w : world) : option value :=
  match argv w with
  | _ :: arg1 :: _ => json_loads arg1
  | _ => None
  end.

(** Standard input read as JSON, when it is piped, not blank, and
    JSON. *)
Definition stdin_json (w : world) : option value :=
  if negb (stdin_isatty w) && nonempty (strip (stdin_text w))
  then json_loads (stdin_text w)
  else None.

End ArgumentJson.

(** The world after the SMTP operations [evs] were tried. *)
Definition logged (w : world) (evs : list net_event) : world :=
  World (environ w) (env_file w) (argv w) (stdin_isatty w) (stdin_text w)
        (clock w) (smtp_reply w) (clock_reads w) (net_log w ++ evs)
        (console w).

(** The SMTP operations of one delivery, in order. *)
Definition session_ops (use_ssl : bool) (host : str) (port : Z)
    (username password sender : str) (recipients : list str)
  : list net_event :=
  (if use_ssl then [Connect true host port]
   else [Connect false host port; StartTLS])
  ++ [Login username password; Serialize; SendMail sender recipients; Quit].

(** Operations tried in order, up to the first that fails. *)
Fixpoint run_ops (ops : list net_event) : M unit :=
  match ops with
  | [] => ret tt
  | ev :: rest => smtp ev ;;; run_ops rest
  end.

(** Among the [n] replies from position [start] on, the offset and the
    exception of the first failure. *)
Fixpoint first_failure (replies : nat -> option exn) (start n : nat)
  : option (nat * exn) :=
  match n with
  | O => None
  | S n' =>
    match replies start with
    | Some e => Some (O, e)
    | None =>
      match first_failure replies (S start) n' with
      | Some (k, e) => Some (S k, e)
      | None => None
      end
    end
  end.

(** The exceptions a value of the wrong shape can cause. *)
Definition shape_error (e : exn) : Prop :=
  e = AttributeError \/ e = TypeError.

(** Texts, and messages, none of which is empty. *)
Definition texts_ok (texts : list str) : Prop :=
  Forall (fun t => nonempty t = true) texts.

Definition messages_ok (messages : list message) : Prop :=
  Forall (fun m => nonempty (msg_text m) = true) messages.

(* ================================================================= *)
(** ** Basic facts *)

Lemma str_eqb_refl (s : str) : str_eqb s s = true.
Proof.
  induction s as [|c s IH]; simpl; [reflexivity|].
  now rewrite N.eqb_refl, IH.
Qed.

Lemma str_eqb_eq (a b : str) : str_eqb a b = true <-> a = b.
Proof.
  split; [|intros ->; apply str_eqb_refl].
  revert b; induction a as [|x a IH]; intros [|y b]; simpl; try discriminate;
    [reflexivity|].
  intros H. apply andb_true_iff in H as [Hx Hr].
  apply N.eqb_eq in Hx. apply IH in Hr. congruence.
Qed.

Lemma join_nonempty (sep : str) (l : list str) :
  Forall (fun t => nonempty t = true) l ->
  nonempty (join sep l) = nonempty l.
Proof.
  intros H. destruct H as [|t l Ht Hl]; [reflexivity|].
  simpl. destruct t; [discriminate|]. destruct l; reflexivity.
Qed.

Lemma trimmed_nonempty (s t : str) : trimmed s = Some t -> nonempty t = true.
Proof.
  unfold trimmed. destruct (nonempty (strip s)) eqn:E; [|discriminate].
  now intros [= <-].
Qed.

(** A loop whose every round appends to the accumulator. *)
Lemma for_each_collect (A B : Type) (body : A -> list B -> result (list B))
    (g : A -> list B) (xs : list A) :
  (forall x, In x xs -> forall acc, body x acc = Ok (acc ++ g x)) ->
  forall acc, for_each xs body acc = Ok (acc ++ flat_map g xs).
Proof.
  induction xs as [|x xs IH]; intros H acc; simpl.
  - now rewrite app_nil_r.
  - rewrite (H x (or_introl eq_refl)). simpl.
    rewrite IH by (intros y Hy; apply H; now right).
    now rewrite app_assoc.
Qed.

(* ================================================================= *)
(** ** The extractor on transcripts *)

Section ExtractionFacts.
Context {RT : Runtime}.

Lemma py_get_dict (d : list (str * value)) (k : str) (default : value) :
  py_get (VDict d) k default = Ok (field d k default).
Proof. reflexivity. Qed.

Lemma text_fragment_spec (c : value) (texts : list str) :
  Spec.wf_fragment c = true ->
  text_fragment c texts = Ok (texts ++ option_list (Spec.fragment_text c)).
Proof.
  unfold text_fragment.
  destruct c as [| | | | |l|d]; simpl; intros Hwf;
    try (now rewrite app_nil_r).
  fold (field d (u "type") VNone).
  destruct (eq_str (field d (u "type") VNone) (u "text")); simpl;
    [|now rewrite app_nil_r].
  fold (field d (u "text") (VStr [])).
  destruct (field d (u "text") (VStr [])) as [| | | |t| |]; try discriminate.
  simpl. unfold trimmed.
  destruct (nonempty (strip t)); simpl; [reflexivity|now rewrite app_nil_r].
Qed.

Lemma fragment_text_nonempty (c : value) (t : str) :
  Spec.fragment_text c = Some t -> nonempty t = true.
Proof.
  destruct c as [| | | | |l|d]; simpl; try discriminate.
  destruct (eq_str _ _); [|discriminate].
  destruct (field d (u "text") (VStr [])); try discriminate.
  apply trimmed_nonempty.
Qed.

Lemma filter_map_Forall (A B : Type) (f : A -> option B) (P : B -> Prop)
    (l : list A) :
  (forall x y, f x = Some y -> P y) -> Forall P (filter_map f l).
Proof.
  intros H. induction l as [|x l IH]; simpl; [constructor|].
  destruct (f x) eqn:E; simpl; [constructor; eauto|exact IH].
Qed.

Lemma message_fragments_nonempty (msg : value) :
  Forall (fun t => nonempty t = true) (Spec.message_fragments msg).
Proof.
  destruct msg as [| | | |s|l|d]; simpl; try constructor.
  - destruct (trimmed s) eqn:E; simpl; constructor;
      [eapply trimmed_nonempty; eauto|constructor].
  - destruct (field d (u "content") (VList [])); try constructor.
    apply filter_map_Forall. apply fragment_text_nonempty.
Qed.

Lemma message_texts_spec (msg : value) :
  Spec.wf_message msg = true ->
  message_texts msg = Ok (Spec.message_fragments msg).
Proof.
  destruct msg as [| | | |s|l|d]; simpl; intros Hwf; try reflexivity.
  - unfold trimmed. now destruct (nonempty (strip s)).
  - fold (field d (u "content") (VList [])) in *.
    destruct (field d (u "content") (VList [])) as [| | | | |cs|];
      try discriminate.
    simpl. unfold filter_map.
    apply (for_each_collect text_fragment
             (fun c => option_list (Spec.fragment_text c)) cs).
    intros c Hc acc. apply text_fragment_spec.
    rewrite forallb_forall in Hwf. now apply Hwf.
Qed.

Lemma transcript_item_spec (item : value) (messages : list message) :
  Spec.wf_entry item = true ->
  transcript_item item messages
  = Ok (messages ++ option_list (Spec.entry_message item)).
Proof.
  unfold Spec.wf_entry, Spec.entry_message, transcript_item.
  destruct item as [| | | | | |d]; simpl; try discriminate.
  fold (field d (u "type") (VStr [])).
  destruct (eq_str (field d (u "type") (VStr [])) (u "human")) eqn:Eh; simpl.
  - intros Hwf. fold (field d (u "message") (VDict [])) in *.
    rewrite (message_texts_spec _ Hwf). simpl. unfold Spec.derived_text.
    rewrite (join_nonempty _ (message_fragments_nonempty _)).
    destruct (nonempty _); simpl; [reflexivity|now rewrite app_nil_r].
  - destruct (eq_str (field d (u "type") (VStr [])) (u "assistant")) eqn:Ea;
      simpl; [|now rewrite app_nil_r].
    intros Hwf. fold (field d (u "message") (VDict [])) in *.
    rewrite (message_texts_spec _ Hwf). simpl. unfold Spec.derived_text.
    rewrite (join_nonempty _ (message_fragments_nonempty _)).
    destruct (nonempty _); simpl; [reflexivity|now rewrite app_nil_r].
Qed.

Lemma extract_claude_spec (d : list (str * value)) (items : list value) :
  field d (u "transcript") (VList []) = VList items ->
  forallb Spec.wf_entry items = true ->
  extract_claude (VDict d) = Ok (filter_map Spec.entry_message items).
Proof.
  intros Ht Hwf.
  unfold extract_claude. rewrite py_get_dict, Ht. simpl.
  unfold filter_map.
  refine (for_each_collect transcript_item
            (fun x => option_list (Spec.entry_message x)) items _ []).
  intros x Hx acc. apply transcript_item_spec.
  rewrite forallb_forall in Hwf. now apply Hwf.
Qed.

(** C5.  For a claude-code payload whose transcript is an array of
    well-formed entries, [extract_conversation] returns exactly the
    messages of the [human] and [assistant] entries whose derived text
    is non-empty, in transcript order, [human] as [user] and [assistant]
    as [assistant]; entries of another type, and entries without text,
    contribute nothing. *)
Theorem extract_claude_subset (d : list (str * value)) (items : list value) :
  field d (u "transcript") (VList []) = VList items ->
  forallb Spec.wf_entry items = true ->
  extract_conversation (VDict d) (u "claude-code")
  = Ok (filter_map Spec.entry_message items).
Proof.
  intros Ht Hwf.
  change (extract_conversation (VDict d) (u "claude-code"))
    with (extract_claude (VDict d)).
  now apply extract_claude_spec.
Qed.

Lemma codex_fragment_spec (c : value) (texts : list str) :
  Spec.wf_fragment c = true ->
  codex_fragment c texts
  = Ok (texts ++ option_list (Spec.codex_fragment_text c)).
Proof.
  destruct c as [| | | |s|l|d];
    try (intros _; unfold codex_fragment; simpl; now rewrite app_nil_r).
  - intros _. unfold codex_fragment. simpl. unfold trimmed.
    destruct (nonempty (strip s)); simpl; [reflexivity|now rewrite app_nil_r].
  - intros Hwf. change (codex_fragment (VDict d) texts)
      with (text_fragment (VDict d) texts).
    now apply text_fragment_spec.
Qed.

Lemma append_message_spec (r : role) (x : value) (messages : list message) :
  Spec.wf_codex_entry x = true ->
  append_message r x messages
  = Ok (messages ++ map (Message r) (option_list (Spec.codex_text x))).
Proof.
  destruct x as [| | | |s|l|d];
    try (intros _; unfold append_message; simpl; now rewrite app_nil_r).
  - intros _. unfold append_message. simpl. unfold trimmed.
    destruct (nonempty (strip s)); simpl; [reflexivity|now rewrite app_nil_r].
  - unfold append_message, Spec.wf_codex_entry, Spec.codex_text.
    rewrite py_get_dict. simpl rbind.
    destruct (field d (u "content") (VStr [])) as [| | | |s|cs|d'];
      try (intros _; simpl; now rewrite app_nil_r).
    + intros _. unfold trimmed.
      destruct (nonempty (strip s)); simpl; [reflexivity|now rewrite app_nil_r].
    + intros Hwf.
      rewrite (for_each_collect codex_fragment
                 (fun c => option_list (Spec.codex_fragment_text c)) cs).
      * simpl. fold (filter_map Spec.codex_fragment_text cs).
        destruct (filter_map Spec.codex_fragment_text cs); simpl;
          [now rewrite app_nil_r|reflexivity].
      * intros c Hc acc. apply codex_fragment_spec.
        rewrite forallb_forall in Hwf. now apply Hwf.
Qed.

Lemma for_each_append_message (items : list value) :
  forallb Spec.wf_codex_entry items = true ->
  for_each items (append_message user) []
  = Ok (map (Message user) (filter_map Spec.codex_text items)).
Proof.
  intros Hwf.
  rewrite (for_each_collect (append_message user)
             (fun x => map (Message user) (option_list (Spec.codex_text x)))).
  - simpl. f_equal. unfold filter_map.
    induction items as [|x items IH]; simpl; [reflexivity|].
    rewrite map_app. f_equal. apply IH.
    simpl in Hwf. now apply andb_true_iff in Hwf as [_ ?].
  - intros x Hx acc. apply append_message_spec.
    rewrite forallb_forall in Hwf. now apply Hwf.
Qed.

(** C1 (amended).  For a codex payload whose [input-messages] can be
    iterated and whose text fragments carry string texts,
    [extract_conversation] returns one [user] message for each entry
    that yields non-empty trimmed text, in the order of the entries,
    followed by at most one [assistant] message: the one derived from
    [last-assistant-message] when that yields non-empty text, none
    otherwise.  When neither yields anything the result is the single
    [assistant] message holding the pretty-printed payload, so the
    result is never empty. *)
Theorem extract_codex_order (d : list (str * value)) (items : list value) :
  py_iter (field d (u "input-messages") (VList [])) = Ok items ->
  forallb Spec.wf_codex_entry items = true ->
  Spec.wf_codex_entry (field d (u "last-assistant-message") (VStr [])) = true ->
  extract_conversation (VDict d) (u "codex")
  = Ok (match Spec.codex_messages items
                (field d (u "last-assistant-message") (VStr [])) with
        | [] => [Message assistant (json_dumps (VDict d))]
        | msgs => msgs
        end).
Proof.
  intros Hit Hwf Hlast.
  change (extract_conversation (VDict d) (u "codex"))
    with (extract_codex (VDict d)).
  unfold extract_codex. rewrite !py_get_dict. simpl rbind at 1.
  rewrite Hit. simpl rbind at 1.
  rewrite (for_each_append_message _ Hwf). simpl rbind at 1.
  simpl rbind at 1.
  rewrite (append_message_spec assistant _ _ Hlast). simpl rbind.
  fold (Spec.codex_messages items (field d (u "last-assistant-message") (VStr []))).
  now destruct (Spec.codex_messages _ _).
Qed.

End ExtractionFacts.

(* ================================================================= *)
(** ** Fenced blocks in [_text_to_html] *)

Lemma split_on_cons_line (line : str) (lines : list str) :
  ~ In newline line ->
  split_on newline (line ++ newline :: join [newline] lines)
  = line :: split_on newline (join [newline] lines).
Proof.
  induction line as [|c line IH]; intros Hn; simpl.
  - reflexivity.
  - destruct (N.eqb_spec c newline) as [->|Hc].
    + exfalso. apply Hn. now left.
    + rewrite IH by (intros H; apply Hn; now right). reflexivity.
Qed.

Lemma split_on_line (line : str) :
  ~ In newline line -> split_on newline line = [line].
Proof.
  induction line as [|c line IH]; intros Hn; simpl; [reflexivity|].
  destruct (N.eqb_spec c newline) as [->|Hc].
  - exfalso. apply Hn. now left.
  - rewrite IH by (intros H; apply Hn; now right). reflexivity.
Qed.

(** Splitting the joined lines gives the lines back. *)
Lemma split_on_join (lines : list str) :
  lines <> [] ->
  Forall (fun l => ~ In newline l) lines ->
  split_on newline (join [newline] lines) = lines.
Proof.
  induction lines as [|l lines IH]; intros Hne Hall; [congruence|].
  inversion Hall as [|? ? Hl Hrest]; subst.
  destruct lines as [|l' lines].
  - simpl. now apply split_on_line.
  - change (join [newline] (l :: l' :: lines))
      with (l ++ newline :: join [newline] (l' :: lines)).
    rewrite split_on_cons_line by assumption.
    f_equal. apply IH; [discriminate|assumption].
Qed.

Lemma html_line_idle_ok (st : html_state) (line : str) :
  idle_ok st -> idle_ok (html_line st line).
Proof.
  unfold idle_ok, html_line. intros H.
  destruct (is_fence_line line), (in_code st) eqn:E; simpl; auto; discriminate.
Qed.

Lemma fold_html_line_idle_ok (lines : list str) (st : html_state) :
  idle_ok st -> idle_ok (fold_left html_line lines st).
Proof.
  revert st. induction lines as [|l lines IH]; intros st H; simpl; [exact H|].
  apply IH. now apply html_line_idle_ok.
Qed.

Lemma scan_lines_idle (lines : list str) :
  in_code (scan_lines lines) = false -> code_lines (scan_lines lines) = [].
Proof.
  apply (fold_html_line_idle_ok lines (st := HtmlState [] false [])).
  intros _. reflexivity.
Qed.

(** Inside a block, lines that are not fences pile up unchanged. *)
Lemma fold_html_line_code (rest : list str) (parts : list str)
    (pending : list str) :
  forallb (fun l => negb (is_fence_line l)) rest = true ->
  fold_left html_line rest (HtmlState parts true pending)
  = HtmlState parts true (pending ++ rest).
Proof.
  revert pending. induction rest as [|l rest IH]; intros pending H; simpl.
  - now rewrite app_nil_r.
  - simpl in H. apply andb_true_iff in H as [Hl Hrest].
    apply negb_true_iff in Hl. unfold html_line at 2. rewrite Hl. simpl.
    rewrite IH by assumption. now rewrite <- app_assoc.
Qed.

Lemma scan_lines_open (before rest : list str) (opening : str) :
  in_code (scan_lines before) = false ->
  is_fence_line opening = true ->
  forallb (fun l => negb (is_fence_line l)) rest = true ->
  scan_lines (before ++ opening :: rest)
  = HtmlState (html_parts (scan_lines before)) true rest.
Proof.
  intros Hidle Hfence Hrest. unfold scan_lines.
  rewrite fold_left_app. simpl. fold (scan_lines before).
  pose proof (scan_lines_idle before Hidle) as Hcl.
  unfold html_line at 2. rewrite Hfence, Hidle, Hcl.
  now rewrite fold_html_line_code.
Qed.

(** Lines without a fence, outside a block, give one part each. *)
Lemma fold_html_line_plain (lines : list str) (parts : list str) :
  forallb (fun l => negb (is_fence_line l)) lines = true ->
  fold_left html_line lines (HtmlState parts false [])
  = HtmlState (parts ++ map plain_line lines) false [].
Proof.
  revert parts. induction lines as [|l lines IH]; intros parts H; simpl.
  - now rewrite app_nil_r.
  - simpl in H. apply andb_true_iff in H as [Hl Hrest].
    apply negb_true_iff in Hl. unfold html_line at 2. rewrite Hl. simpl.
    rewrite IH by assumption. now rewrite <- app_assoc.
Qed.

(** C6 (amended).  A fence line that opens a code block which no later
    fence line closes, followed by at least one line, produces exactly
    one closed [<pre>] block after the parts of the lines before it, and
    the block holds all the lines after the opening fence; when no line
    before it is a fence, every other part is the rendering of a plain
    line. *)
Theorem unclosed_fence_block (before rest : list str) (opening : str) :
  Forall (fun l => ~ In newline l) (before ++ opening :: rest) ->
  in_code (scan_lines before) = false ->
  is_fence_line opening = true ->
  forallb (fun l => negb (is_fence_line l)) rest = true ->
  rest <> [] ->
  text_parts (join [newline] (before ++ opening :: rest))
  = html_parts (scan_lines before) ++ [pre_block rest]
  /\ _text_to_html (join [newline] (before ++ opening :: rest))
     = join [newline] (html_parts (scan_lines before) ++ [pre_block rest])
  /\ (forallb (fun l => negb (is_fence_line l)) before = true ->
      html_parts (scan_lines before) = map plain_line before).
Proof.
  intros Hnl Hidle Hfence Hrest Hne.
  assert (Hplain : forallb (fun l => negb (is_fence_line l)) before = true ->
                   html_parts (scan_lines before) = map plain_line before).
  { intros Hb. unfold scan_lines. now rewrite fold_html_line_plain. }
  assert (Hparts :
    text_parts (join [newline] (before ++ opening :: rest))
    = html_parts (scan_lines before) ++ [pre_block rest]).
  { unfold text_parts.
    rewrite split_on_join by (assumption || now destruct before).
    rewrite scan_lines_open by assumption.
    unfold final_parts. simpl. destruct rest; [congruence|reflexivity]. }
  split; [exact Hparts|]. split; [|exact Hplain].
  unfold _text_to_html. now rewrite Hparts.
Qed.

(* ================================================================= *)
(** ** Sending mail *)

Section SendingFacts.
Context {RT : Runtime}.

(** C7.  When one of the five required settings resolves to the empty
    string, [send_email] returns [False] at once and leaves the world as
    it found it: no SMTP operation is tried, nothing is printed. *)
Theorem send_email_unconfigured (env : config) (title content source : str)
    (data : value) (w : world) (key : str) :
  In key required_settings ->
  get_config (environ w) env key [] = [] ->
  send_email env title content source data w = (Ok false, w).
Proof.
  intros Hkey Hempty. unfold send_email.
  simpl in Hkey.
  destruct Hkey as [<-|[<-|[<-|[<-|[<-|[]]]]]]; rewrite Hempty; simpl;
    rewrite ?andb_false_r; reflexivity.
Qed.

Lemma required_settings_present (env : config) (w : world) :
  (forall key, In key required_settings ->
               get_config (environ w) env key [] <> []) ->
  forallb (@nonempty char)
    [get_config (environ w) env (u "SMTP_HOST") [];
     get_config (environ w) env (u "SMTP_USER") [];
     get_config (environ w) env (u "SMTP_PASSWORD") [];
     get_config (environ w) env (u "EMAIL_FROM") [];
     get_config (environ w) env (u "EMAIL_TO") []] = true.
Proof.
  intros H.
  assert (Hk : forall key, In key required_settings ->
                 nonempty (get_config (environ w) env key []) = true).
  { intros key Hin. specialize (H key Hin).
    destruct (get_config (environ w) env key []); [congruence|reflexivity]. }
  simpl. rewrite !Hk by (simpl; tauto). reflexivity.
Qed.

(** Whatever runs first, a computation that ends in [True] or raises
    still does so after it. *)
Lemma bind_outcome (A : Type) (m : M A) (k : A -> M bool) :
  (forall a w, exists w',
      k a w = (Ok true, w') \/ exists e, k a w = (Raise e, w')) ->
  forall w, exists w',
      bind m k w = (Ok true, w') \/ exists e, bind m k w = (Raise e, w').
Proof.
  intros H w. unfold bind. destruct (m w) as [[a|e] w1]; [apply H|eauto].
Qed.

(** The statements inside [try] either all succeed or raise. *)
Lemma smtp_session_outcome (use_ssl : bool) (host : str) (port : Z)
    (user_ password sender : str) (recipients : list str) (w : world) :
  exists w',
    smtp_session use_ssl host port user_ password sender recipients w
    = (Ok true, w')
    \/ exists e,
         smtp_session use_ssl host port user_ password sender recipients w
         = (Raise e, w').
Proof.
  unfold smtp_session. revert w.
  do 5 (apply bind_outcome; intros _).
  intros w. exists w. now left.
Qed.

(** With everything before [try] in order, [send_email] is its [try]
    statement, run after the clock was read. *)
Lemma send_email_ready (env : config) (title content source : str)
    (data : value) (w : world) (port : Z) (page_html : str) :
  (forall key, In key required_settings ->
               get_config (environ w) env key [] <> []) ->
  py_int (get_config (environ w) env (u "SMTP_PORT") (u "465")) = Ok port ->
  mime_text content = Ok tt ->
  build_email_html (clock w (clock_reads w)) title source
    (if truthy data then data else VDict []) = Ok page_html ->
  mime_text page_html = Ok tt ->
  send_email env title content source data w
  = try_except
      (smtp_session
         (str_eqb (lower (get_config (environ w) env (u "SMTP_USE_SSL")
                            (u "true"))) (u "true"))
         (get_config (environ w) env (u "SMTP_HOST") []) port
         (get_config (environ w) env (u "SMTP_USER") [])
         (get_config (environ w) env (u "SMTP_PASSWORD") [])
         (get_config (environ w) env (u "EMAIL_FROM") [])
         (comma_list (fun e => e)
            (get_config (environ w) env (u "EMAIL_TO") [])))
      (fun e => print (ErrEmail e) ;;; ret false)
      (snd (read_clock w)).
Proof.
  intros Hreq Hport Hplain Hhtml Hpart.
  unfold send_email. rewrite (required_settings_present env w Hreq).
  cbn [negb]. unfold bind at 1. unfold lift at 1. rewrite Hport.
  unfold bind at 1. unfold lift at 1. rewrite Hplain.
  unfold bind at 1. unfold read_clock at 1. cbn [clock clock_reads].
  unfold bind at 1. unfold lift at 1. rewrite Hhtml.
  unfold bind at 1. unfold lift at 1. rewrite Hpart.
  reflexivity.
Qed.

(** C3 (amended).  Once the five settings are there, the port is an
    integer and the two body parts can be built, [send_email] raises
    nothing, whatever the SMTP operations inside [try] do (connect,
    STARTTLS, login, serialise, send, quit): when they all succeed it
    returns [True]; when one of them raises, the exception is printed
    and the function returns [False]. *)
Theorem send_email_session_caught (env : config)
    (title content source : str) (data : value) (w : world)
    (port : Z) (page_html : str) :
  (forall key, In key required_settings ->
               get_config (environ w) env key [] <> []) ->
  py_int (get_config (environ w) env (u "SMTP_PORT") (u "465")) = Ok port ->
  mime_text content = Ok tt ->
  build_email_html (clock w (clock_reads w)) title source
    (if truthy data then data else VDict []) = Ok page_html ->
  mime_text page_html = Ok tt ->
  let session :=
    smtp_session
      (str_eqb (lower (get_config (environ w) env (u "SMTP_USE_SSL")
                         (u "true"))) (u "true"))
      (get_config (environ w) env (u "SMTP_HOST") []) port
      (get_config (environ w) env (u "SMTP_USER") [])
      (get_config (environ w) env (u "SMTP_PASSWORD") [])
      (get_config (environ w) env (u "EMAIL_FROM") [])
      (comma_list (fun e => e)
         (get_config (environ w) env (u "EMAIL_TO") []))
      (snd (read_clock w)) in
  (exists w', session = (Ok true, w')
              /\ send_email env title content source data w = (Ok true, w'))
  \/ (exists e w', session = (Raise e, w')
                   /\ send_email env title content source data w
                      = (Ok false, snd (print (ErrEmail e) w'))).
Proof.
  intros Hreq Hport Hplain Hhtml Hpart session.
  rewrite (@send_email_ready env title content source data w port page_html
             Hreq Hport Hplain Hhtml Hpart).
  unfold try_except. fold session.
  destruct (smtp_session_outcome
              (str_eqb (lower (get_config (environ w) env (u "SMTP_USE_SSL")
                                 (u "true"))) (u "true"))
              (get_config (environ w) env (u "SMTP_HOST") []) port
              (get_config (environ w) env (u "SMTP_USER") [])
              (get_config (environ w) env (u "SMTP_PASSWORD") [])
              (get_config (environ w) env (u "EMAIL_FROM") [])
              (comma_list (fun e => e)
                 (get_config (environ w) env (u "EMAIL_TO") []))
              (snd (read_clock w))) as [w' [H|[e H]]];
    fold session in H; rewrite H.
  - left. exists w'. split; reflexivity.
  - right. exists e, w'. split; reflexivity.
Qed.

(** A port that is not an integer makes [send_email] raise. *)
Lemma send_email_bad_port (env : config) (title content source : str)
    (data : value) (w : world) (e : exn) :
  (forall key, In key required_settings ->
               get_config (environ w) env key [] <> []) ->
  py_int (get_config (environ w) env (u "SMTP_PORT") (u "465")) = Raise e ->
  send_email env title content source data w = (Raise e, w).
Proof.
  intros Hreq Hport. unfold send_email.
  rewrite (required_settings_present env w Hreq).
  cbn [negb]. unfold bind at 1. unfold lift at 1. rewrite Hport. reflexivity.
Qed.

End SendingFacts.

(* ================================================================= *)
(** ** Dispatch *)

Lemma dict_set_keys (V : Type) (d : list (str * V)) (k : str) (v : V)
    (x : str) :
  In x (map fst (dict_set d k v)) <-> In x (map fst d) \/ x = k.
Proof.
  induction d as [|[k' v'] d IH]; simpl.
  - intuition.
  - destruct (str_eqb k' k) eqn:E; simpl.
    + apply str_eqb_eq in E. subst. intuition.
    + rewrite IH. intuition.
Qed.

Section DispatchFacts.
Context {RT : Runtime}.
Variable handlers : list (str * handler).
Variables (env : config) (title content source : str) (data : value).

(** One channel: a registered handler is called with the five arguments;
    its result is recorded, or [False] when it raises, and the loop goes
    on either way. *)
Lemma notify_channel_registered (h : handler) (results : list (str * bool))
    (channel : str) (w : world) :
  dict_get handlers channel = Some h ->
  notify_channel handlers env title content source data results channel w
  = match h env title content source data w with
    | (Ok ok, w') => (Ok (dict_set results channel ok), w')
    | (Raise e, w') =>
      (Ok (dict_set results channel false),
       snd (print (ErrChannel channel e) w'))
    end.
Proof.
  intros Hh. unfold notify_channel. rewrite Hh.
  unfold try_except, bind.
  destruct (h env title content source data w) as [[ok|e] w']; reflexivity.
Qed.

Lemma notify_channel_unregistered (results : list (str * bool))
    (channel : str) (w : world) :
  registered handlers channel = false ->
  notify_channel handlers env title content source data results channel w
  = (Ok results, w).
Proof.
  unfold registered, notify_channel.
  destruct (dict_get handlers channel); [discriminate|reflexivity].
Qed.

Lemma notify_channel_total (results : list (str * bool)) (channel : str)
    (w : world) :
  exists results' w',
    notify_channel handlers env title content source data results channel w
    = (Ok results', w')
    /\ forall x, In x (map fst results')
                 <-> In x (map fst results)
                     \/ (x = channel /\ registered handlers channel = true).
Proof.
  destruct (dict_get handlers channel) as [h|] eqn:Hh.
  - rewrite (notify_channel_registered _ _ _ Hh).
    assert (Hr : registered handlers channel = true)
      by (unfold registered; now rewrite Hh).
    destruct (h env title content source data w) as [[ok|e] w'];
      eexists; eexists; (split; [reflexivity|]);
      intros x; rewrite dict_set_keys; intuition.
  - assert (Hr : registered handlers channel = false)
      by (unfold registered; now rewrite Hh).
    rewrite (notify_channel_unregistered _ _ _ Hr).
    exists results, w. split; [reflexivity|].
    intros x. rewrite Hr. intuition discriminate.
Qed.

(** The loop never raises, and its result has a key for exactly the
    registered channels it met (besides the keys it started with). *)
Lemma notify_channels_total (channels : list str) :
  forall (results : list (str * bool)) (w : world),
  exists results' w',
    notify_channels handlers env title content source data channels results w
    = (Ok results', w')
    /\ forall x, In x (map fst results')
                 <-> In x (map fst results)
                     \/ (In x channels /\ registered handlers x = true).
Proof.
  induction channels as [|ch channels IH]; intros results w; simpl.
  - exists results, w. split; [reflexivity|]. intuition.
  - unfold bind.
    destruct (notify_channel_total results ch w) as (r1 & w1 & E1 & K1).
    rewrite E1.
    destruct (IH r1 w1) as (r2 & w2 & E2 & K2).
    exists r2, w2. split; [exact E2|].
    intros x. rewrite K2, K1. intuition; subst; intuition.
Qed.

(** Names without a handler leave no trace at all. *)
Lemma notify_channels_skip (channels : list str) :
  forall (results : list (str * bool)) (w : world),
    notify_channels handlers env title content source data channels results w
    = notify_channels handlers env title content source data
        (filter (registered handlers) channels) results w.
Proof.
  induction channels as [|ch channels IH]; intros results w; simpl;
    [reflexivity|].
  destruct (registered handlers ch) eqn:Hr; simpl; unfold bind.
  - destruct (notify_channel _ _ _ _ _ _ _ _ _) as [[r1|e] w1];
      [apply IH|reflexivity].
  - rewrite (notify_channel_unregistered _ _ _ Hr). apply IH.
Qed.

(** C9.  [send_notification] never raises.  Names without a registered
    handler are skipped without a result entry or any other effect; each
    registered handler is called with (config, title, content, source,
    payload), an exception it raises is caught and recorded as [False],
    and the remaining channels are still tried; the result has an entry
    for exactly the registered channels among the enabled ones. *)
Theorem send_notification_dispatch (w : world) :
  let channels := get_enabled_channels (environ w) env in
  (exists results w',
      send_notification_with handlers env title content source data w
      = (Ok results, w')
      /\ forall x, In x (map fst results)
                   <-> In x channels /\ registered handlers x = true)
  /\ send_notification_with handlers env title content source data w
     = notify_channels handlers env title content source data
         (filter (registered handlers) channels) [] w
  /\ (forall h results channel w0,
        dict_get handlers channel = Some h ->
        notify_channel handlers env title content source data results
          channel w0
        = match h env title content source data w0 with
          | (Ok ok, w') => (Ok (dict_set results channel ok), w')
          | (Raise e, w') =>
            (Ok (dict_set results channel false),
             snd (print (ErrChannel channel e) w'))
          end)
  /\ (forall results channel rest w0,
        exists results' w',
          notify_channel handlers env title content source data results
            channel w0 = (Ok results', w')
          /\ notify_channels handlers env title content source data
               (channel :: rest) results w0
             = notify_channels handlers env title content source data
                 rest results' w').
Proof.
  intros channels. repeat split.
  - unfold send_notification_with. fold channels.
    destruct (notify_channels_total channels [] w) as (r & w' & E & K).
    exists r, w'. split; [exact E|].
    intros x. rewrite K. simpl. intuition.
  - unfold send_notification_with. fold channels.
    apply notify_channels_skip.
  - intros h results channel w0. apply notify_channel_registered.
  - intros results channel rest w0.
    destruct (notify_channel_total results channel w0) as (r1 & w1 & E1 & _).
    exists r1, w1. split; [exact E1|].
    simpl. unfold bind. now rewrite E1.
Qed.

End DispatchFacts.

(* ================================================================= *)
(** ** Input and exit status *)

Section MainFacts.
Context {RT : Runtime}.

(** C10.  When the first command-line argument is valid JSON but not an
    object, [parse_input] raises [AttributeError] (from [data.get]): the
    error is not swallowed, standard input is not tried, and no empty
    payload is returned. *)
Theorem parse_input_non_object (w : world) (prog arg1 : str)
    (rest : list str) (v : value) :
  argv w = prog :: arg1 :: rest ->
  json_loads arg1 = Some v ->
  is_dict v = false ->
  parse_input w = (Raise AttributeError, w).
Proof.
  intros Hargv Hloads Hdict.
  unfold parse_input, bind, read_argv. rewrite Hargv.
  unfold loads_or_pass. rewrite Hloads.
  destruct v; try discriminate; reflexivity.
Qed.

Lemma success_count_pos (results : list (str * bool)) :
  (0 <? success_count results)%nat = true
  <-> exists channel, In (channel, true) results.
Proof.
  unfold success_count. rewrite Nat.ltb_lt.
  induction results as [|[c b] results IH]; simpl.
  - split; [lia|intros [? []]].
  - destruct b; simpl.
    + split; [intros _; exists c; now left|lia].
    + rewrite IH. split; intros [x H]; exists x; [now right|].
      destruct H as [H|H]; [discriminate|exact H].
Qed.

Lemma success_count_zero (results : list (str * bool)) :
  (0 <? success_count results)%nat = false
  <-> forall channel ok, In (channel, ok) results -> ok = false.
Proof.
  split.
  - intros H c b Hin. destruct b; [|reflexivity].
    assert (Hp : (0 <? success_count results)%nat = true)
      by (apply success_count_pos; eauto).
    congruence.
  - intros H. destruct (0 <? success_count results)%nat eqn:E; [|reflexivity].
    apply success_count_pos in E as [c Hc]. now apply H in Hc.
Qed.

Lemma print_results_ok (results : list (str * bool)) (w : world) :
  exists w', print_results results w = (Ok tt, w').
Proof.
  revert w. induction results as [|[c b] results IH]; intros w; simpl.
  - now exists w.
  - unfold bind, print. apply IH.
Qed.

Lemma send_notification_ok (env : config) (title content source : str)
    (data : value) (w : world) :
  exists results w',
    send_notification env title content source data w = (Ok results, w').
Proof.
  unfold send_notification, send_notification_with.
  destruct (notify_channels_total CHANNEL_HANDLERS env title content source
              data (get_enabled_channels (environ w) env) [] w)
    as (r & w' & E & _).
  eauto.
Qed.

(** [main], case by case. *)
Lemma main_cases (w : world) :
  fst (main w) =
  match enabled_channels w with
  | [] => Ok 0%Z
  | _ :: _ =>
    match parse_input w with
    | (Raise e, _) => Raise e
    | (Ok (source, event_type, data), w1) =>
      if is_none data then Ok 0%Z
      else if negb (truthy data) then Ok 1%Z
      else
        match format_message (clock w1 (clock_reads w1)) source
                event_type data with
        | Raise e => Raise e
        | Ok (title, content) =>
          match send_notification (load_env (env_file w)) title content
                  source data (snd (read_clock w1)) with
          | (Ok results, _) =>
            Ok (if (0 <? success_count results)%nat then 0%Z else 1%Z)
          | (Raise e, _) => Raise e
          end
        end
    end
  end.
Proof.
  unfold main, enabled_channels.
  unfold bind at 1. unfold read_env_file at 1.
  unfold bind at 1. unfold read_environ at 1.
  destruct (get_enabled_channels (environ w) (load_env (env_file w)))
    as [|c cs]; [reflexivity|].
  cbn [nonempty negb]. unfold bind at 1.
  destruct (parse_input w) as [[[[source ev] data]|e] w1]; [|reflexivity].
  destruct (is_none data); [reflexivity|].
  destruct (negb (truthy data)); [reflexivity|].
  unfold bind at 1. unfold read_clock at 1.
  unfold bind at 1. unfold lift at 1. cbn [clock clock_reads].
  destruct (format_message _ _ _ _) as [[title content]|e]; [|reflexivity].
  unfold bind at 1. cbn [snd].
  destruct (send_notification _ _ _ _ _ _) as [[results|e] w3];
    [|reflexivity].
  unfold bind at 1. unfold print at 1.
  unfold bind at 1.
  match goal with
  | |- context [print_results results ?w0] =>
    destruct (print_results_ok results w0) as [w4 E]; rewrite E
  end.
  reflexivity.
Qed.

Lemma parse_input_world (w : world) : snd (parse_input w) = w.
Proof.
  assert (Hstdin : forall st, snd (parse_stdin st w) = w).
  { intros [[source ev] data]. unfold parse_stdin, bind, read_stdin, ret.
    destruct (negb (truthy data) && negb (stdin_isatty w)); [|reflexivity].
    destruct (nonempty (strip (stdin_text w))); [|reflexivity].
    destruct (loads_or_pass (stdin_text w)); reflexivity. }
  unfold parse_input, bind, read_argv.
  destruct (argv w) as [|prog [|arg1 rest]]; try apply Hstdin.
  destruct (loads_or_pass arg1) as [data|]; [|apply Hstdin].
  unfold lift. destruct (py_get data (u "type") (VStr [])) as [ev|e];
    [|reflexivity].
  destruct (negb (eq_str ev (u "agent-turn-complete"))); [reflexivity|].
  apply Hstdin.
Qed.

Lemma keys_nil (V : Type) (d : list (str * V)) :
  (forall x, ~ In x (map fst d)) -> d = [].
Proof.
  destruct d as [|[k v] d]; [reflexivity|].
  intros H. exfalso. apply (H k). now left.
Qed.

Lemma filtered_inv (w : world) (source : str) (ev data : value) (w1 : world) :
  parse_input w = (Ok (source, ev, data), w1) ->
  filtered w <-> data = VNone.
Proof.
  intros Hp. unfold filtered. rewrite Hp. split.
  - intros (s0 & e0 & w0 & H). congruence.
  - intros ->. eauto.
Qed.

Lemma no_input_inv (w : world) (source : str) (ev data : value) (w1 : world) :
  parse_input w = (Ok (source, ev, data), w1) ->
  no_input w <-> data <> VNone /\ truthy data = false.
Proof.
  intros Hp. unfold no_input. rewrite Hp. split.
  - intros (s0 & e0 & d0 & w0 & H & Hd & Ht). injection H as <- <- <- <-. auto.
  - intros [Hd Ht]. exists source, ev, data, w1. auto.
Qed.

Lemma dispatched_inv (w : world) (source : str) (ev data : value)
    (w1 : world) (results : list (str * bool)) :
  parse_input w = (Ok (source, ev, data), w1) ->
  dispatched w results
  <-> truthy data = true
      /\ exists title content w3,
           format_message (clock w1 (clock_reads w1)) source ev data
           = Ok (title, content)
           /\ send_notification (load_env (env_file w)) title content source
                data (snd (read_clock w1)) = (Ok results, w3).
Proof.
  intros Hp. unfold dispatched. rewrite Hp. split.
  - intros (s0 & e0 & d0 & w0 & t0 & c0 & w3 & H & Ht & Hf & Hs).
    injection H as <- <- <- <-. eauto 6.
  - intros (Ht & t0 & c0 & w3 & Hf & Hs).
    exists source, ev, data, w1, t0, c0, w3. auto.
Qed.

(** The five ways a run of [main] can go. *)
Lemma main_outcome (w : world) :
  (enabled_channels w = [] /\ fst (main w) = Ok 0%Z)
  \/ (enabled_channels w <> []
      /\ ((exists e, fst (main w) = Raise e)
          /\ ~ filtered w /\ ~ no_input w
          /\ (forall r, ~ dispatched w r)
          \/ fst (main w) = Ok 0%Z
             /\ filtered w /\ ~ no_input w /\ (forall r, ~ dispatched w r)
          \/ fst (main w) = Ok 1%Z
             /\ ~ filtered w /\ no_input w /\ (forall r, ~ dispatched w r)
          \/ exists results,
               fst (main w)
               = Ok (if (0 <? success_count results)%nat then 0%Z else 1%Z)
               /\ ~ filtered w /\ ~ no_input w
               /\ forall r, dispatched w r <-> r = results)).
Proof.
  rewrite main_cases.
  destruct (enabled_channels w) as [|c cs]; [now left|].
  right. split; [discriminate|].
  destruct (parse_input w) as [[[[source ev] data]|e] w1] eqn:Hp.
  - pose proof (filtered_inv w Hp) as Hfil.
    pose proof (no_input_inv w Hp) as Hno.
    pose proof (fun r => dispatched_inv w r Hp) as Hdis.
    destruct (truthy data) eqn:Et.
    + assert (Hd : data <> VNone) by (intros ->; discriminate).
      assert (Hnf : ~ filtered w) by (rewrite Hfil; exact Hd).
      assert (Hnn : ~ no_input w) by (rewrite Hno; intros [_ ?]; discriminate).
      cbn [negb].
      destruct (format_message _ _ _ _) as [[title content]|e] eqn:Ef.
      * destruct (send_notification_ok (load_env (env_file w)) title content
                    source data (snd (read_clock w1))) as (results & w3 & Es).
        rewrite Es.
        do 3 right. exists results.
        assert (En : is_none data = false) by (now destruct data).
        rewrite En.
        split; [reflexivity|]. split; [exact Hnf|]. split; [exact Hnn|].
        intros r. rewrite Hdis. split.
        -- intros (_ & t0 & c0 & w3' & Hf & Hs).
           injection Hf as <- <-. congruence.
        -- intros ->. eauto 6.
      * assert (En : is_none data = false) by (now destruct data).
        rewrite En.
        left. split; [now exists e|].
        split; [exact Hnf|]. split; [exact Hnn|].
        intros r. rewrite Hdis. intros (_ & t0 & c0 & w3 & Hf & _).
        discriminate.
    + assert (Hnd : forall r, ~ dispatched w r)
        by (intros r; rewrite Hdis; intros [? _]; discriminate).
      cbn [negb].
      destruct (is_none data) eqn:En.
      * assert (Hd : data = VNone) by (destruct data; discriminate || reflexivity).
        right. left. split; [reflexivity|]. split; [now apply Hfil|].
        split; [rewrite Hno; intros [H _]; now apply H|exact Hnd].
      * assert (Hd : data <> VNone) by (intros ->; discriminate).
        do 2 right. left. split; [reflexivity|].
        split; [now rewrite Hfil|]. split; [now apply Hno|exact Hnd].
  - left. split; [eauto|].
    unfold filtered, no_input, dispatched. rewrite Hp.
    split; [intros (s0 & e0 & w0 & H); discriminate|].
    split; [intros (s0 & e0 & d0 & w0 & H & _); discriminate|].
    intros r (s0 & e0 & d0 & w0 & t0 & c0 & w3 & H & _). discriminate.
Qed.

(** C8.  The exit status of [main], when it returns one.  It is 0
    exactly when no channel is enabled, or (channels being enabled) the
    parser returned the sentinel, or the dispatcher ran and some channel
    reported success.  It is 1 exactly when (channels being enabled) the
    parser returned an empty payload, or the dispatcher ran and no
    channel reported success; the latter includes enabled names without
    a registered handler, for which the dispatcher returns no entry. *)
Theorem main_exit_status (w : world) :
  (fst (main w) = Ok 0%Z
   <-> enabled_channels w = []
       \/ (enabled_channels w <> []
           /\ (filtered w
               \/ exists results,
                    dispatched w results
                    /\ exists channel, In (channel, true) results)))
  /\ (fst (main w) = Ok 1%Z
      <-> enabled_channels w <> []
          /\ (no_input w
              \/ exists results,
                   dispatched w results
                   /\ forall channel ok,
                        In (channel, ok) results -> ok = false))
  /\ (forall results,
        (forall x, In x (enabled_channels w) ->
                   registered CHANNEL_HANDLERS x = false) ->
        dispatched w results -> results = []).
Proof.
  split; [|split].
  - destruct (main_outcome w)
      as [[Hc Hm]|[Hc [([e Hm] & Hf & Hn & Hd)|[(Hm & Hf & Hn & Hd)
                      |[(Hm & Hf & Hn & Hd)|(res & Hm & Hf & Hn & Hd)]]]]];
      rewrite Hm.
    + intuition.
    + split; [discriminate|].
      intros [H|[_ [H|(r & H & _)]]]; [easy|easy|now apply Hd in H].
    + intuition.
    + split; [discriminate|].
      intros [H|[_ [H|(r & H & _)]]]; [easy|easy|now apply Hd in H].
    + destruct (0 <? success_count res)%nat eqn:Ec.
      * split; [|reflexivity]. intros _. right. split; [exact Hc|]. right.
        exists res. split; [now apply Hd|]. now apply success_count_pos.
      * split; [discriminate|].
        intros [H|[_ [H|(r & H & Hin)]]]; [easy|easy|].
        apply Hd in H. subst r. apply success_count_pos in Hin. congruence.
  - destruct (main_outcome w)
      as [[Hc Hm]|[Hc [([e Hm] & Hf & Hn & Hd)|[(Hm & Hf & Hn & Hd)
                      |[(Hm & Hf & Hn & Hd)|(res & Hm & Hf & Hn & Hd)]]]]];
      rewrite Hm.
    + split; [discriminate|]. intros [H _]. easy.
    + split; [discriminate|].
      intros [_ [H|(r & H & _)]]; [easy|now apply Hd in H].
    + split; [discriminate|].
      intros [_ [H|(r & H & _)]]; [easy|now apply Hd in H].
    + intuition.
    + destruct (0 <? success_count res)%nat eqn:Ec.
      * split; [discriminate|].
        intros [_ [H|(r & H & Hall)]]; [easy|].
        apply Hd in H. subst r. apply success_count_zero in Hall. congruence.
      * split; [|reflexivity]. intros _. split; [exact Hc|]. right.
        exists res. split; [now apply Hd|]. now apply success_count_zero.
  - intros results Hnone (s0 & e0 & d0 & w0 & t0 & c0 & w3 & Hp & _ & _ & Hs).
    pose proof (parse_input_world w) as Hw. rewrite Hp in Hw. simpl in Hw.
    subst w0.
    unfold send_notification, send_notification_with in Hs.
    destruct (notify_channels_total CHANNEL_HANDLERS (load_env (env_file w))
                t0 c0 s0 d0
                (get_enabled_channels (environ (snd (read_clock w)))
                   (load_env (env_file w))) [] (snd (read_clock w)))
      as (r & w' & E & K).
    rewrite E in Hs. injection Hs as <- <-.
    apply keys_nil. intros x Hx. apply K in Hx as [[]|[Hin Hr]].
    specialize (Hnone x Hin). congruence.
Qed.

End MainFacts.

(* ================================================================= *)
(** ** The two renderers *)

Lemma last_cons (A : Type) (l : list A) (a d : A) : last (a :: l) d = last l a.
Proof.
  revert a d. induction l as [|b l IH]; intros a d; [reflexivity|].
  change (last (a :: b :: l) d) with (last (b :: l) d).
  now rewrite !IH.
Qed.

Lemma last_text_from_cons (default : str) (r : role) (m : message)
    (msgs : list message) :
  Spec.last_text_from default r (m :: msgs)
  = Spec.last_text_from
      (if role_eqb (msg_role m) r then msg_text m else default) r msgs.
Proof.
  unfold Spec.last_text_from. simpl.
  destruct (role_eqb (msg_role m) r); [|reflexivity].
  simpl map. apply last_cons.
Qed.

Lemma message_card_nonempty (m : message) : nonempty (message_card m) = true.
Proof. destruct m as [[] t]; reflexivity. Qed.

Lemma cards_nonempty (conv : list message) :
  nonempty (concat (map message_card conv)) = nonempty conv.
Proof.
  destruct conv as [|m conv]; [reflexivity|].
  simpl concat. pose proof (message_card_nonempty m) as H.
  destruct (message_card m); [discriminate|reflexivity].
Qed.

Section RenderingFacts.
Context {RT : Runtime}.

Lemma wf_summary_entry_wf (item : value) :
  Spec.wf_summary_entry item = true -> Spec.wf_entry item = true.
Proof.
  unfold Spec.wf_summary_entry, Spec.wf_entry.
  intros H. apply andb_true_iff in H as [Hd Hm].
  now destruct (Spec.entry_role item).
Qed.

Lemma last_turn_item_spec (item : value) (last_user last_ai : str) :
  Spec.wf_summary_entry item = true ->
  last_turn_item item (last_user, last_ai)
  = Ok (match Spec.entry_message item with
        | Some m =>
          (if role_eqb (msg_role m) user then msg_text m else last_user,
           if role_eqb (msg_role m) assistant then msg_text m else last_ai)
        | None => (last_user, last_ai)
        end).
Proof.
  unfold Spec.wf_summary_entry, Spec.entry_message, last_turn_item.
  destruct item as [| | | | | |d]; try discriminate.
  cbn [is_dict andb Spec.entry_message_field Spec.entry_role].
  intros Hwf. rewrite !py_get_dict. cbn [rbind].
  rewrite (message_texts_spec _ Hwf). cbn [rbind].
  fold (Spec.derived_text (field d (u "message") (VDict []))).
  destruct (eq_str (field d (u "type") (VStr [])) (u "human")).
  - now destruct (nonempty (Spec.derived_text _)).
  - destruct (eq_str (field d (u "type") (VStr [])) (u "assistant")).
    + now destruct (nonempty (Spec.derived_text _)).
    + now destruct (nonempty (Spec.derived_text _)).
Qed.

Lemma for_each_last_turn (items : list value) :
  forallb Spec.wf_summary_entry items = true ->
  forall last_user last_ai : str,
    for_each items last_turn_item (last_user, last_ai)
    = Ok (Spec.last_text_from last_user user
            (filter_map Spec.entry_message items),
          Spec.last_text_from last_ai assistant
            (filter_map Spec.entry_message items)).
Proof.
  induction items as [|x items IH]; intros Hwf lu la; [reflexivity|].
  simpl in Hwf. apply andb_true_iff in Hwf as [Hx Hrest].
  cbn [for_each]. rewrite (last_turn_item_spec x lu la Hx). cbn [rbind].
  unfold filter_map. cbn [flat_map]. fold (filter_map Spec.entry_message items).
  destruct (Spec.entry_message x) as [m|]; cbn [option_list app].
  - rewrite (IH Hrest). now rewrite !last_text_from_cons.
  - apply (IH Hrest).
Qed.

Lemma user_text_item_spec (item : value) (user_texts : list str) :
  user_text_item item user_texts
  = Ok (user_texts ++ option_list (Spec.plain_text item)).
Proof.
  unfold user_text_item, Spec.plain_text.
  destruct item as [| | | |s|l|d]; try (now rewrite app_nil_r).
  - unfold trimmed. destruct (nonempty (strip s)); cbn [option_list];
      [reflexivity|now rewrite app_nil_r].
  - rewrite py_get_dict. cbn [rbind].
    destruct (field d (u "content") (VStr [])) as [| | | |s| |];
      try (now rewrite app_nil_r).
    unfold trimmed. destruct (nonempty (strip s)); cbn [option_list];
      [reflexivity|now rewrite app_nil_r].
Qed.

Lemma codex_ai_msg_spec (last_msg : value) :
  codex_ai_msg last_msg = Ok (reply_text last_msg).
Proof. now destruct last_msg. Qed.

(** C2 (amended).  For a claude-code payload the plain-text summary
    shows the last user text and the last assistant text of the
    conversation, and nothing of the earlier turns.  For a codex payload
    it shows every usable entry of [input-messages], one per line, and
    the text of [last-assistant-message].  The HTML page shows a card
    for every extracted message. *)
Theorem format_message_turns (now : str) (event_type : value)
    (d : list (str * value)) (items entries : list value) (sid : value) :
  field d (u "transcript") (VList []) = VList items ->
  forallb Spec.wf_summary_entry items = true ->
  py_slice_to 8 (field d (u "session_id") NOT_AVAILABLE) = Ok sid ->
  py_iter (field d (u "input-messages") (VList [])) = Ok entries ->
  let conv := filter_map Spec.entry_message items in
  format_message now (u "claude-code") event_type (VDict d)
  = Ok (u "Claude Code 任务完成",
        claude_content now (py_str (field d (u "cwd") NOT_AVAILABLE))
          (py_str sid)
          (or_no_content (Spec.last_text user conv))
          (or_no_content (Spec.last_text assistant conv)))
  /\ format_message now (u "codex") event_type (VDict d)
     = Ok (u "Codex 任务完成",
           codex_content now (py_str (field d (u "cwd") NOT_AVAILABLE))
             (py_str event_type)
             (match filter_map Spec.plain_text entries with
              | [] => NO_CONTENT
              | texts => join [newline] texts
              end)
             (reply_text (field d (u "last-assistant-message") (VStr []))))
  /\ forall title,
       build_email_html now title (u "claude-code") (VDict d)
       = Ok (page (choose_palette title (u "claude-code")) title
               (concat (map meta_row (meta_rows now (VDict d))))
               (match conv with
                | [] => raw_block (_escape_html (json_dumps (VDict d)))
                | _ => concat (map message_card conv)
                end)
               now).
Proof.
  intros Ht Hwf Hsid Hit conv. split; [|split].
  - change (format_message now (u "claude-code") event_type (VDict d))
      with (format_claude now (VDict d)).
    unfold format_claude. rewrite !py_get_dict, Ht. cbn [rbind py_iter].
    rewrite (for_each_last_turn _ Hwf). cbn [rbind].
    rewrite Hsid. reflexivity.
  - change (format_message now (u "codex") event_type (VDict d))
      with (format_codex now event_type (VDict d)).
    unfold format_codex. rewrite !py_get_dict. cbn [rbind].
    rewrite Hit. cbn [rbind].
    rewrite (for_each_collect user_text_item
               (fun x => option_list (Spec.plain_text x)) entries
               (fun x _ acc => user_text_item_spec x acc)).
    cbn [rbind app]. fold (filter_map Spec.plain_text entries).
    rewrite codex_ai_msg_spec. cbn [rbind].
    now destruct (filter_map Spec.plain_text entries).
  - intros title. unfold build_email_html, page_conversation.
    cbn [is_dict].
    change (extract_conversation (VDict d) (u "claude-code"))
      with (extract_claude (VDict d)).
    rewrite (extract_claude_spec d Ht).
    + cbn [rbind]. fold conv. rewrite cards_nonempty.
      now destruct conv.
    + rewrite forallb_forall in *. intros x Hx.
      apply wf_summary_entry_wf. now apply Hwf.
Qed.

(** C4.  Two payloads with fields of an unexpected type: a [session_id]
    that is a number makes [format_message] raise [TypeError] (at the
    slice), and a transcript entry that is not an object makes
    [extract_conversation] raise [AttributeError] (at [item.get]). *)
Theorem wrong_typed_fields_raise (now : str) (event_type : value) :
  format_message now (u "claude-code") event_type
    (VDict [(u "session_id", VInt 12345)]) = Raise TypeError
  /\ extract_conversation (VDict [(u "transcript", VList [VStr (u "x")])])
       (u "claude-code") = Raise AttributeError.
Proof. split; reflexivity. Qed.

End RenderingFacts.

(* ================================================================= *)
(** ** Trimming and comma-separated settings *)

Lemma lstrip_head (s : str) :
  match lstrip s with [] => True | c :: _ => is_space c = false end.
Proof.
  induction s as [|c s IH]; simpl; [exact I|].
  destruct (is_space c) eqn:E; [exact IH|exact E].
Qed.

Lemma lstrip_fixed (s : str) :
  match s with [] => True | c :: _ => is_space c = false end -> lstrip s = s.
Proof. destruct s as [|c s]; simpl; [reflexivity|]. now intros ->. Qed.

Lemma lstrip_idem (s : str) : lstrip (lstrip s) = lstrip s.
Proof. apply lstrip_fixed, lstrip_head. Qed.

Lemma lstrip_snoc (s : str) (c : char) :
  is_space c = false -> lstrip (s ++ [c]) = lstrip s ++ [c].
Proof.
  intros Hc. induction s as [|x s IH]; simpl; [now rewrite Hc|].
  destruct (is_space x); [exact IH|reflexivity].
Qed.

Lemma rstrip_cons (c : char) (s : str) :
  is_space c = false -> rstrip (c :: s) = c :: rstrip s.
Proof.
  intros Hc. unfold rstrip. simpl rev.
  rewrite lstrip_snoc by assumption. now rewrite rev_app_distr.
Qed.

(** [strip] twice is [strip] once. *)
Lemma strip_idem (s : str) : strip (strip s) = strip s.
Proof.
  unfold strip.
  assert (Hl : lstrip (rstrip (lstrip s)) = rstrip (lstrip s)).
  { pose proof (lstrip_head s) as Hh. destruct (lstrip s) as [|c r];
      [reflexivity|].
    rewrite rstrip_cons by assumption. simpl. now rewrite Hh. }
  rewrite Hl. unfold rstrip at 1 2. rewrite rev_involutive.
  now rewrite lstrip_idem.
Qed.

Lemma lstrip_incl (s : str) (c : char) : In c (lstrip s) -> In c s.
Proof.
  induction s as [|x s IH]; simpl; [tauto|].
  destruct (is_space x); simpl; tauto.
Qed.

Lemma strip_incl (s : str) (c : char) : In c (strip s) -> In c s.
Proof.
  unfold strip, rstrip. intros H. apply in_rev in H.
  apply lstrip_incl in H. apply in_rev in H. now apply lstrip_incl.
Qed.

(** What [strip] leaves has no white space at either end. *)
Lemma lstrip_strip (s : str) : lstrip (strip s) = strip s.
Proof.
  unfold strip. pose proof (lstrip_head s) as Hh.
  destruct (lstrip s) as [|c r]; [reflexivity|].
  rewrite rstrip_cons by assumption. simpl. now rewrite Hh.
Qed.

Lemma strip_ends (s : str) : head_ok (strip s) /\ head_ok (rev (strip s)).
Proof.
  split.
  - rewrite <- lstrip_strip. apply lstrip_head.
  - unfold strip, rstrip. rewrite rev_involutive. apply lstrip_head.
Qed.

Lemma ends_strip (s : str) :
  head_ok s -> head_ok (rev s) -> strip s = s.
Proof.
  intros H1 H2. unfold strip, rstrip.
  rewrite (lstrip_fixed s H1), (lstrip_fixed (rev s) H2).
  apply rev_involutive.
Qed.

Lemma head_ok_app (s t : str) : s <> [] -> head_ok s -> head_ok (s ++ t).
Proof. destruct s; [congruence|trivial]. Qed.

(** *** Lower case *)

Lemma zone_clean (z : N * N) (x : char) :
  In z clean_zones -> (fst z <= x <= snd z)%N -> clean_char x.
Proof.
  unfold clean_zones. cbn [In]. intros Hz Hx.
  assert (Hs : is_space x = true -> False).
  { unfold is_space.
    rewrite !orb_true_iff, !andb_true_iff, !N.leb_le, !N.eqb_eq.
    intros Hsp.
    repeat match type of Hz with
           | _ \/ _ => destruct Hz as [<-|Hz]; cbn [fst snd] in Hx
           end; [lia..|contradiction]. }
  unfold clean_char. split; [destruct (is_space x); [now exfalso|reflexivity]|].
  repeat match type of Hz with
         | _ \/ _ => destruct Hz as [<-|Hz]; cbn [fst snd] in Hx
         end; [lia..|contradiction].
Qed.

Lemma runs_clean : forallb run_clean lower_runs = true.
Proof. vm_compute. reflexivity. Qed.

Lemma runs_above_ascii : forallb run_above_ascii lower_runs = true.
Proof. vm_compute. reflexivity. Qed.

(** A code point is lowered to itself or to a clean one. *)
Lemma lower_char_cases (c : char) :
  lower_char c = c \/ clean_char (lower_char c).
Proof.
  unfold lower_char.
  destruct (find (in_run c) lower_runs) as [[[[first last] step] target]|]
    eqn:F; [right|now left].
  apply find_some in F as [Hin Hrun].
  pose proof runs_clean as Hc. rewrite forallb_forall in Hc.
  specialize (Hc _ Hin). unfold run_clean in Hc.
  apply andb_true_iff in Hc as [Hfl Hz]. apply N.leb_le in Hfl.
  apply existsb_exists in Hz as (z & Hz & Hb).
  apply andb_true_iff in Hb as [Hb1 Hb2]. apply N.leb_le in Hb1, Hb2.
  unfold in_run in Hrun. apply andb_true_iff in Hrun as [Hrun _].
  apply andb_true_iff in Hrun as [Hr1 Hr2]. apply N.leb_le in Hr1, Hr2.
  apply (zone_clean Hz). lia.
Qed.

Lemma find_none_all (A : Type) (p : A -> bool) (l : list A) :
  (forall x, In x l -> p x = false) -> find p l = None.
Proof.
  induction l as [|a l IH]; intros H; [reflexivity|].
  cbn [find]. rewrite (H a (or_introl eq_refl)).
  apply IH. intros x Hx. apply H. now right.
Qed.

(** Of the ASCII characters only the letters A-Z are lowered. *)
Lemma lower_char_ascii (c : char) :
  (c < 128)%N -> ~ (65 <= c <= 90)%N -> lower_char c = c.
Proof.
  intros Hc Hn. unfold lower_char. rewrite find_none_all; [reflexivity|].
  intros [[[first last] step] target] Hin.
  pose proof runs_above_ascii as Ha. rewrite forallb_forall in Ha.
  specialize (Ha _ Hin). unfold run_above_ascii in Ha. unfold in_run.
  apply orb_true_iff in Ha as [Ha|Ha].
  - apply N.leb_le in Ha.
    rewrite (proj2 (N.leb_gt first c)) by lia. reflexivity.
  - apply andb_true_iff in Ha as [H1 H2].
    apply N.eqb_eq in H1, H2. subst first last.
    destruct (N.leb_spec 65 c); [|reflexivity].
    rewrite (proj2 (N.leb_gt c 90)) by lia. reflexivity.
Qed.

Lemma lower_char_upper (c : char) :
  (65 <= c <= 90)%N -> lower_char c <> c.
Proof.
  intros Hc. unfold lower_char.
  change lower_runs with ((65, 90, 1, 97)%N :: tl lower_runs).
  cbn [find in_run].
  rewrite (proj2 (N.leb_le 65 c)), (proj2 (N.leb_le c 90)) by lia.
  rewrite N.mod_1_r. cbn [andb N.eqb]. lia.
Qed.

Lemma clean_sigma :
  clean_char 962%N /\ clean_char 963%N /\ clean_char 105%N
  /\ clean_char 775%N.
Proof. unfold clean_char. repeat split; try reflexivity; lia. Qed.

(** What a character is lowered to, whatever surrounds it: clean code
    points, or the character itself when it is no capital A-Z. *)
Lemma lower_at_cases (before : str) (c : char) (after : str) (x : char) :
  In x (lower_at before c after) ->
  clean_char x \/ (x = c /\ ~ (65 <= c <= 90)%N).
Proof.
  unfold lower_at. destruct clean_sigma as (S1 & S2 & S3 & S4).
  destruct (c =? 931)%N.
  - destruct (final_sigma before after); intros [<-|[]]; now left.
  - destruct (c =? 304)%N.
    + intros [<-|[<-|[]]]; now left.
    + intros [<-|[]]. destruct (lower_char_cases c) as [E|G]; [right|now left].
      split; [exact E|]. intros Hup. now apply (@lower_char_upper c).
Qed.

Lemma lower_at_ends (before : str) (c : char) (after : str) :
  is_space c = false ->
  lower_at before c after <> []
  /\ head_ok (lower_at before c after)
  /\ head_ok (rev (lower_at before c after)).
Proof.
  intros Hc. unfold lower_at.
  destruct (c =? 931)%N; [destruct (final_sigma before after);
                          repeat split; discriminate|].
  destruct (c =? 304)%N; [repeat split; discriminate|].
  assert (Hl : is_space (lower_char c) = false).
  { destruct (lower_char_cases c) as [->|G]; [exact Hc|apply G]. }
  repeat split; [discriminate|exact Hl|exact Hl].
Qed.

Lemma lower_at_nonempty (before : str) (c : char) (after : str) :
  lower_at before c after <> [].
Proof.
  unfold lower_at. destruct (c =? 931)%N; [discriminate|].
  destruct (c =? 304)%N; discriminate.
Qed.

Lemma lower_from_in (s : str) :
  forall (before : str) (x : char),
    In x (lower_from before s) ->
    exists c, In c s
              /\ (clean_char x \/ (x = c /\ ~ (65 <= c <= 90)%N)).
Proof.
  induction s as [|c s IH]; intros before x; cbn [lower_from]; [intros []|].
  intros H. apply in_app_or in H as [H|H].
  - exists c. split; [now left|]. eapply lower_at_cases; eauto.
  - destruct (IH _ _ H) as (c' & Hin & Hc'). exists c'. split; [now right|].
    exact Hc'.
Qed.

Lemma lower_from_nonempty (before s : str) :
  nonempty s = true -> nonempty (lower_from before s) = true.
Proof.
  destruct s as [|c s]; [discriminate|]. intros _. cbn [lower_from].
  pose proof (lower_at_nonempty before c s) as H.
  destruct (lower_at before c s); [congruence|reflexivity].
Qed.

Lemma lower_from_head (before s : str) :
  head_ok s -> head_ok (lower_from before s).
Proof.
  destruct s as [|c s]; [trivial|]. cbn [lower_from head_ok]. intros Hc.
  destruct (@lower_at_ends before c s Hc) as (Hn & Hh & _).
  now apply head_ok_app.
Qed.

Lemma lower_from_snoc (s : str) (c : char) :
  forall before,
    exists init,
      lower_from before (s ++ [c])
      = init ++ lower_at (rev s ++ before) c [].
Proof.
  induction s as [|a s IH]; intros before.
  - exists []. cbn [app lower_from rev]. now rewrite app_nil_r.
  - destruct (IH (a :: before)) as (init & E).
    exists (lower_at before a (s ++ [c]) ++ init).
    cbn [app lower_from rev]. rewrite E, <- !app_assoc. reflexivity.
Qed.

Lemma lower_from_last (before s : str) :
  head_ok (rev s) -> head_ok (rev (lower_from before s)).
Proof.
  destruct (rev s) as [|c l] eqn:E.
  - apply (f_equal (@rev char)) in E. rewrite rev_involutive in E.
    subst s. trivial.
  - apply (f_equal (@rev char)) in E. rewrite rev_involutive in E.
    cbn [rev] in E. subst s. cbn [head_ok]. intros Hc.
    destruct (lower_from_snoc (rev l) c before) as (init & ->).
    rewrite rev_app_distr.
    destruct (@lower_at_ends (rev (rev l) ++ before) c [] Hc)
      as (Hn & _ & Hh).
    apply head_ok_app; [|exact Hh].
    intros H. apply Hn. apply (f_equal (@rev char)) in H.
    now rewrite rev_involutive in H.
Qed.

(** No piece of a split holds the separator. *)
Lemma split_on_no_sep (sep : char) (s : str) :
  Forall (fun w => ~ In sep w) (split_on sep s).
Proof.
  induction s as [|c s IH]; simpl.
  - constructor; [tauto|constructor].
  - destruct (N.eqb_spec c sep) as [->|Hc].
    + constructor; [tauto|exact IH].
    + destruct (split_on sep s) as [|w ws]; inversion IH; subst.
      * constructor; [|constructor]. simpl. intuition.
      * constructor; [|assumption]. simpl. intuition.
Qed.

Lemma split_on_piece (sep : char) (w t : str) :
  ~ In sep w -> split_on sep (w ++ sep :: t) = w :: split_on sep t.
Proof.
  induction w as [|c w IH]; intros Hn; simpl.
  - now rewrite N.eqb_refl.
  - destruct (N.eqb_spec c sep) as [->|Hc]; [exfalso; apply Hn; now left|].
    rewrite IH by (intros H; apply Hn; now right). reflexivity.
Qed.

Lemma split_on_single (sep : char) (w : str) :
  ~ In sep w -> split_on sep w = [w].
Proof.
  induction w as [|c w IH]; intros Hn; simpl; [reflexivity|].
  destruct (N.eqb_spec c sep) as [->|Hc]; [exfalso; apply Hn; now left|].
  rewrite IH by (intros H; apply Hn; now right). reflexivity.
Qed.

(** Splitting the joined pieces gives the pieces back, for any
    one-character separator. *)
Lemma split_on_join_sep (sep : char) (pieces : list str) :
  pieces <> [] ->
  Forall (fun w => ~ In sep w) pieces ->
  split_on sep (join [sep] pieces) = pieces.
Proof.
  induction pieces as [|w pieces IH]; intros Hne Hall; [congruence|].
  inversion Hall as [|? ? Hw Hrest]; subst.
  destruct pieces as [|w' pieces]; [simpl; now apply split_on_single|].
  change (join [sep] (w :: w' :: pieces))
    with (w ++ sep :: join [sep] (w' :: pieces)).
  rewrite split_on_piece by assumption.
  f_equal. apply IH; [discriminate|assumption].
Qed.

(** X1.  Every enabled channel name is non-empty, trimmed, free of
    commas and of the letters A-Z, whatever characters the setting
    holds; every recipient [send_email] uses is non-empty, trimmed and
    free of commas. *)
Theorem comma_list_normalised (os_environ env : config) (s : str) :
  Forall (fun name =>
            nonempty name = true /\ strip name = name /\ ~ In 44%N name
            /\ forallb (fun c => negb ((65 <=? c) && (c <=? 90))%N) name
               = true)
         (get_enabled_channels os_environ env)
  /\ Forall (fun r => nonempty r = true /\ strip r = r /\ ~ In 44%N r)
            (comma_list (fun e => e) s).
Proof.
  assert (Hgen : forall t,
    Forall (fun name =>
              nonempty (strip name) = true /\ ~ In 44%N name)
           (filter (fun c => nonempty (strip c)) (split_on 44%N t))).
  { intros t. apply Forall_forall. intros x Hx.
    apply filter_In in Hx as [Hin Hne]. split; [exact Hne|].
    pose proof (split_on_no_sep 44%N t) as Hs.
    rewrite Forall_forall in Hs. now apply Hs. }
  split.
  - unfold get_enabled_channels.
    destruct (negb (nonempty _)); [constructor|].
    unfold comma_list. apply Forall_map.
    eapply Forall_impl; [|apply Hgen].
    intros x [Hne Hcomma]. repeat split.
    + unfold lower. now apply lower_from_nonempty.
    + unfold lower. apply ends_strip;
        [apply lower_from_head|apply lower_from_last]; apply strip_ends.
    + intros Hin. unfold lower in Hin.
      apply lower_from_in in Hin as (c & Hc & [G|[<- _]]).
      * now destruct G as (_ & G & _).
      * apply Hcomma. now apply strip_incl.
    + unfold lower. rewrite forallb_forall. intros c Hc.
      apply lower_from_in in Hc as (c0 & _ & Hc).
      assert (Hn : ~ (65 <= c <= 90)%N).
      { destruct Hc as [G|[-> G]]; [apply G|exact G]. }
      destruct (N.leb_spec 65 c); [|reflexivity].
      destruct (N.leb_spec c 90); [|reflexivity]. exfalso. apply Hn. lia.
  - unfold comma_list. apply Forall_map.
    eapply Forall_impl; [|apply Hgen].
    intros x [Hne Hcomma]. repeat split.
    + exact Hne.
    + apply strip_idem.
    + intros Hin. apply Hcomma. now apply strip_incl.
Qed.

Lemma ascii_lower_case_from (s : str) :
  forall before, ascii_lower_case s = true -> lower_from before s = s.
Proof.
  unfold ascii_lower_case. induction s as [|c s IH]; intros before;
    [reflexivity|].
  cbn [forallb lower_from]. intros H. apply andb_prop in H as [Hc Hs].
  apply andb_prop in Hc as [Hlt Hup]. apply N.ltb_lt in Hlt.
  apply negb_true_iff in Hup.
  assert (Hn : ~ (65 <= c <= 90)%N).
  { intros [H1 H2]. apply N.leb_le in H1, H2. now rewrite H1, H2 in Hup. }
  unfold lower_at.
  rewrite (proj2 (N.eqb_neq c 931)), (proj2 (N.eqb_neq c 304)) by lia.
  rewrite (@lower_char_ascii c Hlt Hn). cbn [app]. f_equal. now apply IH.
Qed.

Lemma ascii_lower_case_fixed (s : str) :
  ascii_lower_case s = true -> lower s = s.
Proof. apply ascii_lower_case_from. Qed.

(** X2.  A list of clean names (non-empty, trimmed, of ASCII characters
    other than capital letters and the comma) written to
    [NOTIFY_CHANNELS] with commas between them is read back as it is:
    order and repetitions are kept. *)
Theorem enabled_channels_round_trip (os_environ env : config)
    (names : list str) :
  names <> [] ->
  Forall (fun name => nonempty name = true /\ strip name = name
                      /\ ascii_lower_case name = true /\ ~ In 44%N name)
         names ->
  get_config os_environ env (u "NOTIFY_CHANNELS") [] = join [44%N] names ->
  get_enabled_channels os_environ env = names.
Proof.
  intros Hne Hclean Hcfg. unfold get_enabled_channels. rewrite Hcfg.
  assert (Hjoin : nonempty (join [44%N] names) = true).
  { destruct names as [|n names]; [congruence|].
    inversion Hclean as [|? ? (Hn & _) _]; subst.
    destruct n; [discriminate|]. now destruct names. }
  rewrite Hjoin. cbn [negb]. unfold comma_list.
  rewrite split_on_join_sep;
    [|assumption|eapply Forall_impl; [|exact Hclean]; now intros ? (_&_&_&?)].
  clear Hne Hcfg Hjoin. induction Hclean as [|n names (H1 & H2 & H3 & H4) _ IH];
    [reflexivity|].
  simpl. rewrite H2, H1. simpl.
  now rewrite H2, (ascii_lower_case_fixed n H3), IH.
Qed.
(* ================================================================= *)
(** ** Escaping and bold spans *)

Lemma flat_map_flat_map (A B C : Type) (f : B -> list C) (g : A -> list B)
    (l : list A) :
  flat_map f (flat_map g l) = flat_map (fun x => flat_map f (g x)) l.
Proof.
  induction l as [|x l IH]; simpl; [reflexivity|].
  now rewrite flat_map_app, IH.
Qed.

Lemma escape_char_cases (c : char) :
  (c = 38%N /\ escape_char c = [38; 97; 109; 112; 59]%N)
  \/ (c = 60%N /\ escape_char c = [38; 108; 116; 59]%N)
  \/ (c = 62%N /\ escape_char c = [38; 103; 116; 59]%N)
  \/ (c = 34%N /\ escape_char c = [38; 113; 117; 111; 116; 59]%N)
  \/ (c <> 38%N /\ c <> 60%N /\ c <> 62%N /\ c <> 34%N
      /\ escape_char c = [c]).
Proof.
  unfold escape_char.
  destruct (N.eqb_spec c 38) as [->|H1]; [now left|].
  destruct (N.eqb_spec c 60) as [->|H2]; [now right; left|].
  destruct (N.eqb_spec c 62) as [->|H3]; [now right; right; left|].
  destruct (N.eqb_spec c 34) as [->|H4]; [now right; right; right; left|].
  now right; right; right; right.
Qed.

(** The four replacements amount to escaping each character once. *)
Lemma escape_html_chars (text : str) :
  _escape_html text = flat_map escape_char text.
Proof.
  unfold _escape_html, replace_char. rewrite !flat_map_flat_map.
  apply flat_map_ext. intros c. unfold escape_char.
  destruct (N.eqb_spec c 38) as [->|H1]; [reflexivity|].
  destruct (N.eqb_spec c 60) as [->|H2]; [reflexivity|].
  simpl. rewrite (proj2 (N.eqb_neq c 60) H2). simpl.
  destruct (N.eqb_spec c 62) as [->|H3]; [reflexivity|].
  simpl. destruct (N.eqb_spec c 34) as [->|H4]; reflexivity.
Qed.

(** X3.  Escaped text holds no [<], no [>] and no double quote. *)
Theorem escape_html_safe (text : str) :
  Forall (fun c => c <> 60%N /\ c <> 62%N /\ c <> 34%N) (_escape_html text).
Proof.
  rewrite escape_html_chars.
  induction text as [|c text IH]; simpl; [constructor|].
  apply Forall_app. split; [|exact IH].
  destruct (escape_char_cases c)
    as [[_ ->]|[[_ ->]|[[_ ->]|[[_ ->]|(_ & H2 & H3 & H4 & ->)]]]];
    repeat constructor; try discriminate; assumption.
Qed.

(** X4.  Text without any of the four special characters is left as it
    is. *)
Theorem escape_html_plain (text : str) :
  Forall (fun c => c <> 38%N /\ c <> 60%N /\ c <> 62%N /\ c <> 34%N) text ->
  _escape_html text = text.
Proof.
  rewrite escape_html_chars.
  induction 1 as [|c text (H1 & H2 & H3 & H4) _ IH]; simpl; [reflexivity|].
  rewrite IH.
  destruct (escape_char_cases c)
    as [[? _]|[[? _]|[[? _]|[[? _]|(_ & _ & _ & _ & ->)]]]];
    try contradiction; reflexivity.
Qed.

(** X5.  Escaping loses nothing: two texts with the same escaped form are
    the same text. *)
Theorem escape_html_injective (a b : str) :
  _escape_html a = _escape_html b -> a = b.
Proof.
  rewrite !escape_html_chars. revert b.
  induction a as [|x a IH]; intros [|y b]; simpl; intros H.
  - reflexivity.
  - exfalso.
    destruct (escape_char_cases y)
      as [[_ E]|[[_ E]|[[_ E]|[[_ E]|(_ & _ & _ & _ & E)]]]];
      rewrite E in H; discriminate H.
  - exfalso.
    destruct (escape_char_cases x)
      as [[_ E]|[[_ E]|[[_ E]|[[_ E]|(_ & _ & _ & _ & E)]]]];
      rewrite E in H; discriminate H.
  - destruct (escape_char_cases x)
      as [[Hx Ex]|[[Hx Ex]|[[Hx Ex]|[[Hx Ex]|(X1 & X2 & X3 & X4 & Ex)]]]];
    destruct (escape_char_cases y)
      as [[Hy Ey]|[[Hy Ey]|[[Hy Ey]|[[Hy Ey]|(Y1 & Y2 & Y3 & Y4 & Ey)]]]];
    rewrite Ex, Ey in H; simpl in H;
      first [ discriminate H
            | injection H; intros; subst;
              first [ congruence | f_equal; apply IH; assumption ] ].
Qed.

Lemma find_close_length (s c rest : str) :
  find_close s = Some (c, rest) -> length c + length rest + 2 = length s.
Proof.
  revert c rest. induction s as [|a t IH]; intros c rest; simpl;
    [discriminate|].
  destruct t as [|b r]; [discriminate|].
  destruct ((a =? 42) && (b =? 42))%N.
  - intros [= <- <-]. simpl. lia.
  - destruct (a =? newline)%N; [discriminate|].
    destruct (find_close (b :: r)) as [[c' r']|] eqn:E; [|discriminate].
    intros [= <- <-]. specialize (IH c' r' eq_refl). simpl in *. lia.
Qed.

(** More fuel than the length of the text changes nothing. *)
Lemma bold_scan_fuel (n : nat) :
  forall (m : nat) (s : str),
    length s <= n -> length s <= m -> bold_scan n s = bold_scan m s.
Proof.
  induction n as [|n IH]; intros m s Hn Hm.
  - destruct s; [|simpl in Hn; lia]. now destruct m.
  - destruct m as [|m]; [destruct s; [reflexivity|simpl in Hm; lia]|].
    destruct s as [|a t]; [reflexivity|].
    simpl in Hn, Hm.
    assert (Ht : bold_scan n t = bold_scan m t) by (apply IH; lia).
    cbn [bold_scan]. destruct t as [|b [|c0 r]]; try (now rewrite Ht).
    destruct ((a =? 42) && (b =? 42) && negb (c0 =? newline))%N;
      [|now rewrite Ht].
    destruct (find_close r) as [[c rest]|] eqn:E; [|now rewrite Ht].
    apply find_close_length in E. simpl in Hn, Hm.
    rewrite (IH m rest) by lia. reflexivity.
Qed.

Lemma bold_scan_plain (pre : str) :
  ~ In 42%N pre ->
  forall (n : nat) (s : str),
    bold_scan (length pre + n) (pre ++ s) = pre ++ bold_scan n s.
Proof.
  induction pre as [|a pre IH]; intros Hn n s; [reflexivity|].
  assert (Ha : (a =? 42)%N = false)
    by (apply N.eqb_neq; intros ->; apply Hn; now left).
  change (length (a :: pre) + n) with (S (length pre + n)).
  change ((a :: pre) ++ s) with (a :: (pre ++ s)). cbn [bold_scan].
  rewrite IH by (intros H; apply Hn; now right).
  destruct (pre ++ s) as [|b [|c0 r]]; try reflexivity.
  now rewrite Ha.
Qed.

Lemma find_close_span (c post : str) :
  ~ In 42%N c -> ~ In newline c ->
  find_close (c ++ 42%N :: 42%N :: post) = Some (c, post).
Proof.
  induction c as [|a c IH]; intros Hs Hn; [reflexivity|].
  assert (Ha : (a =? 42)%N = false)
    by (apply N.eqb_neq; intros ->; apply Hs; now left).
  assert (Hl : (a =? newline)%N = false)
    by (apply N.eqb_neq; intros ->; apply Hn; now left).
  simpl app. cbn [find_close].
  rewrite IH by (intros H; first [apply Hs; now right|apply Hn; now right]).
  destruct (c ++ 42%N :: 42%N :: post) eqn:E;
    [now destruct c|].
  now rewrite Ha, Hl.
Qed.

Lemma startswith_stars (a b : char) (r : str) :
  startswith (a :: b :: r) [42%N; 42%N] = ((a =? 42) && (b =? 42))%N.
Proof.
  cbn [startswith]. rewrite (N.eqb_sym 42 a), (N.eqb_sym 42 b).
  destruct (a =? 42)%N, (b =? 42)%N, r; reflexivity.
Qed.

(** X6.  A text in which no two stars are adjacent goes through the bold
    substitution unchanged. *)
Theorem bold_sub_no_stars (s : str) :
  contains s [42%N; 42%N] = false -> bold_sub s = s.
Proof.
  unfold bold_sub. generalize (length s) as n. intros n. revert s.
  induction n as [|n IH]; intros s H; [reflexivity|].
  destruct s as [|a t]; [reflexivity|].
  change (contains (a :: t) [42%N; 42%N])
    with (startswith (a :: t) [42%N; 42%N] || contains t [42%N; 42%N]) in H.
  apply orb_false_iff in H as [Hhead Htail].
  cbn [bold_scan]. rewrite (IH t Htail).
  destruct t as [|b [|c0 r]]; try reflexivity.
  rewrite startswith_stars in Hhead. now rewrite Hhead.
Qed.

(** X7.  A span between two pairs of stars becomes strong emphasis: after
    text without stars, a non-empty span free of stars and line feeds is
    wrapped in [<strong>], and the substitution goes on after it. *)
Theorem bold_sub_span (pre c post : str) :
  ~ In 42%N pre -> c <> [] -> ~ In 42%N c -> ~ In newline c ->
  bold_sub (pre ++ [42%N; 42%N] ++ c ++ [42%N; 42%N] ++ post)
  = pre ++ u "<strong>" ++ c ++ u "</strong>" ++ bold_sub post.
Proof.
  intros Hpre Hc Hstar Hnl. unfold bold_sub.
  destruct c as [|c0 c]; [congruence|].
  rewrite (bold_scan_fuel
             (m := length pre + S (length (c0 :: c) + 4 + length post)));
    [|reflexivity
     |repeat (rewrite length_app || cbn [length app]); unfold char; lia].
  rewrite bold_scan_plain by assumption. f_equal.
  assert (H0 : (c0 =? newline)%N = false)
    by (apply N.eqb_neq; intros ->; apply Hnl; now left).
  simpl app. cbn [bold_scan]. rewrite H0. cbn [N.eqb Pos.eqb andb negb].
  rewrite find_close_span by (intros H; first [apply Hstar; now right|apply Hnl; now right]).
  match goal with
  | |- context [bold_scan ?k post] =>
    rewrite (@bold_scan_fuel k (length post) post)
      by (unfold char; simpl; lia)
  end.
  reflexivity.
Qed.
(* ================================================================= *)
(** ** Lines and blocks of [_text_to_html] *)

(** X8.  A text without fence lines is rendered line by line: one part
    for each line, in order. *)
Theorem text_without_fences (text : str) :
  forallb not_fence (split_on newline text) = true ->
  text_parts text = map plain_line (split_on newline text)
  /\ _text_to_html text
     = join [newline] (map plain_line (split_on newline text)).
Proof.
  intros H.
  assert (Hp : text_parts text = map plain_line (split_on newline text)).
  { unfold text_parts, scan_lines.
    now rewrite (fold_html_line_plain _ [] H). }
  split; [exact Hp|]. unfold _text_to_html. now rewrite Hp.
Qed.

(** X9.  A block closed by a second fence line gives one [<pre>] part
    holding the lines between the two fences, escaped but otherwise as
    they are (no bold, no line breaks), between the parts of the lines
    before and after it; an empty block still gives its part. *)
Theorem closed_fence_block (before code after : list str)
    (opening closing : str) :
  Forall (fun l => ~ In newline l)
         (before ++ opening :: code ++ closing :: after) ->
  forallb not_fence before = true ->
  forallb not_fence code = true ->
  forallb not_fence after = true ->
  is_fence_line opening = true ->
  is_fence_line closing = true ->
  text_parts (join [newline] (before ++ opening :: code ++ closing :: after))
  = map plain_line before ++ [pre_block code] ++ map plain_line after.
Proof.
  intros Hnl Hb Hc Ha Ho Hcl. unfold text_parts.
  rewrite split_on_join by (assumption || now destruct before).
  unfold scan_lines. rewrite fold_left_app.
  rewrite (fold_html_line_plain _ [] Hb). cbn [app fold_left].
  unfold html_line at 2. rewrite Ho. cbn [in_code html_parts code_lines].
  rewrite fold_left_app. rewrite (fold_html_line_code _ _ _ Hc).
  cbn [app fold_left].
  unfold html_line at 2. rewrite Hcl. cbn [in_code html_parts code_lines].
  rewrite (fold_html_line_plain _ _ Ha).
  unfold final_parts. cbn [in_code andb html_parts].
  now rewrite <- app_assoc.
Qed.

(* ================================================================= *)
(** ** The configuration file *)

Lemma dict_get_set_same (V : Type) (d : list (str * V)) (k : str) (v : V) :
  dict_get (dict_set d k v) k = Some v.
Proof.
  induction d as [|[k' v'] d IH]; simpl.
  - now rewrite str_eqb_refl.
  - destruct (str_eqb k' k) eqn:E; simpl; now rewrite E.
Qed.

Lemma dict_get_set_other (V : Type) (d : list (str * V)) (k k' : str)
    (v : V) :
  str_eqb k k' = false -> dict_get (dict_set d k v) k' = dict_get d k'.
Proof.
  intros Hne. induction d as [|[k0 v0] d IH]; simpl.
  - now rewrite Hne.
  - destruct (str_eqb k0 k) eqn:E; simpl.
    + apply str_eqb_eq in E. subst k0. now rewrite Hne.
    + now rewrite IH.
Qed.

Lemma dict_set_NoDup (V : Type) (d : list (str * V)) (k : str) (v : V) :
  NoDup (map fst d) -> NoDup (map fst (dict_set d k v)).
Proof.
  induction d as [|[k' v'] d IH]; simpl; intros H.
  - constructor; [tauto|constructor].
  - inversion H as [|? ? Hnin Hnd]; subst.
    destruct (str_eqb k' k) eqn:E; simpl; [now constructor|].
    constructor; [|now apply IH].
    rewrite dict_set_keys. intros [Hin| ->]; [contradiction|].
    now rewrite str_eqb_refl in E.
Qed.

Lemma load_env_line_assignment (env : config) (line : str) :
  load_env_line env line
  = match assignment line with
    | Some (key, value) => dict_set env key value
    | None => env
    end.
Proof.
  unfold load_env_line, assignment.
  destruct (negb (nonempty (strip line)) || startswith (strip line) (u "#"));
    [reflexivity|].
  now destruct (partition_on 61%N (strip line)) as [[key value]|].
Qed.

Lemma find_app (A : Type) (p : A -> bool) (l1 l2 : list A) :
  find p (l1 ++ l2)
  = match find p l1 with Some x => Some x | None => find p l2 end.
Proof.
  induction l1 as [|x l1 IH]; simpl; [reflexivity|].
  now destruct (p x).
Qed.

Lemma fold_load_env_get (lines : list str) (key : str) :
  forall env : config,
    dict_get (fold_left load_env_line lines env) key
    = match last_assignment lines key with
      | Some v => Some v
      | None => dict_get env key
      end.
Proof.
  unfold last_assignment.
  induction lines as [|line lines IH]; intros env; [reflexivity|].
  cbn [fold_left]. rewrite IH. unfold filter_map. cbn [flat_map].
  fold (filter_map assignment lines). rewrite rev_app_distr, find_app.
  destruct (find _ (rev (filter_map assignment lines))) as [kv|];
    [reflexivity|].
  rewrite load_env_line_assignment.
  destruct (assignment line) as [[k v]|]; cbn [option_list rev app find];
    [|reflexivity].
  cbn [fst snd]. destruct (str_eqb k key) eqn:E.
  - apply str_eqb_eq in E. subst. apply dict_get_set_same.
  - now apply dict_get_set_other.
Qed.

(** X10.  How a setting is resolved: the process environment first, then
    the last line of the file that assigns the key (blank lines, [#]
    comments and lines without [=] assign nothing), then the default. *)
Theorem config_resolution (os_environ : config) (lines : list str)
    (key default : str) :
  get_config os_environ (load_env (Some lines)) key default
  = match dict_get os_environ key with
    | Some v => v
    | None =>
      match last_assignment lines key with
      | Some v => v
      | None => default
      end
    end.
Proof.
  unfold get_config, load_env. rewrite fold_load_env_get.
  destruct (dict_get os_environ key); [reflexivity|].
  now destruct (last_assignment lines key).
Qed.

Lemma assignment_trimmed (line key value : str) :
  assignment line = Some (key, value) ->
  strip key = key /\ strip value = value /\ ~ In 61%N key.
Proof.
  unfold assignment.
  destruct (negb (nonempty (strip line)) || startswith (strip line) (u "#"));
    [discriminate|].
  destruct (partition_on 61%N (strip line)) as [[k v]|] eqn:E;
    [|discriminate].
  intros [= <- <-]. repeat split; try apply strip_idem.
  intros Hin. apply strip_incl in Hin.
  revert k v E Hin. generalize (strip line) as s.
  induction s as [|c s IH]; intros k v E Hin; simpl in E; [discriminate|].
  destruct (N.eqb_spec c 61) as [->|Hc].
  - injection E as <- <-. destruct Hin.
  - destruct (partition_on 61%N s) as [[a b]|]; [|discriminate].
    injection E as <- <-. destruct Hin as [-> |Hin]; [congruence|].
    now apply (IH a b).
Qed.

(** X11.  The mapping [load_env] builds has each key once, and its keys
    and values are trimmed; no key holds [=]. *)
Theorem load_env_entries (file : option (list str)) :
  NoDup (map fst (load_env file))
  /\ Forall (fun kv => strip (fst kv) = fst kv /\ strip (snd kv) = snd kv
                       /\ ~ In 61%N (fst kv))
            (load_env file).
Proof.
  destruct file as [lines|]; [|split; constructor].
  unfold load_env.
  assert (Hgen : forall env : config,
    NoDup (map fst env)
    /\ Forall (fun kv => strip (fst kv) = fst kv /\ strip (snd kv) = snd kv
                         /\ ~ In 61%N (fst kv)) env ->
    NoDup (map fst (fold_left load_env_line lines env))
    /\ Forall (fun kv => strip (fst kv) = fst kv /\ strip (snd kv) = snd kv
                         /\ ~ In 61%N (fst kv))
              (fold_left load_env_line lines env)).
  { induction lines as [|line lines IH]; intros env H; [exact H|].
    cbn [fold_left]. apply IH. rewrite load_env_line_assignment.
    destruct (assignment line) as [[k v]|] eqn:E; [|exact H].
    destruct H as [Hnd Hall]. split; [now apply dict_set_NoDup|].
    apply assignment_trimmed in E.
    clear Hnd IH. induction env as [|[k' v'] env IHe]; simpl.
    - constructor; [exact E|constructor].
    - inversion Hall as [|? ? Hkv Hrest]; subst.
      destruct (str_eqb k' k) eqn:Ek.
      + constructor; [|exact Hrest]. cbn [fst snd] in *. tauto.
      + constructor; [exact Hkv|now apply IHe]. }
  apply Hgen. split; constructor.
Qed.
(* ================================================================= *)
(** ** The paths of [parse_input] and the early exits of [main] *)

Section InputFacts.
Context {RT : Runtime}.

Lemma parse_stdin_empty (w : world) :
  parse_stdin no_data w
  = (Ok (match stdin_json w with
         | Some data => (u "claude-code", VStr (u "stop"), data)
         | None => no_data
         end), w).
Proof.
  unfold parse_stdin, no_data, stdin_json, bind, read_stdin, ret, loads_or_pass.
  cbn [truthy nonempty negb andb].
  destruct (stdin_isatty w); cbn [negb andb]; [reflexivity|].
  destruct (nonempty (strip (stdin_text w))); [|reflexivity].
  now destruct (json_loads (stdin_text w)).
Qed.

Lemma parse_input_with_object (w : world) (d : list (str * value)) :
  argv_json w = Some (VDict d) ->
  parse_input w
  = (Ok (u "codex", field d (u "type") (VStr []),
         if eq_str (field d (u "type") (VStr [])) TURN_COMPLETE
         then VDict d else VNone), w).
Proof.
  unfold argv_json, parse_input, bind, read_argv, loads_or_pass.
  destruct (argv w) as [|prog [|arg1 rest]]; try discriminate.
  intros ->. cbn [lift py_get]. fold (field d (u "type") (VStr [])).
  fold TURN_COMPLETE.
  destruct (eq_str (field d (u "type") (VStr [])) TURN_COMPLETE) eqn:E;
    [|reflexivity].
  cbn [negb]. unfold parse_stdin, bind, read_stdin.
  assert (Hd : truthy (VDict d) = true).
  { destruct d; [|reflexivity]. discriminate E. }
  now rewrite Hd.
Qed.

Lemma parse_input_without_argument (w : world) :
  argv_json w = None ->
  parse_input w
  = (Ok (match stdin_json w with
         | Some data => (u "claude-code", VStr (u "stop"), data)
         | None => no_data
         end), w).
Proof.
  unfold argv_json, parse_input, bind, read_argv, loads_or_pass.
  destruct (argv w) as [|prog [|arg1 rest]];
    try (intros _; apply parse_stdin_empty).
  intros ->. apply parse_stdin_empty.
Qed.

(** X12.  A JSON object as first argument decides the outcome alone,
    standard input is not consulted: the source is [codex], the event
    type is the [type] field (empty when absent), and the payload is
    the object when the type is [agent-turn-complete], the sentinel
    otherwise (so also for the empty object). *)
Theorem parse_input_argument (w : world) (d : list (str * value)) :
  argv_json w = Some (VDict d) ->
  parse_input w
  = (Ok (u "codex", field d (u "type") (VStr []),
         if eq_str (field d (u "type") (VStr [])) TURN_COMPLETE
         then VDict d else VNone), w).
Proof. apply parse_input_with_object. Qed.

(** X13.  Without a usable argument (none, or one that is not JSON) the
    payload is what standard input holds when it is piped, not blank and
    JSON, with source [claude-code] and event [stop]; otherwise the
    result is the empty payload of source [unknown].  Malformed JSON on
    either path is swallowed. *)
Theorem parse_input_fallthrough (w : world) :
  argv_json w = None ->
  parse_input w
  = (Ok (match stdin_json w with
         | Some data => (u "claude-code", VStr (u "stop"), data)
         | None => no_data
         end), w).
Proof. apply parse_input_without_argument. Qed.

(** X14.  What [parse_input] can return.  Source [unknown] comes only
    with the empty payload; [claude-code] only with event [stop] and the
    JSON of standard input; [codex] only with a JSON object argument,
    its [type] as event, and either that object (type
    [agent-turn-complete]) or the sentinel.  The world is left as it
    was. *)
Theorem parse_input_sources (w w' : world) (source : str)
    (event_type data : value) :
  parse_input w = (Ok (source, event_type, data), w') ->
  w' = w
  /\ ((source, event_type, data) = no_data
      \/ (source = u "claude-code" /\ event_type = VStr (u "stop")
          /\ stdin_json w = Some data)
      \/ (source = u "codex"
          /\ exists d,
               argv_json w = Some (VDict d)
               /\ event_type = field d (u "type") (VStr [])
               /\ ((eq_str event_type TURN_COMPLETE = true
                    /\ data = VDict d)
                   \/ (eq_str event_type TURN_COMPLETE = false
                       /\ data = VNone)))).
Proof.
  intros H. destruct (argv_json w) as [v|] eqn:Ea.
  - destruct v as [| | | | | |d];
      try (exfalso; revert H; unfold argv_json in Ea;
           unfold parse_input, bind, read_argv, loads_or_pass;
           destruct (argv w) as [|prog [|arg1 rest]]; try discriminate;
           rewrite Ea; discriminate).
    rewrite (parse_input_with_object _ Ea) in H.
    injection H as <- <- <- <-. split; [reflexivity|].
    right. right. split; [reflexivity|]. exists d.
    split; [reflexivity|]. split; [reflexivity|].
    destruct (eq_str (field d (u "type") (VStr [])) TURN_COMPLETE); auto.
  - rewrite (parse_input_without_argument _ Ea) in H.
    destruct (stdin_json w) as [v|] eqn:Es.
    + injection H as <- <- <- <-. split; [reflexivity|]. right. left. auto.
    + injection H as H1 H2 H3 H4. split; [now symmetry|]. left.
      unfold no_data. congruence.
Qed.

Lemma filter_registered_email (channels : list str) :
  ~ In (u "email") channels ->
  filter (registered CHANNEL_HANDLERS) channels = [].
Proof.
  intros H. induction channels as [|c channels IH]; [reflexivity|].
  simpl. unfold registered at 1, CHANNEL_HANDLERS.
  cbn [dict_get]. destruct (str_eqb (u "email") c) eqn:E.
  - apply str_eqb_eq in E. exfalso. apply H. now left.
  - apply IH. intros Hin. apply H. now right.
Qed.

(** X15.  With no channel enabled [main] returns 0 having done nothing but
    print one line: no input is parsed, the clock is not read, nothing
    is sent. *)
Theorem main_disabled (w : world) :
  enabled_channels w = [] ->
  main w = (Ok 0%Z, snd (print ErrNoChannels w)).
Proof.
  unfold enabled_channels, main. intros H.
  unfold bind at 1. unfold read_env_file at 1.
  unfold bind at 1. unfold read_environ at 1. now rewrite H.
Qed.

(** X16.  With a channel enabled, a filtered event makes [main] return 0
    and leave the world untouched; an empty payload makes it return 1
    having only printed one line. *)
Theorem main_early_exit (w : world) (source : str) (event_type data : value) :
  enabled_channels w <> [] ->
  parse_input w = (Ok (source, event_type, data), w) ->
  truthy data = false ->
  main w = if is_none data then (Ok 0%Z, w)
           else (Ok 1%Z, snd (print ErrNoInput w)).
Proof.
  unfold enabled_channels, main. intros Hc Hp Ht.
  unfold bind at 1. unfold read_env_file at 1.
  unfold bind at 1. unfold read_environ at 1.
  destruct (get_enabled_channels (environ w) (load_env (env_file w)));
    [congruence|].
  cbn [nonempty negb]. unfold bind at 1. rewrite Hp.
  destruct (is_none data); [reflexivity|]. now rewrite Ht.
Qed.

(** X17.  Unless [email] is among the enabled channels, [main] tries no
    SMTP operation, however it ends. *)
Theorem main_no_email_no_network (w : world) :
  ~ In (u "email") (enabled_channels w) ->
  net_log (snd (main w)) = net_log w.
Proof.
  unfold enabled_channels, main. intros Hne.
  unfold bind at 1. unfold read_env_file at 1.
  unfold bind at 1. unfold read_environ at 1.
  destruct (get_enabled_channels (environ w) (load_env (env_file w)))
    as [|c cs] eqn:Ec; [reflexivity|].
  cbn [nonempty negb]. unfold bind at 1.
  pose proof (parse_input_world w) as Hw.
  destruct (parse_input w) as [[[[source ev] data]|e] w1]; simpl in Hw;
    subst w1; [|reflexivity].
  destruct (is_none data); [reflexivity|].
  destruct (negb (truthy data)); [reflexivity|].
  unfold bind at 1. unfold read_clock at 1.
  unfold bind at 1. unfold lift at 1. cbn [clock clock_reads].
  destruct (format_message _ _ _ _) as [[title content]|e]; [|reflexivity].
  unfold bind at 1.
  unfold send_notification, send_notification_with. cbn [environ].
  rewrite Ec. rewrite notify_channels_skip.
  rewrite filter_registered_email by exact Hne.
  cbn [notify_channels ret]. unfold bind at 1. unfold print at 1.
  unfold bind at 1.
  match goal with
  | |- context [print_results [] ?w0] =>
    change (print_results [] w0) with (@Ok unit tt, w0)
  end.
  reflexivity.
Qed.

End InputFacts.
(* ================================================================= *)
(** ** The SMTP session on the wire *)

Lemma logged_nil (w : world) : logged w [] = w.
Proof. destruct w. unfold logged. simpl. now rewrite app_nil_r. Qed.

Lemma logged_logged (w : world) (evs evs' : list net_event) :
  logged (logged w evs) evs' = logged w (evs ++ evs').
Proof. unfold logged. simpl. now rewrite app_assoc. Qed.

Lemma smtp_logged (ev : net_event) (w : world) (evs : list net_event) :
  smtp ev (logged w evs)
  = match smtp_reply w (length (net_log w) + length evs) with
    | Some e => (Raise e, logged w (evs ++ [ev]))
    | None => (Ok tt, logged w (evs ++ [ev]))
    end.
Proof.
  unfold smtp. cbn [logged net_log smtp_reply environ env_file argv
                    stdin_isatty stdin_text clock clock_reads console].
  rewrite length_app.
  change (World (environ w) (env_file w) (argv w) (stdin_isatty w)
            (stdin_text w) (clock w) (smtp_reply w) (clock_reads w)
            ((net_log w ++ evs) ++ [ev]) (console w))
    with (logged (logged w evs) [ev]).
  now rewrite logged_logged.
Qed.

Lemma run_ops_logged (ops : list net_event) :
  forall (w : world) (evs : list net_event),
    run_ops ops (logged w evs)
    = match first_failure (smtp_reply w) (length (net_log w) + length evs)
              (length ops) with
      | None => (Ok tt, logged w (evs ++ ops))
      | Some (k, e) => (Raise e, logged w (evs ++ firstn (S k) ops))
      end.
Proof.
  induction ops as [|ev ops IH]; intros w evs.
  - simpl. now rewrite app_nil_r.
  - cbn [run_ops length first_failure]. unfold bind. rewrite smtp_logged.
    destruct (smtp_reply w (length (net_log w) + length evs)) as [e|];
      [reflexivity|].
    rewrite IH. rewrite length_app. cbn [length].
    rewrite Nat.add_assoc, Nat.add_1_r.
    destruct (first_failure _ _ _) as [[k e]|]; rewrite <- app_assoc;
      reflexivity.
Qed.

Lemma smtp_session_run (use_ssl : bool) (host : str) (port : Z)
    (username password sender : str) (recipients : list str) (w : world) :
  smtp_session use_ssl host port username password sender recipients w
  = bind (run_ops (session_ops use_ssl host port username password sender
                     recipients))
         (fun _ => ret true) w.
Proof.
  unfold smtp_session, session_ops.
  destruct use_ssl; cbn [app run_ops]; unfold bind;
    repeat match goal with
           | |- context [smtp ?ev ?w0] =>
             destruct (smtp ev w0) as [[[]|?] ?]
           end; reflexivity.
Qed.

Section WireFacts.
Context {RT : Runtime}.

Lemma send_email_wire (env : config) (title content source : str)
    (data : value) (w : world) (port : Z) (page_html : str) :
  (forall key, In key required_settings ->
               get_config (environ w) env key [] <> []) ->
  py_int (get_config (environ w) env (u "SMTP_PORT") (u "465")) = Ok port ->
  mime_text content = Ok tt ->
  build_email_html (clock w (clock_reads w)) title source
    (if truthy data then data else VDict []) = Ok page_html ->
  mime_text page_html = Ok tt ->
  let ops :=
    session_ops
      (str_eqb (lower (get_config (environ w) env (u "SMTP_USE_SSL")
                         (u "true"))) (u "true"))
      (get_config (environ w) env (u "SMTP_HOST") []) port
      (get_config (environ w) env (u "SMTP_USER") [])
      (get_config (environ w) env (u "SMTP_PASSWORD") [])
      (get_config (environ w) env (u "EMAIL_FROM") [])
      (comma_list (fun e => e)
         (get_config (environ w) env (u "EMAIL_TO") [])) in
  send_email env title content source data w
  = match first_failure (smtp_reply w) (length (net_log w)) (length ops) with
    | None => (Ok true, logged (snd (read_clock w)) ops)
    | Some (k, e) =>
      (Ok false,
       snd (print (ErrEmail e)
              (logged (snd (read_clock w)) (firstn (S k) ops))))
    end.
Proof.
  intros Hreq Hport Hplain Hhtml Hpart ops.
  rewrite (@send_email_ready RT env title content source data w port
             page_html Hreq Hport Hplain Hhtml Hpart).
  unfold try_except. rewrite smtp_session_run. fold ops. unfold bind at 1.
  rewrite <- (logged_nil (snd (read_clock w))) at 1.
  rewrite run_ops_logged.
  cbn [read_clock snd net_log smtp_reply length app].
  rewrite Nat.add_0_r.
  destruct (first_failure (smtp_reply w) (length (net_log w)) (length ops))
    as [[k e]|]; reflexivity.
Qed.

(** X18.  What [send_email] does on the wire once everything before [try]
    is in order.  The operations are tried in the order connect,
    STARTTLS (only without implicit TLS), login, serialise, send, quit,
    each at most once; the first that fails ends the session, is
    printed, and makes the result [False]; when none fails the result
    is [True] and nothing is printed. *)
Theorem send_email_trace (env : config) (title content source : str)
    (data : value) (w : world) (port : Z) (page_html : str) :
  (forall key, In key required_settings ->
               get_config (environ w) env key [] <> []) ->
  py_int (get_config (environ w) env (u "SMTP_PORT") (u "465")) = Ok port ->
  mime_text content = Ok tt ->
  build_email_html (clock w (clock_reads w)) title source
    (if truthy data then data else VDict []) = Ok page_html ->
  mime_text page_html = Ok tt ->
  let ops :=
    session_ops
      (str_eqb (lower (get_config (environ w) env (u "SMTP_USE_SSL")
                         (u "true"))) (u "true"))
      (get_config (environ w) env (u "SMTP_HOST") []) port
      (get_config (environ w) env (u "SMTP_USER") [])
      (get_config (environ w) env (u "SMTP_PASSWORD") [])
      (get_config (environ w) env (u "EMAIL_FROM") [])
      (comma_list (fun e => e)
         (get_config (environ w) env (u "EMAIL_TO") [])) in
  send_email env title content source data w
  = match first_failure (smtp_reply w) (length (net_log w)) (length ops) with
    | None => (Ok true, logged (snd (read_clock w)) ops)
    | Some (k, e) =>
      (Ok false,
       snd (print (ErrEmail e)
              (logged (snd (read_clock w)) (firstn (S k) ops))))
    end.
Proof. apply send_email_wire. Qed.

Lemma notify_channel_nodup (handlers : list (str * handler)) (env : config)
    (title content source : str) (data : value)
    (results results' : list (str * bool)) (channel : str) (w w' : world) :
  notify_channel handlers env title content source data results channel w
  = (Ok results', w') ->
  NoDup (map fst results) -> NoDup (map fst results').
Proof.
  intros H Hnd. destruct (dict_get handlers channel) as [h|] eqn:Hh.
  - rewrite (@notify_channel_registered handlers env title content source
               data h results channel w Hh) in H.
    destruct (h env title content source data w) as [[ok|e] w1];
      injection H as <- <-; now apply dict_set_NoDup.
  - unfold notify_channel in H. rewrite Hh in H.
    injection H as <- <-. exact Hnd.
Qed.

Lemma notify_channels_nodup (handlers : list (str * handler)) (env : config)
    (title content source : str) (data : value) (channels : list str) :
  forall (results results' : list (str * bool)) (w w' : world),
    notify_channels handlers env title content source data channels results w
    = (Ok results', w') ->
    NoDup (map fst results) -> NoDup (map fst results').
Proof.
  induction channels as [|ch channels IH]; intros results results' w w' H Hnd.
  - injection H as <- <-. exact Hnd.
  - cbn [notify_channels] in H. unfold bind in H.
    destruct (notify_channel _ _ _ _ _ _ _ _ _) as [[r1|e] w1] eqn:E;
      [|discriminate].
    eapply IH; [exact H|]. eapply notify_channel_nodup; eauto.
Qed.

(** X19.  [send_notification] never raises and reports on one channel at
    most: its result is the single entry for [email] when [email] is
    among the enabled channels (however often it is listed), and empty,
    the world untouched, when it is not. *)
Theorem send_notification_email_only (env : config)
    (title content source : str) (data : value) (w : world) :
  exists results w',
    send_notification env title content source data w = (Ok results, w')
    /\ ((In (u "email") (get_enabled_channels (environ w) env)
         /\ exists ok, results = [(u "email", ok)])
        \/ (~ In (u "email") (get_enabled_channels (environ w) env)
            /\ results = [] /\ w' = w)).
Proof.
  unfold send_notification, send_notification_with.
  destruct (notify_channels_total CHANNEL_HANDLERS env title content source
              data (get_enabled_channels (environ w) env) [] w)
    as (r & w' & E & K).
  exists r, w'. split; [exact E|].
  assert (Hreg : forall x, registered CHANNEL_HANDLERS x = true
                           <-> x = u "email").
  { intros x. unfold registered, CHANNEL_HANDLERS. cbn [dict_get].
    destruct (str_eqb (u "email") x) eqn:Ex.
    - apply str_eqb_eq in Ex. split; [now intros _|reflexivity].
    - split; [discriminate|]. intros ->. now rewrite str_eqb_refl in Ex. }
  destruct (in_dec (list_eq_dec N.eq_dec) (u "email")
              (get_enabled_channels (environ w) env)) as [Hin|Hnin].
  - left. split; [exact Hin|].
    pose proof (@notify_channels_nodup CHANNEL_HANDLERS env title content
                  source data _ [] r w w' E (NoDup_nil _)) as Hnd.
    assert (Hkeys : forall x, In x (map fst r) <-> x = u "email").
    { intros x. rewrite K, Hreg. simpl. split.
      - now intros [[]|[_ ?]].
      - intros ->. right. auto. }
    destruct r as [|[k0 ok] r].
    + exfalso. now apply (proj2 (Hkeys (u "email")) eq_refl).
    + exists ok. assert (k0 = u "email") by (apply Hkeys; now left).
      subst k0. destruct r as [|[k1 ok1] r]; [reflexivity|].
      exfalso. assert (k1 = u "email") by (apply Hkeys; right; now left).
      subst k1. inversion Hnd as [|? ? Hn _]. apply Hn. now left.
  - right. split; [exact Hnin|].
    rewrite notify_channels_skip in E.
    rewrite filter_registered_email in E by exact Hnin.
    injection E as <- <-. auto.
Qed.

End WireFacts.
(* ================================================================= *)
(** ** What extraction yields and what can be raised, for any shape *)

Lemma for_each_invariant (A S : Type) (body : A -> S -> result S)
    (P : S -> Prop) (xs : list A) :
  (forall x s s', P s -> body x s = Ok s' -> P s') ->
  forall s s', P s -> for_each xs body s = Ok s' -> P s'.
Proof.
  intros Hbody. induction xs as [|x xs IH]; intros s s' Hs H; simpl in H.
  - now injection H as <-.
  - destruct (body x s) as [s1|e] eqn:E; [|discriminate].
    eapply IH; [|exact H]. eapply Hbody; eauto.
Qed.

Lemma for_each_raises (A S : Type) (body : A -> S -> result S)
    (P : exn -> Prop) (xs : list A) :
  (forall x s e, body x s = Raise e -> P e) ->
  forall s e, for_each xs body s = Raise e -> P e.
Proof.
  intros Hbody. induction xs as [|x xs IH]; intros s e H; simpl in H;
    [discriminate|].
  destruct (body x s) as [s1|e1] eqn:E.
  - eapply IH. exact H.
  - injection H as <-. eapply Hbody. exact E.
Qed.

Lemma Forall_snoc_if (A : Type) (P : A -> Prop) (l : list A) (x : A)
    (b : bool) :
  Forall P l -> (b = true -> P x) -> Forall P (if b then l ++ [x] else l).
Proof.
  intros Hl Hx. destruct b; [|exact Hl].
  apply Forall_app. split; [exact Hl|]. constructor; [now apply Hx|constructor].
Qed.

(** Inversion of a computation in the [result] monad. *)
Ltac result_inv H :=
  repeat match type of H with
         | rbind ?r _ = _ =>
           let E := fresh "E" in
           destruct r eqn:E; cbn [rbind] in H
         | (if ?b then _ else _) = _ =>
           let E := fresh "E" in destruct b eqn:E
         | (match ?v with VNone => _ | _ => _ end) = _ =>
           destruct v
         end.

Lemma py_get_shape (v : value) (k : str) (default : value) (e : exn) :
  py_get v k default = Raise e -> shape_error e.
Proof. destruct v; try discriminate; intros [= <-]; now left. Qed.

Lemma py_iter_shape (v : value) (e : exn) :
  py_iter v = Raise e -> shape_error e.
Proof. destruct v; try discriminate; intros [= <-]; now right. Qed.

Lemma py_strip_shape (v : value) (e : exn) :
  py_strip v = Raise e -> shape_error e.
Proof. destruct v; try discriminate; intros [= <-]; now left. Qed.

Lemma py_slice_to_shape (n : nat) (v : value) (e : exn) :
  py_slice_to n v = Raise e -> shape_error e.
Proof. destruct v; try discriminate; intros [= <-]; now right. Qed.

(** Closing a goal [shape_error e] from the step that raised. *)
Ltac shape_step :=
  match goal with
  | E : py_get _ _ _ = Raise _ |- _ => exact (py_get_shape _ _ _ E)
  | E : py_iter _ = Raise _ |- _ => exact (py_iter_shape _ E)
  | E : py_strip _ = Raise _ |- _ => exact (py_strip_shape _ E)
  | E : py_slice_to _ _ = Raise _ |- _ => exact (py_slice_to_shape _ _ E)
  end.

Section ShapeFacts.
Context {RT : Runtime}.

Lemma text_fragment_ok (c : value) (texts texts' : list str) :
  texts_ok texts -> text_fragment c texts = Ok texts' -> texts_ok texts'.
Proof.
  unfold text_fragment, texts_ok. intros Hok H.
  destruct (is_dict c); [|now injection H as <-].
  result_inv H; try discriminate; injection H as <-; try assumption.
  now apply Forall_snoc_if.
Qed.

Lemma codex_fragment_ok (c : value) (texts texts' : list str) :
  texts_ok texts -> codex_fragment c texts = Ok texts' -> texts_ok texts'.
Proof.
  unfold codex_fragment, texts_ok. intros Hok H.
  destruct (is_dict c).
  - result_inv H; try discriminate; injection H as <-; try assumption.
    now apply Forall_snoc_if.
  - destruct c; injection H as <-; try assumption.
    now apply Forall_snoc_if.
Qed.

Lemma message_texts_ok (msg : value) (texts : list str) :
  message_texts msg = Ok texts -> texts_ok texts.
Proof.
  unfold message_texts, texts_ok. intros H.
  destruct msg as [| | | |s|l|d]; try (injection H as <-; constructor).
  - injection H as <-. destruct (nonempty (strip s)) eqn:E;
      repeat constructor. exact E.
  - result_inv H; try discriminate.
    eapply (for_each_invariant text_fragment texts_ok); [|constructor|exact H].
    intros x s0 s' Hs Hx. eapply text_fragment_ok; eauto.
Qed.

Lemma joined_ok (r : role) (texts : list str) (messages : list message) :
  texts_ok texts -> messages_ok messages ->
  messages_ok (if nonempty texts
               then messages ++ [Message r (join blank_line texts)]
               else messages).
Proof.
  intros Ht Hm. apply Forall_snoc_if; [exact Hm|].
  intros Hne. cbn [msg_text]. now rewrite join_nonempty.
Qed.

Lemma transcript_item_ok (item : value) (messages messages' : list message) :
  messages_ok messages -> transcript_item item messages = Ok messages' ->
  messages_ok messages'.
Proof.
  unfold transcript_item. intros Hok H.
  result_inv H; try discriminate; injection H as <-; try assumption.
  apply joined_ok; [|exact Hok]. eapply message_texts_ok; eauto.
Qed.

Lemma append_message_ok (r : role) (x : value)
    (messages messages' : list message) :
  messages_ok messages -> append_message r x messages = Ok messages' ->
  messages_ok messages'.
Proof.
  unfold append_message. intros Hok H.
  destruct x as [| | | |s|l|d]; try (now injection H as <-).
  - injection H as <-. now apply Forall_snoc_if.
  - destruct (py_get (VDict d) (u "content") (VStr [])) as [content|e] eqn:E;
      cbn [rbind] in H; [|discriminate].
    destruct content as [| | | |s|cs|d']; try (now injection H as <-).
    + injection H as <-. now apply Forall_snoc_if.
    + destruct (for_each cs codex_fragment []) as [texts|e] eqn:Ef;
        cbn [rbind] in H; [|discriminate].
      injection H as <-. apply joined_ok; [|exact Hok].
      eapply (for_each_invariant codex_fragment texts_ok);
        [|constructor|exact Ef].
      intros c s0 s' Hs Hc. eapply codex_fragment_ok; eauto.
Qed.

Lemma json_dumps_dict_nonempty (d : list (str * value)) :
  nonempty (json_dumps (VDict d)) = true.
Proof. destruct d as [|[k v] d]; reflexivity. Qed.

Lemma extract_conversation_texts (d : list (str * value)) (source : str)
    (messages : list message) :
  extract_conversation (VDict d) source = Ok messages ->
  Forall (fun m => nonempty (msg_text m) = true) messages
  /\ (source <> u "claude-code" -> messages <> []).
Proof.
  unfold extract_conversation. intros H.
  destruct (str_eqb source (u "claude-code")) eqn:Es.
  - apply str_eqb_eq in Es. split; [|congruence].
    unfold extract_claude in H. result_inv H; try discriminate.
    eapply (for_each_invariant transcript_item messages_ok);
      [|constructor|exact H].
    intros x s0 s' Hs Hx. eapply transcript_item_ok; eauto.
  - destruct (str_eqb source (u "codex")).
    + unfold extract_codex in H.
      destruct (py_get (VDict d) (u "input-messages") (VList []))
        as [input_msgs|] eqn:E1; cbn [rbind] in H; [|discriminate].
      destruct (py_iter input_msgs) as [items|] eqn:E2; cbn [rbind] in H;
        [|discriminate].
      destruct (for_each items (append_message user) []) as [m1|] eqn:E3;
        cbn [rbind] in H; [|discriminate].
      destruct (py_get (VDict d) (u "last-assistant-message") (VStr []))
        as [last_msg|] eqn:E4; cbn [rbind] in H; [|discriminate].
      destruct (append_message assistant last_msg m1) as [m2|] eqn:E5;
        cbn [rbind] in H; [|discriminate].
      assert (H2 : messages_ok m2).
      { eapply append_message_ok; [|exact E5].
        eapply (for_each_invariant (append_message user) messages_ok);
          [|constructor|exact E3].
        intros x s0 s' Hs Hx. eapply append_message_ok; eauto. }
      destruct m2 as [|m m2]; cbn [nonempty] in H; injection H as <-.
      * split; [|discriminate]. repeat constructor.
        apply json_dumps_dict_nonempty.
      * split; [exact H2|discriminate].
    + unfold extract_raw in H. injection H as <-.
      split; [|discriminate]. repeat constructor.
      apply json_dumps_dict_nonempty.
Qed.

(** X20.  Whatever the shape of an object payload and whatever the
    source, when [extract_conversation] returns, every message it
    returns has a non-empty text; and for every source but
    [claude-code] it returns at least one message. *)
Theorem extract_texts_nonempty (d : list (str * value)) (source : str)
    (messages : list message) :
  extract_conversation (VDict d) source = Ok messages ->
  Forall (fun m => nonempty (msg_text m) = true) messages
  /\ (source <> u "claude-code" -> messages <> []).
Proof. apply extract_conversation_texts. Qed.

Lemma text_fragment_shape (c : value) (texts : list str) (e : exn) :
  text_fragment c texts = Raise e -> shape_error e.
Proof.
  unfold text_fragment. intros H.
  destruct (is_dict c); [|discriminate].
  result_inv H; try discriminate; injection H as <-; shape_step.
Qed.

Lemma message_texts_shape (msg : value) (e : exn) :
  message_texts msg = Raise e -> shape_error e.
Proof.
  unfold message_texts. intros H.
  destruct msg; try discriminate.
  result_inv H; try (injection H as <-; shape_step).
  eapply (for_each_raises text_fragment shape_error); [|exact H].
  intros ? ? ?. apply text_fragment_shape.
Qed.

(** X21.  An exception that leaves [main] was raised by [parse_input] or
    by [format_message], on a payload of the wrong shape: no failure of
    a channel, of the SMTP peer or of the configuration makes [main]
    raise.  (Reading the files and printing are taken not to fail.) *)
Theorem main_raises_from_payload (w : world) (e : exn) :
  fst (main w) = Raise e ->
  (exists w1, parse_input w = (Raise e, w1))
  \/ exists source event_type data w1,
       parse_input w = (Ok (source, event_type, data), w1)
       /\ truthy data = true
       /\ format_message (clock w1 (clock_reads w1)) source event_type
            data = Raise e.
Proof.
  rewrite main_cases. intros H.
  destruct (enabled_channels w); [discriminate|].
  destruct (parse_input w) as [[[[source ev] data]|e1] w1] eqn:Hp.
  - destruct (is_none data); [discriminate|].
    destruct (truthy data) eqn:Et; cbn [negb] in H; [|discriminate].
    destruct (format_message _ _ _ _) as [[title content]|e2] eqn:Hf.
    + destruct (send_notification_ok (load_env (env_file w)) title content
                  source data (snd (read_clock w1))) as (r & w3 & Es).
      rewrite Es in H. discriminate.
    + injection H as <-. right. exists source, ev, data, w1. auto.
  - injection H as <-. left. eauto.
Qed.

End ShapeFacts.
(* ================================================================= *)
(** ** What [send_email] can raise, and non-object input *)

Section RaiseFacts.
Context {RT : Runtime}.

Lemma codex_fragment_shape (c : value) (texts : list str) (e : exn) :
  codex_fragment c texts = Raise e -> shape_error e.
Proof.
  unfold codex_fragment. intros H. destruct (is_dict c).
  - result_inv H; try discriminate; injection H as <-; shape_step.
  - destruct c; discriminate.
Qed.

Lemma append_message_shape (r : role) (x : value) (messages : list message)
    (e : exn) :
  append_message r x messages = Raise e -> shape_error e.
Proof.
  unfold append_message. intros H.
  destruct x as [| | | |s|l|d]; try discriminate.
  destruct (py_get (VDict d) (u "content") (VStr [])) as [content|] eqn:E;
    cbn [rbind] in H; [|injection H as <-; shape_step].
  destruct content as [| | | |s|cs|d']; try discriminate.
  destruct (for_each cs codex_fragment []) as [texts|] eqn:Ef;
    cbn [rbind] in H; [discriminate|].
  injection H as <-.
  eapply (for_each_raises codex_fragment shape_error); [|exact Ef].
  intros ? ? ?. apply codex_fragment_shape.
Qed.

Lemma transcript_item_shape (item : value) (messages : list message)
    (e : exn) :
  transcript_item item messages = Raise e -> shape_error e.
Proof.
  unfold transcript_item. intros H.
  destruct (py_get item (u "type") (VStr [])) as [ty|] eqn:E1;
    cbn [rbind] in H; [|injection H as <-; shape_step].
  destruct (negb _); [discriminate|].
  destruct (py_get item (u "message") (VDict [])) as [msg|] eqn:E2;
    cbn [rbind] in H; [|injection H as <-; shape_step].
  destruct (message_texts msg) as [texts|] eqn:E3; cbn [rbind] in H;
    [discriminate|].
  injection H as <-. eapply message_texts_shape; eauto.
Qed.

Lemma extract_conversation_shape (data : value) (source : str) (e : exn) :
  extract_conversation data source = Raise e -> shape_error e.
Proof.
  unfold extract_conversation. intros H.
  destruct (str_eqb source (u "claude-code")).
  - unfold extract_claude in H.
    destruct (py_get data (u "transcript") (VList [])) as [tr|] eqn:E1;
      cbn [rbind] in H; [|injection H as <-; shape_step].
    destruct (py_iter tr) as [items|] eqn:E2;
      cbn [rbind] in H; [|injection H as <-; shape_step].
    eapply (for_each_raises transcript_item shape_error); [|exact H].
    intros ? ? ?. apply transcript_item_shape.
  - destruct (str_eqb source (u "codex")); [|discriminate].
    unfold extract_codex in H.
    destruct (py_get data (u "input-messages") (VList [])) as [im|] eqn:E1;
      cbn [rbind] in H; [|injection H as <-; shape_step].
    destruct (py_iter im) as [items|] eqn:E2;
      cbn [rbind] in H; [|injection H as <-; shape_step].
    destruct (for_each items (append_message user) []) as [m1|] eqn:E3;
      cbn [rbind] in H.
    + destruct (py_get data (u "last-assistant-message") (VStr []))
        as [lm|] eqn:E4; cbn [rbind] in H; [|injection H as <-; shape_step].
      destruct (append_message assistant lm m1) as [m2|] eqn:E5;
        cbn [rbind] in H.
      * destruct (nonempty m2); discriminate.
      * injection H as <-. eapply append_message_shape; eauto.
    + injection H as <-.
      eapply (for_each_raises (append_message user) shape_error);
        [|exact E3].
      intros ? ? ?. apply append_message_shape.
Qed.

Lemma build_email_html_shape (now title source : str) (data : value)
    (e : exn) :
  build_email_html now title source data = Raise e -> shape_error e.
Proof.
  unfold build_email_html, page_conversation. intros H.
  destruct (is_dict data).
  - destruct (extract_conversation data source) as [conv|] eqn:E;
      cbn [rbind] in H; [discriminate|].
    injection H as <-. eapply extract_conversation_shape; eauto.
  - discriminate.
Qed.

Lemma py_int_value_error (s : str) (e : exn) :
  py_int s = Raise e -> e = ValueError.
Proof.
  unfold py_int.
  destruct (match int_strip s with
            | [] => (false, int_strip s)
            | c :: r =>
              if (c =? 45)%N then (true, r)
              else if (c =? 43)%N then (false, r) else (false, int_strip s)
            end) as [negative body].
  destruct (digits_val 0 0 false body); [discriminate|]. now intros [= <-].
Qed.

Lemma mime_text_error (text : str) (e : exn) :
  mime_text text = Raise e -> e = UnicodeEncodeError.
Proof.
  unfold mime_text. destruct (existsb is_surrogate text); [|discriminate].
  now intros [= <-].
Qed.

(** X22.  When [send_email] raises, the exception is that of a step
    before its [try]: [ValueError] from the conversion of the port,
    [UnicodeEncodeError] from one of the two MIME parts, or
    [AttributeError] or [TypeError] from building the page.  No SMTP
    operation was tried and nothing was printed: an exception of an
    SMTP operation never leaves [send_email]. *)
Theorem send_email_raises (env : config) (title content source : str)
    (data : value) (w : world) (e : exn) :
  fst (send_email env title content source data w) = Raise e ->
  net_log (snd (send_email env title content source data w)) = net_log w
  /\ console (snd (send_email env title content source data w)) = console w
  /\ ((py_int (get_config (environ w) env (u "SMTP_PORT") (u "465"))
        = Raise e /\ e = ValueError)
      \/ (mime_text content = Raise e /\ e = UnicodeEncodeError)
      \/ (build_email_html (clock w (clock_reads w)) title source
            (if truthy data then data else VDict []) = Raise e
          /\ shape_error e)
      \/ (exists page_html,
            build_email_html (clock w (clock_reads w)) title source
              (if truthy data then data else VDict []) = Ok page_html
            /\ mime_text page_html = Raise e /\ e = UnicodeEncodeError)).
Proof.
  destruct (send_email env title content source data w) as [r w'] eqn:E.
  cbn [fst snd]. intros ->. revert E. unfold send_email.
  destruct (negb (forallb (@nonempty char) _)); [discriminate|].
  unfold bind at 1. unfold lift at 1.
  destruct (py_int _) as [port|e1] eqn:Ep.
  2:{ intros [= <- <-]. repeat split. left.
      split; [reflexivity|]. eapply py_int_value_error; eauto. }
  unfold bind at 1. unfold lift at 1.
  destruct (mime_text content) as [[]|e1] eqn:Em.
  2:{ intros [= <- <-]. repeat split. right. left.
      split; [reflexivity|]. eapply mime_text_error; eauto. }
  unfold bind at 1. unfold read_clock at 1. cbn [clock clock_reads].
  unfold bind at 1. unfold lift at 1.
  destruct (build_email_html _ _ _ _) as [page_html|e1] eqn:Eb.
  2:{ intros [= <- <-]. repeat split. right. right. left.
      split; [reflexivity|]. eapply build_email_html_shape; eauto. }
  unfold bind at 1. unfold lift at 1.
  destruct (mime_text page_html) as [[]|e1] eqn:Em2.
  2:{ intros [= <- <-]. repeat split. right. right. right.
      exists page_html. split; [reflexivity|]. split; [exact Em2|].
      eapply mime_text_error; eauto. }
  unfold try_except.
  match goal with
  | |- context [smtp_session ?a1 ?a2 ?a3 ?a4 ?a5 ?a6 ?a7 ?w0] =>
    destruct (smtp_session_outcome a1 a2 a3 a4 a5 a6 a7 w0)
      as [w0' [H|[err H]]]; rewrite H
  end; discriminate.
Qed.

(** X23.  JSON on standard input that is not an object (and no usable
    argument, a channel being enabled): [null] is taken for the
    sentinel and [main] returns 0; another empty or zero value ([0],
    [false], the empty string or list) counts as no input and [main]
    returns 1; any other value makes [main] raise [AttributeError]. *)
Theorem main_stdin_non_object (w : world) (v : value) :
  enabled_channels w <> [] ->
  argv_json w = None ->
  stdin_json w = Some v ->
  is_dict v = false ->
  fst (main w)
  = if is_none v then Ok 0%Z
    else if truthy v then Raise AttributeError else Ok 1%Z.
Proof.
  intros Hc Ha Hs Hd. rewrite main_cases.
  destruct (enabled_channels w); [congruence|].
  rewrite (parse_input_without_argument _ Ha), Hs.
  destruct (is_none v); [reflexivity|].
  destruct (truthy v); [|reflexivity]. cbn [negb].
  destruct v; try discriminate; reflexivity.
Qed.

End RaiseFacts.
(* ================================================================= *)
(** ** A whole run with the email channel *)

Lemma print_results_world (results : list (str * bool)) (w : world) :
  print_results results w
  = (Ok tt,
     World (environ w) (env_file w) (argv w) (stdin_isatty w) (stdin_text w)
           (clock w) (smtp_reply w) (clock_reads w) (net_log w)
           (console w
            ++ map (fun kv => OutChannel (snd kv) (fst kv)) results)).
Proof.
  revert w. induction results as [|[c b] results IH]; intros w.
  - cbn [print_results ret map]. rewrite app_nil_r. now destruct w.
  - cbn [print_results]. unfold bind, print. rewrite IH.
    cbn [environ env_file argv stdin_isatty stdin_text clock smtp_reply
         clock_reads net_log console map fst snd].
    now rewrite <- app_assoc.
Qed.

Lemma dict_set_all_false (d : list (str * bool)) (k : str) :
  Forall (fun kv => snd kv = false) d ->
  Forall (fun kv => snd kv = false) (dict_set d k false).
Proof.
  induction 1 as [|[k' v'] d Hkv Hd IH]; simpl.
  - repeat constructor.
  - destruct (str_eqb k' k); constructor; auto.
Qed.

Section RunFacts.
Context {RT : Runtime}.

(** [main] once the payload is parsed and formatted. *)
Lemma main_dispatch (w w3 : world) (source title content : str)
    (event_type data : value) (results : list (str * bool)) :
  enabled_channels w <> [] ->
  parse_input w = (Ok (source, event_type, data), w) ->
  truthy data = true ->
  format_message (clock w (clock_reads w)) source event_type data
  = Ok (title, content) ->
  send_notification (load_env (env_file w)) title content source data
    (snd (read_clock w)) = (Ok results, w3) ->
  main w
  = (Ok (if (0 <? success_count results)%nat then 0%Z else 1%Z),
     snd (print_results results
            (snd (print (OutSummary (success_count results)
                           (length results)) w3)))).
Proof.
  unfold enabled_channels, main. intros Hc Hp Ht Hf Hs.
  unfold bind at 1. unfold read_env_file at 1.
  unfold bind at 1. unfold read_environ at 1.
  destruct (get_enabled_channels (environ w) (load_env (env_file w)));
    [congruence|].
  cbn [nonempty negb]. unfold bind at 1. rewrite Hp.
  assert (Hn : is_none data = false) by (now destruct data).
  rewrite Hn, Ht. cbn [negb].
  unfold bind at 1. unfold read_clock at 1.
  unfold bind at 1. unfold lift at 1. cbn [clock clock_reads]. rewrite Hf.
  unfold bind at 1.
  change (World (environ w) (env_file w) (argv w) (stdin_isatty w)
            (stdin_text w) (clock w) (smtp_reply w) (S (clock_reads w))
            (net_log w) (console w)) with (snd (read_clock w)).
  rewrite Hs.
  unfold bind at 1. unfold print at 1. unfold bind at 1.
  rewrite !print_results_world. reflexivity.
Qed.

Lemma send_email_off (env : config) (title content source : str)
    (data : value) (w : world) (key : str) :
  In key required_settings ->
  get_config (environ w) env key [] = [] ->
  send_email env title content source data w = (Ok false, w).
Proof.
  intros Hkey Hempty. unfold send_email. simpl in Hkey.
  destruct Hkey as [<-|[<-|[<-|[<-|[<-|[]]]]]]; rewrite Hempty; simpl;
    rewrite ?andb_false_r; reflexivity.
Qed.

Lemma notify_channels_off (env : config) (title content source : str)
    (data : value) (w : world) (channels : list str) :
  send_email env title content source data w = (Ok false, w) ->
  forall results,
    Forall (fun kv => snd kv = false) results ->
    exists results',
      notify_channels CHANNEL_HANDLERS env title content source data
        channels results w = (Ok results', w)
      /\ Forall (fun kv => snd kv = false) results'.
Proof.
  intros Hoff. induction channels as [|ch channels IH]; intros results Hr.
  - exists results. now split.
  - cbn [notify_channels]. unfold bind.
    destruct (dict_get CHANNEL_HANDLERS ch) as [h|] eqn:Hh.
    + rewrite (@notify_channel_registered CHANNEL_HANDLERS env title content
                 source data h results ch w Hh).
      assert (h = send_email).
      { unfold CHANNEL_HANDLERS in Hh. cbn [dict_get] in Hh.
        destruct (str_eqb (u "email") ch); now inversion Hh. }
      subst h. rewrite Hoff. apply IH. now apply dict_set_all_false.
    + rewrite notify_channel_unregistered
        by (unfold registered; now rewrite Hh).
      now apply IH.
Qed.

(** X24.  Email enabled but not configured: when one of the five required
    settings resolves to the empty string, a run with a usable payload
    ends with exit status 1, and no SMTP operation is tried. *)
Theorem main_unconfigured (w : world) (key source title content : str)
    (event_type data : value) :
  enabled_channels w <> [] ->
  In key required_settings ->
  get_config (environ w) (load_env (env_file w)) key [] = [] ->
  parse_input w = (Ok (source, event_type, data), w) ->
  truthy data = true ->
  format_message (clock w (clock_reads w)) source event_type data
  = Ok (title, content) ->
  fst (main w) = Ok 1%Z /\ net_log (snd (main w)) = net_log w.
Proof.
  intros Hc Hkey Hempty Hp Ht Hf.
  assert (Hoff :
    send_email (load_env (env_file w)) title content source data
      (snd (read_clock w)) = (Ok false, snd (read_clock w)))
    by (eapply send_email_off; eauto).
  destruct (@notify_channels_off (load_env (env_file w)) title content
              source data (snd (read_clock w))
              (get_enabled_channels (environ w) (load_env (env_file w)))
              Hoff [] (Forall_nil _)) as (results & Hs & Hfalse).
  rewrite (@main_dispatch w (snd (read_clock w)) source title content
             event_type data results Hc Hp Ht Hf Hs).
  assert (Hz : (0 <? success_count results)%nat = false).
  { apply success_count_zero. intros c ok Hin.
    rewrite Forall_forall in Hfalse. exact (Hfalse _ Hin). }
  rewrite Hz. split; [reflexivity|].
  rewrite print_results_world. reflexivity.
Qed.

(** X25.  A whole run with [email] as the one enabled channel, a usable
    payload and a complete configuration.  The exit status is 0 when no
    SMTP operation fails and 1 otherwise; the operations tried are those
    of the session up to the first failure; the lines printed are the
    error (if any), the summary and the line of the channel. *)
Theorem main_delivery (w : world) (source title content : str)
    (event_type data : value) (port : Z) (page_html : str) :
  enabled_channels w = [u "email"] ->
  parse_input w = (Ok (source, event_type, data), w) ->
  truthy data = true ->
  format_message (clock w (clock_reads w)) source event_type data
  = Ok (title, content) ->
  (forall key, In key required_settings ->
     get_config (environ w) (load_env (env_file w)) key [] <> []) ->
  py_int (get_config (environ w) (load_env (env_file w))
            (u "SMTP_PORT") (u "465")) = Ok port ->
  mime_text content = Ok tt ->
  build_email_html (clock w (S (clock_reads w))) title source data
  = Ok page_html ->
  mime_text page_html = Ok tt ->
  let env := load_env (env_file w) in
  let ops :=
    session_ops
      (str_eqb (lower (get_config (environ w) env (u "SMTP_USE_SSL")
                         (u "true"))) (u "true"))
      (get_config (environ w) env (u "SMTP_HOST") []) port
      (get_config (environ w) env (u "SMTP_USER") [])
      (get_config (environ w) env (u "SMTP_PASSWORD") [])
      (get_config (environ w) env (u "EMAIL_FROM") [])
      (comma_list (fun e => e)
         (get_config (environ w) env (u "EMAIL_TO") [])) in
  match first_failure (smtp_reply w) (length (net_log w)) (length ops) with
  | None =>
    fst (main w) = Ok 0%Z
    /\ net_log (snd (main w)) = net_log w ++ ops
    /\ console (snd (main w))
       = console w ++ [OutSummary 1 1; OutChannel true (u "email")]
  | Some (k, e) =>
    fst (main w) = Ok 1%Z
    /\ net_log (snd (main w)) = net_log w ++ firstn (S k) ops
    /\ console (snd (main w))
       = console w
         ++ [ErrEmail e; OutSummary 0 1; OutChannel false (u "email")]
  end.
Proof.
  intros Hc Hp Ht Hf Hreq Hport Hplain Hpage Hpart env ops.
  assert (Hne : enabled_channels w <> []) by (rewrite Hc; discriminate).
  pose proof (@send_email_wire RT env title content source data
                (snd (read_clock w)) port page_html) as Hwire.
  cbn [read_clock snd environ clock clock_reads smtp_reply net_log]
    in Hwire.
  rewrite Ht in Hwire. specialize (Hwire Hreq Hport Hplain Hpage Hpart).
  cbv zeta in Hwire. fold env in Hwire. fold ops in Hwire.
  assert (Hs : forall ok w3,
    send_email env title content source data (snd (read_clock w))
    = (Ok ok, w3) ->
    send_notification env title content source data (snd (read_clock w))
    = (Ok [(u "email", ok)], w3)).
  { intros ok w3 E. unfold send_notification, send_notification_with.
    change (get_enabled_channels (environ (snd (read_clock w))) env)
      with (enabled_channels w).
    rewrite Hc. cbn [notify_channels]. unfold bind.
    rewrite (@notify_channel_registered CHANNEL_HANDLERS env title content
               source data send_email [] (u "email") (snd (read_clock w))
               eq_refl).
    rewrite E. reflexivity. }
  destruct (first_failure (smtp_reply w) (length (net_log w)) (length ops))
    as [[k e]|].
  - rewrite (@main_dispatch w _ source title content event_type data _
               Hne Hp Ht Hf (Hs _ _ Hwire)).
    rewrite print_results_world. clearbody ops env.
    repeat split; simpl; rewrite <- ?app_assoc; reflexivity.
  - rewrite (@main_dispatch w _ source title content event_type data _
               Hne Hp Ht Hf (Hs _ _ Hwire)).
    rewrite print_results_world. clearbody ops env.
    repeat split; simpl; rewrite <- ?app_assoc; reflexivity.
Qed.

End RunFacts.
(* ================================================================= *)
(** ** The page of an object payload, and a codex turn from end to end *)

Section PageFacts.
Context {RT : Runtime}.

(** X26.  For every source but [claude-code] the page of an object
    payload shows one card for each extracted message, and there is at
    least one: the block of raw JSON that [build_email_html] falls back
    to is never shown for such a source. *)
Theorem page_shows_messages (now title source : str)
    (d : list (str * value)) (page_html : str) :
  source <> u "claude-code" ->
  build_email_html now title source (VDict d) = Ok page_html ->
  exists messages,
    extract_conversation (VDict d) source = Ok messages
    /\ messages <> []
    /\ page_html
       = page (choose_palette title source) title
           (concat (map meta_row (meta_rows now (VDict d))))
           (concat (map message_card messages)) now.
Proof.
  intros Hs H. unfold build_email_html, page_conversation in H.
  cbn [is_dict] in H.
  destruct (extract_conversation (VDict d) source) as [messages|e] eqn:E;
    cbn [rbind] in H; [|discriminate].
  exists messages.
  destruct (extract_conversation_texts _ _ E) as [_ Hne].
  specialize (Hne Hs).
  split; [reflexivity|]. split; [exact Hne|].
  rewrite cards_nonempty in H.
  destruct messages as [|m messages]; [congruence|].
  cbn [nonempty] in H. now injection H as <-.
Qed.

(** X27.  A completed codex turn given as the argument, with a channel
    enabled.  [main] raises [TypeError] when [input-messages] cannot be
    iterated (it is [null], a number or a boolean); otherwise it ends
    with status 0 or 1: no other field of the object, whatever its
    type, makes the run raise. *)
Theorem main_codex_turn (w : world) (d : list (str * value)) :
  enabled_channels w <> [] ->
  argv_json w = Some (VDict d) ->
  eq_str (field d (u "type") (VStr [])) TURN_COMPLETE = true ->
  match py_iter (field d (u "input-messages") (VList [])) with
  | Ok _ => fst (main w) = Ok 0%Z \/ fst (main w) = Ok 1%Z
  | Raise _ => fst (main w) = Raise TypeError
  end.
Proof.
  intros Hne Ha Et. rewrite main_cases.
  destruct (enabled_channels w) as [|c cs]; [congruence|].
  rewrite (parse_input_with_object w Ha), Et.
  assert (Hd : truthy (VDict d) = true).
  { destruct d; [discriminate Et|reflexivity]. }
  rewrite Hd. cbn [is_none negb].
  change (format_message (clock w (clock_reads w)) (u "codex")
            (field d (u "type") (VStr [])) (VDict d))
    with (format_codex (clock w (clock_reads w))
            (field d (u "type") (VStr [])) (VDict d)).
  unfold format_codex. rewrite !py_get_dict. cbn [rbind].
  destruct (py_iter (field d (u "input-messages") (VList [])))
    as [entries|e] eqn:Ei; cbn [rbind].
  - rewrite (for_each_collect user_text_item
               (fun x => option_list (Spec.plain_text x)) entries)
      by (intros x _ acc; apply user_text_item_spec).
    cbn [rbind]. rewrite codex_ai_msg_spec. cbn [rbind].
    match goal with
    | |- context [send_notification ?env ?t ?c ?s ?x ?w0] =>
      destruct (send_notification_ok env t c s x w0) as (results & w3 & Es);
      rewrite Es
    end.
    destruct (0 <? success_count results)%nat; auto.
  - destruct (field d (u "input-messages") (VList []));
      try discriminate Ei; now injection Ei as <-.
Qed.

End PageFacts.
(* ================================================================= *)
(** ** The theorems at concrete inputs *)

(** Without [last-assistant-message] the extractor returns the user
    message alone: no assistant message follows it. *)
Lemma extract_codex_without_reply :
  @extract_conversation sample_runtime (VDict codex_no_reply) (u "codex")
  = Ok [Message user (u "hi")].
Proof. vm_compute. reflexivity. Qed.

Lemma extract_codex_order_witness :
  @extract_conversation sample_runtime (VDict codex_turn) (u "codex")
  = Ok [Message user (u "fix bug"); Message assistant (u "done")].
Proof.
  exact (@extract_codex_order sample_runtime codex_turn
           [VStr (u "fix bug")] eq_refl eq_refl eq_refl).
Defined.

Lemma extract_claude_subset_witness :
  @extract_conversation sample_runtime (VDict claude_session)
    (u "claude-code")
  = Ok [Message user (u "hi"); Message assistant (u "hello")].
Proof.
  exact (@extract_claude_subset sample_runtime claude_session _
           eq_refl eq_refl).
Defined.

(** The codex summary shows both instructions, not only the last. *)
Lemma format_codex_shows_all_inputs :
  @format_message sample_runtime (sample_clock 0) (u "codex")
    (VStr (u "agent-turn-complete")) (VDict codex_two_inputs)
  = Ok (u "Codex 任务完成",
        codex_content (sample_clock 0) (u "N/A") (u "agent-turn-complete")
          (u "first" ++ [newline] ++ u "second") (u "done")).
Proof. vm_compute. reflexivity. Qed.

Lemma format_message_turns_witness :
  @format_message sample_runtime (sample_clock 0) (u "claude-code")
    (VStr (u "stop")) (VDict claude_session)
  = Ok (u "Claude Code 任务完成",
        claude_content (sample_clock 0) (u "/tmp") (u "N/A")
          (u "hi") (u "hello")).
Proof.
  exact (proj1 (@format_message_turns sample_runtime (sample_clock 0)
                  (VStr (u "stop")) claude_session _ [] (VStr (u "N/A"))
                  eq_refl eq_refl eq_refl eq_refl)).
Defined.

(** With [SMTP_PORT=abc] the conversion to an integer raises, and the
    exception leaves [send_email]. *)
Lemma send_email_bad_port_raises :
  @send_email sample_runtime [(u "SMTP_PORT", u "abc")] (u "title")
    (u "content") (u "codex") (VDict codex_turn)
    (sample_world mail_settings [] [] all_fine)
  = (Raise ValueError, sample_world mail_settings [] [] all_fine).
Proof. vm_compute. reflexivity. Qed.

Lemma mail_settings_present (replies : nat -> option exn) (key : str) :
  In key required_settings ->
  get_config (environ (sample_world mail_settings [] [] replies)) [] key []
  <> [].
Proof.
  intros [<-|[<-|[<-|[<-|[<-|[]]]]]]; vm_compute; discriminate.
Defined.

Lemma send_email_session_caught_witness :
  fst (@send_email sample_runtime [] (u "title") (u "content") (u "codex")
         (VDict codex_turn) (sample_world mail_settings [] [] unreachable))
  = Ok false.
Proof.
  destruct (@send_email_session_caught sample_runtime [] (u "title")
              (u "content") (u "codex") (VDict codex_turn)
              (sample_world mail_settings [] [] unreachable) 465
              (match @build_email_html sample_runtime (sample_clock 0)
                       (u "title") (u "codex") (VDict codex_turn) with
               | Ok page_html => page_html
               | Raise _ => []
               end)
              (mail_settings_present unreachable)
              ltac:(vm_compute; reflexivity) ltac:(vm_compute; reflexivity)
              ltac:(vm_compute; reflexivity) ltac:(vm_compute; reflexivity))
    as [(w' & Hs & Hr)|(e & w' & Hs & Hr)].
  - vm_compute in Hs. discriminate Hs.
  - rewrite Hr. reflexivity.
Defined.

(** A lone fence, with nothing after it, yields no block at all; the
    same fence closed at once yields an empty block. *)
Lemma lone_fence_no_block :
  text_parts fence = [] /\ _text_to_html fence = []
  /\ text_parts (fence ++ [newline] ++ fence) = [pre_block []].
Proof. vm_compute. repeat split; reflexivity. Qed.

Lemma unclosed_fence_block_witness :
  _text_to_html
    (join [newline] ([u "intro"] ++ u "```python" :: [u "x = 1"; u "y = 2"]))
  = join [newline] [u "intro<br>"; pre_block [u "x = 1"; u "y = 2"]].
Proof.
  refine (proj1 (proj2 (@unclosed_fence_block [u "intro"]
                          [u "x = 1"; u "y = 2"] (u "```python")
                          _ eq_refl eq_refl eq_refl _))).
  - repeat constructor; intros H; vm_compute in H; intuition discriminate.
  - discriminate.
Defined.

Lemma send_email_unconfigured_witness :
  @send_email sample_runtime [] (u "title") (u "content") (u "codex")
    (VDict codex_turn) (sample_world [] [] [] all_fine)
  = (Ok false, sample_world [] [] [] all_fine).
Proof.
  exact (@send_email_unconfigured sample_runtime [] (u "title") (u "content")
           (u "codex") (VDict codex_turn) (sample_world [] [] [] all_fine)
           (u "SMTP_HOST") (or_introl eq_refl) eq_refl).
Defined.

Lemma parse_input_non_object_witness :
  @parse_input sample_runtime
    (sample_world mail_settings [u "notify.py"; u "[1, 2]"] [] all_fine)
  = (Raise AttributeError,
     sample_world mail_settings [u "notify.py"; u "[1, 2]"] [] all_fine).
Proof.
  exact (@parse_input_non_object sample_runtime
           (sample_world mail_settings [u "notify.py"; u "[1, 2]"] []
              all_fine)
           (u "notify.py") (u "[1, 2]") [] (VList [VInt 1; VInt 2])
           eq_refl eq_refl eq_refl).
Defined.

(* ================================================================= *)
(** ** The scenarios of the specification, run *)

Example reads_codex_turn :
  sample_loads
    (json_text "{`type`:`agent-turn-complete`,`input-messages`:[`fix bug`],`last-assistant-message`:`done`}")
  = Some (VDict codex_turn).
Proof. vm_compute. reflexivity. Qed.

(** Scenario B: another event type is filtered out, exit status 0. *)
Example scenario_filtered :
  fst (@main sample_runtime
         (sample_world mail_settings
            [u "notify.py"; json_text "{`type`:`turn-started`}"] []
            all_fine))
  = Ok 0%Z.
Proof. vm_compute. reflexivity. Qed.

(** Scenario D: the host cannot be reached, exit status 1 and one line
    for the channel. *)
Example scenario_unreachable :
  let r := @main sample_runtime
             (sample_world mail_settings
                [u "notify.py";
                 json_text "{`type`:`agent-turn-complete`,`input-messages`:[`fix bug`],`last-assistant-message`:`done`}"]
                [] unreachable) in
  fst r = Ok 1%Z
  /\ console (snd r)
     = [ErrEmail OSError; OutSummary 0 1; OutChannel false (u "email")]
  /\ net_log (snd r) = [Connect true (u "smtp.example.org") 465].
Proof. vm_compute. repeat split; reflexivity. Qed.

(** The same turn with a peer that answers: exit status 0. *)
Example scenario_delivered :
  let r := @main sample_runtime
             (sample_world mail_settings
                [u "notify.py";
                 json_text "{`type`:`agent-turn-complete`,`input-messages`:[`fix bug`],`last-assistant-message`:`done`}"]
                [] all_fine) in
  fst r = Ok 0%Z
  /\ net_log (snd r)
     = [Connect true (u "smtp.example.org") 465;
        Login (u "bot") (u "secret");
        Serialize;
        SendMail (u "bot@example.org")
          [u "dev@example.org"; u "ops@example.org"];
        Quit].
Proof. vm_compute. repeat split; reflexivity. Qed.

(** Scenario C: a transcript piped to standard input. *)
Example scenario_piped :
  let w := sample_world mail_settings [u "notify.py"]
             (json_text "{`transcript`:[{`type`:`human`,`message`:`hi`},{`type`:`assistant`,`message`:`hello`}],`cwd`:`/tmp`}")
             all_fine in
  match fst (@parse_input sample_runtime w) with
  | Ok (source, event_type, data) =>
    source = u "claude-code" /\ event_type = VStr (u "stop")
    /\ @format_message sample_runtime (sample_clock 0) source event_type data
       = Ok (u "Claude Code 任务完成",
             claude_content (sample_clock 0) (u "/tmp") (u "N/A") (u "hi")
               (u "hello"))
  | Raise _ => False
  end.
Proof. vm_compute. repeat split; reflexivity. Qed.

(** No channel enabled: exit status 0 before any input is read. *)
Example scenario_disabled :
  let r := @main sample_runtime
             (sample_world [] [u "notify.py"; u "[1, 2]"] [] all_fine) in
  fst r = Ok 0%Z /\ console (snd r) = [ErrNoChannels].
Proof. vm_compute. repeat split; reflexivity. Qed.

Example bold_runs :
  bold_sub (u "a **b** c ***d** **")
  = u "a <strong>b</strong> c <strong>*d</strong> **".
Proof. vm_compute. reflexivity. Qed.

(* ================================================================= *)
(** ** The further properties at concrete inputs *)

(** The turn of [codex_turn] as the argument of the command line. *)
Definition codex_turn_json : str :=
  json_text "{`type`:`agent-turn-complete`,`input-messages`:[`fix bug`],`last-assistant-message`:`done`}".

(** The session of a transcript piped to standard input. *)
Definition piped_session_json : str :=
  json_text "{`transcript`:[{`type`:`human`,`message`:`hi`},{`type`:`assistant`,`message`:`hello`}],`cwd`:`/tmp`}".

Definition piped_session : list (str * value) :=
  [(u "transcript",
    VList [VDict [(u "type", VStr (u "human")); (u "message", VStr (u "hi"))];
           VDict [(u "type", VStr (u "assistant"));
                  (u "message", VStr (u "hello"))]]);
   (u "cwd", VStr (u "/tmp"))].

(** The settings of [mail_settings], with [email] as the one channel. *)
Definition email_only_settings : config :=
  [(u "NOTIFY_CHANNELS", u "email");
   (u "SMTP_HOST", u "smtp.example.org");
   (u "SMTP_USER", u "bot");
   (u "SMTP_PASSWORD", u "secret");
   (u "EMAIL_FROM", u "bot@example.org");
   (u "EMAIL_TO", u "dev@example.org, ops@example.org")].

Definition codex_run (vars : config) (replies : nat -> option exn) : world :=
  sample_world vars [u "notify.py"; codex_turn_json] [] replies.

Definition piped_run (piped : str) : world :=
  sample_world mail_settings [u "notify.py"] piped all_fine.

(** The title and the summary [format_message] gives for [codex_turn]. *)
Definition codex_summary : str * str :=
  match @format_message sample_runtime (sample_clock 0) (u "codex")
          (VStr TURN_COMPLETE) (VDict codex_turn) with
  | Ok summary => summary
  | Raise _ => ([], [])
  end.

(** The page [build_email_html] gives for it. *)
Definition codex_page (title : str) : str :=
  match @build_email_html sample_runtime (sample_clock 0) title (u "codex")
          (VDict codex_turn) with
  | Ok page_html => page_html
  | Raise _ => []
  end.

Lemma email_only_settings_present (replies : nat -> option exn) (key : str) :
  In key required_settings ->
  get_config (environ (codex_run email_only_settings replies))
    (load_env (env_file (codex_run email_only_settings replies))) key []
  <> [].
Proof.
  intros [<-|[<-|[<-|[<-|[<-|[]]]]]]; vm_compute; discriminate.
Defined.

Lemma enabled_channels_round_trip_witness :
  get_enabled_channels [(u "NOTIFY_CHANNELS", u "email,slack,email")] []
  = [u "email"; u "slack"; u "email"].
Proof.
  apply (@enabled_channels_round_trip
           [(u "NOTIFY_CHANNELS", u "email,slack,email")] []
           [u "email"; u "slack"; u "email"]).
  - discriminate.
  - repeat constructor; try (vm_compute; reflexivity);
      intros H; vm_compute in H; intuition discriminate.
  - vm_compute. reflexivity.
Defined.

Lemma escape_html_plain_witness :
  _escape_html (u "plain text") = u "plain text".
Proof.
  apply (@escape_html_plain (u "plain text")).
  repeat constructor; vm_compute; discriminate.
Defined.

Lemma escape_html_injective_witness :
  _escape_html (u "a<b") = _escape_html (u "a<b") /\ u "a<b" = u "a<b".
Proof.
  split; [reflexivity|].
  exact (@escape_html_injective (u "a<b") (u "a<b") eq_refl).
Defined.

Lemma bold_sub_no_stars_witness :
  bold_sub (u "2 * 3 * 4") = u "2 * 3 * 4".
Proof.
  apply (@bold_sub_no_stars (u "2 * 3 * 4")). vm_compute. reflexivity.
Defined.

Lemma bold_sub_span_witness :
  bold_sub (u "see " ++ [42; 42] ++ u "this" ++ [42; 42] ++ u " now")%N
  = u "see " ++ u "<strong>" ++ u "this" ++ u "</strong>"
    ++ bold_sub (u " now").
Proof.
  apply (@bold_sub_span (u "see ") (u "this") (u " now"));
    try discriminate; intros H; vm_compute in H; intuition discriminate.
Defined.

Lemma text_without_fences_witness :
  text_parts (u "one" ++ [newline] ++ u "two")
  = map plain_line (split_on newline (u "one" ++ [newline] ++ u "two"))
  /\ _text_to_html (u "one" ++ [newline] ++ u "two")
     = join [newline]
         (map plain_line
            (split_on newline (u "one" ++ [newline] ++ u "two"))).
Proof.
  apply (@text_without_fences (u "one" ++ [newline] ++ u "two")).
  vm_compute. reflexivity.
Defined.

Lemma closed_fence_block_witness :
  text_parts
    (join [newline]
       ([u "intro"] ++ u "```python" :: [u "x = 1"] ++ u "```" :: [u "end"]))
  = map plain_line [u "intro"] ++ [pre_block [u "x = 1"]]
    ++ map plain_line [u "end"].
Proof.
  apply (@closed_fence_block [u "intro"] [u "x = 1"] [u "end"]
           (u "```python") (u "```")); try (vm_compute; reflexivity).
  repeat constructor; intros H; vm_compute in H; intuition discriminate.
Defined.

Lemma parse_input_argument_witness :
  @parse_input sample_runtime (codex_run mail_settings all_fine)
  = (Ok (u "codex", VStr TURN_COMPLETE, VDict codex_turn),
     codex_run mail_settings all_fine).
Proof.
  exact (@parse_input_argument sample_runtime
           (codex_run mail_settings all_fine) codex_turn
           ltac:(vm_compute; reflexivity)).
Defined.

Lemma parse_input_fallthrough_witness :
  @parse_input sample_runtime (piped_run piped_session_json)
  = (Ok (u "claude-code", VStr (u "stop"), VDict piped_session),
     piped_run piped_session_json).
Proof.
  refine (eq_trans (@parse_input_fallthrough sample_runtime
                      (piped_run piped_session_json) eq_refl) _).
  vm_compute. reflexivity.
Defined.

Lemma parse_input_sources_witness :
  let w := piped_run piped_session_json in
  let source := u "claude-code" in
  let event_type := VStr (u "stop") in
  let data := VDict piped_session in
  w = w
  /\ ((source, event_type, data) = no_data
      \/ (source = u "claude-code" /\ event_type = VStr (u "stop")
          /\ @stdin_json sample_runtime w = Some data)
      \/ (source = u "codex"
          /\ exists d,
               @argv_json sample_runtime w = Some (VDict d)
               /\ event_type = field d (u "type") (VStr [])
               /\ ((eq_str event_type TURN_COMPLETE = true
                    /\ data = VDict d)
                   \/ (eq_str event_type TURN_COMPLETE = false
                       /\ data = VNone)))).
Proof.
  exact (@parse_input_sources sample_runtime (piped_run piped_session_json)
           (piped_run piped_session_json) (u "claude-code")
           (VStr (u "stop")) (VDict piped_session)
           ltac:(vm_compute; reflexivity)).
Defined.

Lemma main_disabled_witness :
  @main sample_runtime (codex_run [] all_fine)
  = (Ok 0%Z, snd (print ErrNoChannels (codex_run [] all_fine))).
Proof.
  exact (@main_disabled sample_runtime (codex_run [] all_fine)
           ltac:(vm_compute; reflexivity)).
Defined.

Lemma main_early_exit_witness :
  @main sample_runtime
    (sample_world mail_settings
       [u "notify.py"; json_text "{`type`:`turn-started`}"] [] all_fine)
  = (Ok 0%Z,
     sample_world mail_settings
       [u "notify.py"; json_text "{`type`:`turn-started`}"] [] all_fine).
Proof.
  apply (@main_early_exit sample_runtime
           (sample_world mail_settings
              [u "notify.py"; json_text "{`type`:`turn-started`}"] []
              all_fine)
           (u "codex") (VStr (u "turn-started")) VNone).
  - vm_compute. discriminate.
  - vm_compute. reflexivity.
  - reflexivity.
Defined.

Lemma main_no_email_no_network_witness :
  net_log (snd (@main sample_runtime
                  (codex_run [(u "NOTIFY_CHANNELS", u "slack")] all_fine)))
  = [].
Proof.
  apply (@main_no_email_no_network sample_runtime
           (codex_run [(u "NOTIFY_CHANNELS", u "slack")] all_fine)).
  intros H. vm_compute in H. intuition discriminate.
Defined.

Lemma send_email_trace_witness :
  @send_email sample_runtime [] (u "title") (u "content") (u "codex")
    (VDict codex_turn) (sample_world mail_settings [] [] unreachable)
  = (Ok false,
     snd (print (ErrEmail OSError)
            (logged
               (snd (read_clock
                       (sample_world mail_settings [] [] unreachable)))
               [Connect true (u "smtp.example.org") 465]))).
Proof.
  refine (eq_trans
            (@send_email_trace sample_runtime [] (u "title") (u "content")
               (u "codex") (VDict codex_turn)
               (sample_world mail_settings [] [] unreachable) 465
               (codex_page (u "title"))
               (mail_settings_present unreachable)
               ltac:(vm_compute; reflexivity) ltac:(vm_compute; reflexivity)
               ltac:(vm_compute; reflexivity) ltac:(vm_compute; reflexivity))
            _).
  vm_compute. reflexivity.
Defined.

Lemma extract_texts_nonempty_witness :
  Forall (fun m => nonempty (msg_text m) = true)
         [Message user (u "fix bug"); Message assistant (u "done")]
  /\ (u "codex" <> u "claude-code"
      -> [Message user (u "fix bug"); Message assistant (u "done")] <> []).
Proof.
  exact (@extract_texts_nonempty sample_runtime codex_turn (u "codex")
           [Message user (u "fix bug"); Message assistant (u "done")]
           ltac:(vm_compute; reflexivity)).
Defined.

Lemma main_raises_from_payload_witness :
  let w := sample_world mail_settings [u "notify.py"; u "[1, 2]"] []
             all_fine in
  (exists w1, @parse_input sample_runtime w = (Raise AttributeError, w1))
  \/ exists source event_type data w1,
       @parse_input sample_runtime w = (Ok (source, event_type, data), w1)
       /\ truthy data = true
       /\ @format_message sample_runtime (clock w1 (clock_reads w1))
            source event_type data = Raise AttributeError.
Proof.
  exact (@main_raises_from_payload sample_runtime
           (sample_world mail_settings [u "notify.py"; u "[1, 2]"] []
              all_fine)
           AttributeError ltac:(vm_compute; reflexivity)).
Defined.

Lemma send_email_raises_witness :
  let env := [(u "SMTP_PORT", u "abc")] in
  let w := sample_world mail_settings [] [] unreachable in
  let r := @send_email sample_runtime env (u "title") (u "content")
             (u "codex") (VDict codex_turn) w in
  net_log (snd r) = net_log w
  /\ console (snd r) = console w
  /\ ((py_int (get_config (environ w) env (u "SMTP_PORT") (u "465"))
        = Raise ValueError /\ ValueError = ValueError)
      \/ (mime_text (u "content") = Raise ValueError
          /\ ValueError = UnicodeEncodeError)
      \/ (@build_email_html sample_runtime (clock w (clock_reads w))
            (u "title") (u "codex")
            (if truthy (VDict codex_turn) then VDict codex_turn
             else VDict []) = Raise ValueError
          /\ shape_error ValueError)
      \/ (exists page_html,
            @build_email_html sample_runtime (clock w (clock_reads w))
              (u "title") (u "codex")
              (if truthy (VDict codex_turn) then VDict codex_turn
               else VDict []) = Ok page_html
            /\ mime_text page_html = Raise ValueError
            /\ ValueError = UnicodeEncodeError)).
Proof.
  exact (@send_email_raises sample_runtime [(u "SMTP_PORT", u "abc")]
           (u "title") (u "content") (u "codex") (VDict codex_turn)
           (sample_world mail_settings [] [] unreachable) ValueError
           ltac:(vm_compute; reflexivity)).
Defined.

Lemma main_stdin_non_object_witness :
  fst (@main sample_runtime (piped_run (u "[1, 2]"))) = Raise AttributeError.
Proof.
  apply (@main_stdin_non_object sample_runtime (piped_run (u "[1, 2]"))
           (VList [VInt 1; VInt 2])).
  - vm_compute. discriminate.
  - reflexivity.
  - vm_compute. reflexivity.
  - reflexivity.
Defined.

Lemma main_unconfigured_witness :
  fst (@main sample_runtime
         (codex_run [(u "NOTIFY_CHANNELS", u "email")] all_fine))
  = Ok 1%Z
  /\ net_log (snd (@main sample_runtime
                     (codex_run [(u "NOTIFY_CHANNELS", u "email")]
                        all_fine)))
     = [].
Proof.
  apply (@main_unconfigured sample_runtime
           (codex_run [(u "NOTIFY_CHANNELS", u "email")] all_fine)
           (u "SMTP_HOST") (u "codex") (fst codex_summary)
           (snd codex_summary) (VStr TURN_COMPLETE) (VDict codex_turn)).
  - vm_compute. discriminate.
  - left. reflexivity.
  - vm_compute. reflexivity.
  - vm_compute. reflexivity.
  - reflexivity.
  - vm_compute. reflexivity.
Defined.

Lemma main_delivery_witness :
  let w := codex_run email_only_settings all_fine in
  fst (@main sample_runtime w) = Ok 0%Z
  /\ net_log (snd (@main sample_runtime w))
     = [Connect true (u "smtp.example.org") 465;
        Login (u "bot") (u "secret");
        Serialize;
        SendMail (u "bot@example.org")
          [u "dev@example.org"; u "ops@example.org"];
        Quit]
  /\ console (snd (@main sample_runtime w))
     = [OutSummary 1 1; OutChannel true (u "email")].
Proof.
  generalize
    (@main_delivery sample_runtime (codex_run email_only_settings all_fine)
       (u "codex") (fst codex_summary) (snd codex_summary)
       (VStr TURN_COMPLETE) (VDict codex_turn) 465
       (codex_page (fst codex_summary))
       ltac:(vm_compute; reflexivity) ltac:(vm_compute; reflexivity)
       eq_refl ltac:(vm_compute; reflexivity)
       (email_only_settings_present all_fine)
       ltac:(vm_compute; reflexivity) ltac:(vm_compute; reflexivity)
       ltac:(vm_compute; reflexivity) ltac:(vm_compute; reflexivity)).
  cbv zeta. intros H. vm_compute in H. vm_compute. exact H.
Defined.

Lemma page_shows_messages_witness :
  exists messages,
    @extract_conversation sample_runtime (VDict codex_turn) (u "codex")
    = Ok messages
    /\ messages <> []
    /\ codex_page (u "title")
       = page (choose_palette (u "title") (u "codex")) (u "title")
           (concat (map meta_row
                      (@meta_rows sample_runtime (sample_clock 0)
                         (VDict codex_turn))))
           (concat (map message_card messages)) (sample_clock 0).
Proof.
  apply (@page_shows_messages sample_runtime (sample_clock 0) (u "title")
           (u "codex") codex_turn (codex_page (u "title"))).
  - intros H. vm_compute in H. discriminate H.
  - vm_compute. reflexivity.
Defined.

(** A completed turn whose [input-messages] is [null]. *)
Definition codex_null_inputs : list (str * value) :=
  [(u "type", VStr TURN_COMPLETE); (u "input-messages", VNone)].

Lemma main_codex_turn_witness :
  fst (@main sample_runtime
         (sample_world mail_settings
            [u "notify.py";
             json_text "{`type`:`agent-turn-complete`,`input-messages`:null}"]
            [] all_fine))
  = Raise TypeError.
Proof.
  exact (@main_codex_turn sample_runtime
           (sample_world mail_settings
              [u "notify.py";
               json_text "{`type`:`agent-turn-complete`,`input-messages`:null}"]
              [] all_fine)
           codex_null_inputs
           ltac:(vm_compute; discriminate) ltac:(vm_compute; reflexivity)
           eq_refl).
Defined.

(* ================================================================= *)
(** ** The builtins at the edges *)

(** [int] does not skip the separators U+001C to U+001F, which
    [str.strip] removes; it reads the digits of every script. *)
Example int_separators :
  py_int ([28%N] ++ u "465") = Raise ValueError
  /\ strip ([28%N] ++ u "465") = u "465"
  /\ py_int ([160%N] ++ u " 4_65 ") = Ok 465%Z
  /\ py_int (u "٤٦٥") = Ok 465%Z.
Proof. vm_compute. repeat split; reflexivity. Qed.

(** [str.lower] beyond ASCII, with the two forms of the sigma. *)
Example lower_beyond_ascii :
  lower (u "ÉMAIL") = u "émail"
  /\ lower (u "ΟΔΟΣ ΣΟΦΟΣ") = u "οδος σοφος"
  /\ lower (u "İ") = [105; 775]%N
  /\ get_enabled_channels [(u "NOTIFY_CHANNELS", u " ÉMAIL ,Email")] []
     = [u "émail"; u "email"].
Proof. vm_compute. repeat split; reflexivity. Qed.
